(** * Caxios: response normalisation and error classification over Axios

    A shallow embedding of the caxios module (the config composers
    [withAcceptJSON] and [withCancelToken], the two response interceptors,
    the verb facades and the initialisation block), over a small model of
    the JavaScript object heap: objects are mutable property maps living
    at locations, functions read and write them through references, and a
    call either completes normally or throws a value. *)

From Stdlib Require Import ZArith String Ascii List DecimalString.
From stdpp Require Import gmap strings list fin_maps pretty.

Open Scope string_scope.
Open Scope Z_scope.

(** ** JavaScript values and the object heap *)

Abbreviation loc := positive.

(** The functions this module creates or passes around: the constant
    arrow functions [() => false] / [() => true] installed on rejected
    errors, and references to functions named in the module. *)
Inductive func : Type :=
  | ConstFn (b : bool)
  | NamedFn (name : string).

(** Numbers are the integers the module meets: status codes, the
    timeout, array lengths. *)
Inductive value : Type :=
  | VUndefined
  | VNull
  | VBool (b : bool)
  | VNum (n : Z)
  | VStr (s : string)
  | VFun (f : func)
  | VObj (l : loc).

(** What [instanceof] can tell apart. *)
Inductive proto : Type :=
  | ObjectProto
  | ErrorProto
  | SyntaxErrorProto
  | TypeErrorProto.

Record object : Type := Obj { obj_proto : proto; obj_props : gmap string value }.

Abbreviation heap := (gmap positive object).

#[global] Instance func_eq_dec : EqDecision func.
Proof. solve_decision. Defined.
#[global] Instance value_eq_dec : EqDecision value.
Proof. solve_decision. Defined.
#[global] Instance proto_eq_dec : EqDecision proto.
Proof. solve_decision. Defined.

(** ** Completions: a call returns or throws, and always leaves a heap *)

Inductive completion (A : Type) : Type :=
  | Normal (a : A)
  | Thrown (e : value).
Arguments Normal {A} a.
Arguments Thrown {A} e.

Definition js (A : Type) : Type := heap -> completion A * heap.

Definition js_ret {A} (a : A) : js A := fun h => (Normal a, h).

Definition js_bind {A B} (m : js A) (k : A -> js B) : js B :=
  fun h => match m h with
           | (Normal a, h') => k a h'
           | (Thrown e, h') => (Thrown e, h')
           end.

Definition throw {A} (e : value) : js A := fun h => (Thrown e, h).

(** An expression that only looks at the heap. *)
Definition js_read {A} (f : heap -> A) : js A := fun h => (Normal (f h), h).

#[global] Instance js_mret : MRet js := @js_ret.
#[global] Instance js_mbind : MBind js := fun A B k m => js_bind m k.

(** ** Primitive operations of the language *)

(** [{...}] and [new Error(...)]: a new object at a location not in use. *)
Definition alloc (o : object) : js positive :=
  fun h => let l := fresh (dom h) in (Normal l, <[l := o]> h).

Definition object_literal (ps : list (string * value)) : js value :=
  l ← alloc (Obj ObjectProto (list_to_map ps)); js_ret (VObj l).

Definition throw_TypeError {A} (msg : string) : js A :=
  l ← alloc (Obj TypeErrorProto {[ "message" := VStr msg ]}); throw (VObj l).

(** The value of property [k] of [v] in heap [h]: a property an object
    does not have reads [undefined], and a primitive has none of the
    property names this module reads. *)
Definition prop_of (h : heap) (v : value) (k : string) : value :=
  match v with
  | VObj l => match h !! l with
              | Some o => default VUndefined (obj_props o !! k)
              | None => VUndefined
              end
  | _ => VUndefined
  end.

(** [v.k] and [v[k]].  Reading a property of [undefined] or [null] is a
    TypeError. *)
Definition get_prop (v : value) (k : string) : js value :=
  match v with
  | VUndefined | VNull => throw_TypeError ("Cannot read property '" ++ k ++ "'")
  | _ => js_read (fun h => prop_of h v k)
  end.

(** [v.k = x].  Writing to [undefined] or [null] is a TypeError; writing
    to a primitive is dropped (the module is not in strict mode). *)
Definition set_prop (v : value) (k : string) (x : value) : js unit :=
  match v with
  | VUndefined | VNull => throw_TypeError ("Cannot set property '" ++ k ++ "'")
  | VObj l => fun h =>
      (Normal tt, alter (fun o => Obj (obj_proto o) (<[k := x]> (obj_props o))) l h)
  | _ => js_ret tt
  end.

Definition truthy (v : value) : bool :=
  match v with
  | VUndefined | VNull => false
  | VBool b => b
  | VNum n => negb (n =? 0)
  | VStr s => negb (String.eqb s EmptyString)
  | VFun _ | VObj _ => true
  end.

(** [typeof v === 'object'] *)
Definition typeof_object (v : value) : bool :=
  match v with
  | VNull | VObj _ => true
  | _ => false
  end.

(** [a === b] *)
Definition strict_eq (a b : value) : bool := bool_decide (a = b).

(** [v instanceof SyntaxError] *)
Definition instanceof_SyntaxError (v : value) (h : heap) : bool :=
  match v with
  | VObj l => match h !! l with
              | Some o => bool_decide (obj_proto o = SyntaxErrorProto)
              | None => false
              end
  | _ => false
  end.

(** The own enumerable properties [Object.assign] copies from a source:
    those of an object, the indexed characters of a string, none of any
    other primitive (and none of [undefined] or [null]). *)
Definition string_index_props (s : string) : gmap string value :=
  list_to_map (imap (fun i c => (pretty (N.of_nat i), VStr (String c EmptyString)))
                    (list_ascii_of_string s)).

Definition own_props (v : value) (h : heap) : gmap string value :=
  match v with
  | VObj l => match h !! l with Some o => obj_props o | None => ∅ end
  | VStr s => string_index_props s
  | _ => ∅
  end.

(** [Object.assign(target, ...sources)], for a target that is an object:
    each source in turn overwrites the target's properties. *)
Fixpoint Object_assign (target : positive) (sources : list value) : js value :=
  match sources with
  | [] => js_ret (VObj target)
  | s :: rest =>
      (fun h => (Normal tt,
                 alter (fun o => Obj (obj_proto o) (own_props s h ∪ obj_props o)) target h)) ;;
      Object_assign target rest
  end.

(** [delete v.k].  A primitive has nothing to delete. *)
Definition delete_prop (v : value) (k : string) : js unit :=
  match v with
  | VUndefined | VNull => throw_TypeError "Cannot convert undefined or null to object"
  | VObj l => fun h =>
      (Normal tt, alter (fun o => Obj (obj_proto o) (delete k (obj_props o))) l h)
  | _ => js_ret tt
  end.

(** The keys a target that is not an object of the heap holds read-only:
    the indices and the [length] of a string, the [name] and the [length]
    of a function. *)
Definition read_only_key (target : value) (k : string) : bool :=
  match target with
  | VStr s => bool_decide (k = "length") || bool_decide (is_Some (string_index_props s !! k))
  | VFun _ => bool_decide (k = "length") || bool_decide (k = "name")
  | _ => false
  end.

(** [Object.assign(target, ...sources)] for any target.  [undefined] and
    [null] are refused.  A primitive is wrapped in a temporary object that
    takes the copy and is the result; a function takes the copy itself
    (the model keeps no properties of functions).  A copy to a read-only
    key is a TypeError. *)
Definition Object_assign_value (target : value) (sources : list value) : js value :=
  match target with
  | VObj l => Object_assign l sources
  | VUndefined | VNull => throw_TypeError "Cannot convert undefined or null to object"
  | _ => fun h =>
      if existsb (fun s => existsb (fun kv => read_only_key target kv.1)
                                   (map_to_list (own_props s h))) sources
      then throw_TypeError "Cannot assign to read only property" h
      else match target with
           | VFun _ => js_ret target h
           | _ => (w ← alloc (Obj ObjectProto (own_props target h));
                   Object_assign w sources) h
           end
  end.

(** [v == n] for a number [n].  A boolean counts as 0 or 1, a string as
    the number the engine converts it to ([StringToNumber]; [None] for a
    text that is no integer), [undefined] and [null] equal no number.  An
    object or a function is first converted to a primitive by the engine
    ([ToPrimitive]), which may run code of the object and may throw. *)
Definition loose_eq_primitive (StringToNumber : string -> option Z) (v : value) (n : Z)
  : bool :=
  match v with
  | VNum m => m =? n
  | VBool b => (if b then 1 else 0) =? n
  | VStr s => match StringToNumber s with Some m => m =? n | None => false end
  | _ => false
  end.

Definition loose_eq_number (ToPrimitive : value -> js value)
    (StringToNumber : string -> option Z) (v : value) (n : Z) : js bool :=
  match v with
  | VObj _ | VFun _ =>
      p ← ToPrimitive v; js_ret (loose_eq_primitive StringToNumber p n)
  | _ => js_ret (loose_eq_primitive StringToNumber v n)
  end.

(** ** Config composers *)

(** A parameter with the default value [{}]: the default is taken when
    the argument is missing or [undefined], and only then. *)
Definition default_empty (arg : value) : js value :=
  match arg with
  | VUndefined => object_literal []
  | _ => js_ret arg
  end.

Definition withAcceptJSON (baseConfig : value) : js value :=
  baseConfig ← default_empty baseConfig;
  t1 ← alloc (Obj ObjectProto ∅);
  json ← object_literal [("Accept", VStr "application/json")];
  hdrs ← get_prop baseConfig "headers";
  defaultHeaders ← Object_assign t1 [json; hdrs];
  t2 ← alloc (Obj ObjectProto ∅);
  upd ← object_literal [("headers", defaultHeaders)];
  Object_assign t2 [baseConfig; upd].

Definition withCancelToken (baseConfig : value) : js value :=
  ct ← get_prop baseConfig "cancelToken";
  tok ← (if truthy ct then js_ret ct
         else cs ← get_prop baseConfig "cancelSource";
              src ← (if truthy cs then js_ret cs else object_literal []);
              get_prop src "token");
  cancelToken ← object_literal [("cancelToken", tok)];
  t ← alloc (Obj ObjectProto ∅);
  Object_assign t [baseConfig; cancelToken].

(** ** The engine's built-ins used by the interceptors *)

(** [String(v)], the conversion [JSON.parse] applies to its argument. *)
Definition to_string (v : value) : string :=
  match v with
  | VUndefined => "undefined"
  | VNull => "null"
  | VBool true => "true"
  | VBool false => "false"
  | VNum n => pretty n
  | VStr s => s
  | VFun (ConstFn true) => "() => true"
  | VFun (ConstFn false) => "() => false"
  | VFun (NamedFn name) => "function " ++ name ++ "() { [native code] }"
  | VObj _ => "[object Object]"
  end.

(** [s.indexOf(needle)]: the first position of [needle] in [s], or -1. *)
Definition string_indexOf (s needle : string) : Z :=
  match String.index 0 needle s with
  | Some i => Z.of_nat i
  | None => -1
  end.

(** [v.indexOf(needle)] as a method call: only a string has the method
    among the values of the model. *)
Definition indexOf (v : value) (needle : string) : js Z :=
  match v with
  | VStr s => js_ret (string_indexOf s needle)
  | VUndefined | VNull => throw_TypeError "Cannot read property 'indexOf'"
  | _ => throw_TypeError "indexOf is not a function"
  end.

(** What [JSON.parse] does with a text, as far as a caller that drops the
    parsed value can see. *)
Inductive parse_result : Type :=
  | Parsed
  | SyntaxError (message : string).

(** *** A recogniser for JSON texts (ECMA-404), the [JSON.parse] of the
    examples *)
Module Json.

Definition is_ws (c : ascii) : bool :=
  let n := nat_of_ascii c in
  Nat.eqb n 32 || Nat.eqb n 9 || Nat.eqb n 10 || Nat.eqb n 13.

Definition is_digit (c : ascii) : bool :=
  let n := nat_of_ascii c in Nat.leb 48 n && Nat.leb n 57.

Definition is_hex (c : ascii) : bool :=
  let n := nat_of_ascii c in
  is_digit c || (Nat.leb 65 n && Nat.leb n 70) || (Nat.leb 97 n && Nat.leb n 102).

(** The double quote and the backslash, by their codes. *)
Definition quote : ascii := ascii_of_nat 34.
Definition backslash : ascii := ascii_of_nat 92.

Definition is_simple_escape (c : ascii) : bool :=
  existsb (Ascii.eqb c) [quote; backslash; "/"; "b"; "f"; "n"; "r"; "t"]%char.

Fixpoint skip_ws (s : list ascii) : list ascii :=
  match s with
  | c :: r => if is_ws c then skip_ws r else s
  | [] => []
  end.

Fixpoint skip_digits (s : list ascii) : list ascii :=
  match s with
  | c :: r => if is_digit c then skip_digits r else s
  | [] => []
  end.

(** The rest of a string literal, after its opening quote. *)
Fixpoint scan_string (s : list ascii) : option (list ascii) :=
  match s with
  | [] => None
  | c :: r =>
      if Ascii.eqb c quote then Some r
      else if Ascii.eqb c backslash then
        match r with
        | e :: r' =>
            if is_simple_escape e then scan_string r'
            else if Ascii.eqb e "u" then
              match r' with
              | a :: r1 =>
                  match r1 with
                  | b :: r2 =>
                      match r2 with
                      | c' :: r3 =>
                          match r3 with
                          | d :: r4 =>
                              if is_hex a && is_hex b && is_hex c' && is_hex d
                              then scan_string r4 else None
                          | [] => None
                          end
                      | [] => None
                      end
                  | [] => None
                  end
              | [] => None
              end
            else None
        | [] => None
        end
      else if Nat.ltb (nat_of_ascii c) 32 then None
      else scan_string r
  end.

(** At least one digit, then the rest. *)
Definition scan_digits1 (s : list ascii) : option (list ascii) :=
  match s with
  | c :: r => if is_digit c then Some (skip_digits r) else None
  | [] => None
  end.

Definition scan_number (s : list ascii) : option (list ascii) :=
  let s1 := match s with
            | c :: r => if Ascii.eqb c "-" then r else s
            | [] => s
            end in
  s2 ← match s1 with
       | c :: r => if Ascii.eqb c "0" then Some r else scan_digits1 s1
       | [] => None
       end;
  s3 ← match s2 with
       | c :: r => if Ascii.eqb c "." then scan_digits1 r else Some s2
       | [] => Some s2
       end;
  match s3 with
  | c :: r =>
      if Ascii.eqb c "e" || Ascii.eqb c "E" then
        match r with
        | sg :: r' => if Ascii.eqb sg "+" || Ascii.eqb sg "-"
                      then scan_digits1 r' else scan_digits1 r
        | [] => None
        end
      else Some s3
  | [] => Some s3
  end.

Fixpoint strip_prefix (p s : list ascii) : option (list ascii) :=
  match p, s with
  | [], _ => Some s
  | a :: p', b :: s' => if Ascii.eqb a b then strip_prefix p' s' else None
  | _ :: _, [] => None
  end.

Fixpoint scan_value (fuel : nat) (s : list ascii) : option (list ascii) :=
  match fuel with
  | O => None
  | S f =>
      match skip_ws s with
      | [] => None
      | c :: r =>
          if Ascii.eqb c "{" then
            match skip_ws r with
            | c' :: r' => if Ascii.eqb c' "}" then Some r' else scan_members f r
            | [] => None
            end
          else if Ascii.eqb c "[" then
            match skip_ws r with
            | c' :: r' => if Ascii.eqb c' "]" then Some r' else scan_elements f r
            | [] => None
            end
          else if Ascii.eqb c quote then scan_string r
          else if Ascii.eqb c "t" then strip_prefix ["r"; "u"; "e"]%char r
          else if Ascii.eqb c "f" then strip_prefix ["a"; "l"; "s"; "e"]%char r
          else if Ascii.eqb c "n" then strip_prefix ["u"; "l"; "l"]%char r
          else scan_number (c :: r)
      end
  end
with scan_elements (fuel : nat) (s : list ascii) : option (list ascii) :=
  match fuel with
  | O => None
  | S f =>
      r ← scan_value f s;
      match skip_ws r with
      | c :: r' =>
          if Ascii.eqb c "," then scan_elements f r'
          else if Ascii.eqb c "]" then Some r' else None
      | [] => None
      end
  end
with scan_members (fuel : nat) (s : list ascii) : option (list ascii) :=
  match fuel with
  | O => None
  | S f =>
      match skip_ws s with
      | q :: r =>
          if Ascii.eqb q quote then
            r1 ← scan_string r;
            match skip_ws r1 with
            | c :: r2 =>
                if Ascii.eqb c ":" then
                  r3 ← scan_value f r2;
                  match skip_ws r3 with
                  | c' :: r4 =>
                      if Ascii.eqb c' "," then scan_members f r4
                      else if Ascii.eqb c' "}" then Some r4 else None
                  | [] => None
                  end
                else None
            | [] => None
            end
          else None
      | [] => None
      end
  end.

(** A JSON text is one value between optional white space. *)
Definition is_json (s : string) : bool :=
  let cs := list_ascii_of_string s in
  match scan_value (2 * length cs + 2) cs with
  | Some r => match skip_ws r with [] => true | _ => false end
  | None => false
  end.

Definition parse (s : string) : parse_result :=
  if is_json s then Parsed else SyntaxError "Unexpected token in JSON".

End Json.

(** *** Axios's own cancellation predicate, [!!(value && value.__CANCEL__)] *)
Definition axios_isCancel (v : value) (h : heap) : bool :=
  truthy v && truthy (prop_of h v "__CANCEL__").

(** ** The response interceptors *)

Section Interceptors.

(** The host's [JSON.parse] and the transport's cancellation predicate
    [axios.isCancel] are the collaborators of the two hooks. *)
Variable JSON_parse : string -> parse_result.
Variable isCancel : value -> heap -> bool.

Definition const_fn (b : bool) : value := VFun (ConstFn b).

Definition rejectedResponseInterceptor (ex : value) : js value :=
  set_prop ex "isValidation" (const_fn false);;
  set_prop ex "isNetwork" (const_fn false);;
  set_prop ex "isCancel" (const_fn false);;
  set_prop ex "isFormat" (const_fn false);;
  syntax ← js_read (instanceof_SyntaxError ex);
  (if syntax : bool then set_prop ex "isFormat" (const_fn true)
   else
     cancelled ← js_read (isCancel ex);
     if cancelled : bool then set_prop ex "isCancel" (const_fn true)
     else
       r ← get_prop ex "response";
       if negb (truthy r) then set_prop ex "isNetwork" (const_fn true)
       else
         st ← get_prop r "status";
         if strict_eq st (VNum 422) then set_prop ex "isValidation" (const_fn true)
         else js_ret tt);;
  throw ex.

Definition fulfilledResponseInterceptor (response : value) : js value :=
  cfg ← get_prop response "config";
  hdrs ← get_prop cfg "headers";
  accept ← get_prop hdrs "Accept";
  i ← indexOf accept "application/json";
  theResponseIsFine ←
    (if i <? 0 then js_ret true
     else
       j ← indexOf accept ",";
       if 0 <? j then js_ret true
       else d ← get_prop response "data"; js_ret (typeof_object d));
  if theResponseIsFine : bool then js_ret response
  else
    d ← get_prop response "data";
    match JSON_parse (to_string d) with
    | Parsed => js_ret response
    | SyntaxError msg =>
        ex ← alloc (Obj SyntaxErrorProto {[ "message" := VStr msg ]});
        set_prop (VObj ex) "response" response;;
        c ← get_prop response "config";
        set_prop (VObj ex) "config" c;;
        rejectedResponseInterceptor (VObj ex)
    end.

End Interceptors.

(** ** The verb facades *)

Section Facade.

(** [caxios.get], [caxios.post], ...: the transport call the facades
    delegate to, by verb name and argument list. *)
Variable transport : string -> list value -> js value.

Definition get (url config : value) : js value :=
  config ← default_empty config;
  cfg ← withCancelToken config;
  transport "get" [url; cfg].

Definition post (url data config : value) : js value :=
  data ← default_empty data;
  config ← default_empty config;
  cfg ← withCancelToken config;
  transport "post" [url; data; cfg].

Definition put (url data config : value) : js value :=
  data ← default_empty data;
  config ← default_empty config;
  cfg ← withCancelToken config;
  transport "put" [url; data; cfg].

Definition patch (url data config : value) : js value :=
  data ← default_empty data;
  config ← default_empty config;
  cfg ← withCancelToken config;
  transport "patch" [url; data; cfg].

Definition del (url data config : value) : js value :=
  data ← default_empty data;
  config ← default_empty config;
  cfg ← withCancelToken config;
  transport "delete" [url; data; cfg].

Definition getJSON (url config : value) : js value :=
  config ← default_empty config;
  cfg ← withAcceptJSON config;
  get url cfg.

Definition postJSON (url data config : value) : js value :=
  data ← default_empty data;
  config ← default_empty config;
  cfg ← withAcceptJSON config;
  post url data cfg.

Definition putJSON (url data config : value) : js value :=
  data ← default_empty data;
  config ← default_empty config;
  cfg ← withAcceptJSON config;
  put url data cfg.

Definition patchJSON (url data config : value) : js value :=
  data ← default_empty data;
  config ← default_empty config;
  cfg ← withAcceptJSON config;
  patch url data cfg.

Definition delJSON (url data config : value) : js value :=
  data ← default_empty data;
  config ← default_empty config;
  cfg ← withAcceptJSON config;
  del url data cfg.

End Facade.

(** ** The transport's client instances *)

Fixpoint forEach {A} (xs : list A) (f : A -> js unit) : js unit :=
  match xs with
  | [] => js_ret tt
  | x :: rest => f x;; forEach rest f
  end.

Module Axios.

(** [arr.push(x)] on an array kept as an object with index keys and a
    [length]. *)
Definition array_push (arr x : value) : js value :=
  len ← get_prop arr "length";
  match len with
  | VNum n =>
      set_prop arr (pretty n) x;;
      set_prop arr "length" (VNum (n + 1));;
      js_ret (VNum (n + 1))
  | _ => throw_TypeError "push is not a function"
  end.

(** [manager.use(fulfilled, rejected)]: registers the pair as the next
    handler of the interceptor manager. *)
Definition InterceptorManager_use (manager fulfilled rejected : value) : js value :=
  handlers ← get_prop manager "handlers";
  pair ← object_literal [("fulfilled", fulfilled); ("rejected", rejected)];
  n ← array_push handlers pair;
  match n with
  | VNum n => js_ret (VNum (n - 1))
  | _ => js_ret VUndefined
  end.

Definition new_InterceptorManager : js value :=
  handlers ← object_literal [("length", VNum 0)];
  object_literal [("handlers", handlers)].

(** A new object with the properties of [v]. *)
Definition copy_object (v : value) : js value :=
  fun h => (l ← alloc (Obj ObjectProto (own_props v h)); js_ret (VObj l)) h.

(** The header groups of a client's [defaults.headers]. *)
Definition header_groups : list string :=
  ["common"; "delete"; "get"; "head"; "post"; "put"; "patch"].

(** Modelled from the spec: the transport's [create()], which belongs to
    the Axios package and not to this repository.  By the transport
    contract (per-instance creation isolated from any global instance,
    with configurable default timeout and per-verb default headers and a
    response-interceptor registration point) the new instance starts from
    the defaults of the instance it is created from, held in objects of
    its own, and from interceptor managers of its own with no handler. *)
Definition create (axios : value) : js value :=
  defaults ← get_prop axios "defaults";
  headers ← get_prop defaults "headers";
  headers' ← copy_object headers;
  forEach header_groups (fun m =>
    g ← get_prop headers m;
    if typeof_object g && truthy g
    then g' ← copy_object g; set_prop headers' m g'
    else js_ret tt);;
  defaults' ← copy_object defaults;
  set_prop defaults' "headers" headers';;
  request ← new_InterceptorManager;
  response ← new_InterceptorManager;
  interceptors ← object_literal [("request", request); ("response", response)];
  object_literal [("defaults", defaults'); ("interceptors", interceptors)].

(** The package's own shared instance as a freshly loaded Axios has it:
    no timeout, form-encoded bodies for post, put and patch. *)
Definition load : js value :=
  let form := ("Content-Type", VStr "application/x-www-form-urlencoded") in
  common ← object_literal [("Accept", VStr "application/json, text/plain, */*")];
  g_delete ← object_literal [];
  g_get ← object_literal [];
  g_head ← object_literal [];
  g_post ← object_literal [form];
  g_put ← object_literal [form];
  g_patch ← object_literal [form];
  headers ← object_literal [("common", common); ("delete", g_delete); ("get", g_get);
                             ("head", g_head); ("post", g_post); ("put", g_put);
                             ("patch", g_patch)];
  defaults ← object_literal [("timeout", VNum 0); ("headers", headers)];
  request ← new_InterceptorManager;
  response ← new_InterceptorManager;
  interceptors ← object_literal [("request", request); ("response", response)];
  object_literal [("defaults", defaults); ("interceptors", interceptors)].

End Axios.

(** ** Initialisation *)

Definition fulfilled_ref : value := VFun (NamedFn "fulfilledResponseInterceptor").
Definition rejected_ref : value := VFun (NamedFn "rejectedResponseInterceptor").

Definition setCaxiosDefaults (caxios : value) : js unit :=
  defaults ← get_prop caxios "defaults";
  set_prop defaults "timeout" (VNum (1000 * 3));;
  forEach ["post"; "put"; "patch"] (fun m =>
    defaults ← get_prop caxios "defaults";
    headers ← get_prop defaults "headers";
    group ← get_prop headers m;
    set_prop group "Content-Type" (VStr "application/json"));;
  interceptors ← get_prop caxios "interceptors";
  response ← get_prop interceptors "response";
  Axios.InterceptorManager_use response fulfilled_ref rejected_ref;;
  js_ret tt.

(** Loading the module: [const caxios = axios.create()], then the
    immediately invoked [setCaxiosDefaults]. *)
Definition module_init (axios : value) : js value :=
  caxios ← Axios.create axios;
  setCaxiosDefaults caxios;;
  js_ret caxios.

(** ** The earlier revision of the module (index.js) *)

Module Legacy.

Section Interceptors.

Variable JSON_parse : string -> parse_result.

Definition fulfilledResponseInterceptor (response : value) : js value :=
  cfg ← get_prop response "config";
  hdrs ← get_prop cfg "headers";
  accept ← get_prop hdrs "Accept";
  fine ← (if negb (strict_eq accept (VStr "application/json")) then js_ret true
          else d ← get_prop response "data"; js_ret (typeof_object d));
  if fine : bool then js_ret response
  else
    d ← get_prop response "data";
    match JSON_parse (to_string d) with
    | Parsed => js_ret response
    | SyntaxError msg =>
        ex ← alloc (Obj SyntaxErrorProto {[ "message" := VStr msg ]});
        upd ← object_literal [("message", VStr ("Malformed JSON: " ++ msg));
                              ("status", VNum 415);
                              ("statusText", VStr "Unsupported Media Type")];
        e ← Object_assign ex [response; upd];
        throw e
    end.

End Interceptors.

Section Rejected.

(** [axios.isCancel], and the engine's two conversions behind [==]. *)
Variable isCancel : value -> heap -> bool.
Variable ToPrimitive : value -> js value.
Variable StringToNumber : string -> option Z.

Definition isCancelled (err : value) : js bool := js_read (isCancel err).

Definition isInvalid (err : value) : js bool :=
  status ← get_prop err "status";
  loose_eq_number ToPrimitive StringToNumber status 422.

Definition rejectedResponseInterceptor (ex : value) : js value :=
  r ← get_prop ex "response";
  is422 ← (if truthy r
           then r ← get_prop ex "response";
                status ← get_prop r "status";
                js_ret (strict_eq status (VNum 422))
           else js_ret false);
  message ← (if is422 : bool then js_ret (VStr "Validation errors")
             else get_prop ex "message");
  set_prop ex "message" message;;
  r ← get_prop ex "response";
  src ← (if truthy r then js_ret r
         else
           c ← get_prop ex "config";
           config ← (if truthy c then js_ret c else object_literal []);
           headers ← object_literal [];
           request ← object_literal [];
           cancelled ← isCancelled ex;
           object_literal
             [("status", VNum 503);
              ("statusText", VStr "Service Unavailable");
              ("config", config);
              ("headers", headers);
              ("request", request);
              ("data", VStr (if cancelled : bool then "Request cancelled"
                             else "Request timeout or server unavailable"))]);
  Object_assign_value ex [src];;
  delete_prop ex "response";;
  cancelled ← isCancelled ex;
  set_prop ex "cancelled" (VBool cancelled);;
  invalid ← isInvalid ex;
  set_prop ex "invalid" (VBool invalid);;
  throw ex.

End Rejected.

(** [setGlobalDefaults]: the same three settings, written to the Axios
    package's shared instance. *)
Definition setGlobalDefaults (axios : value) : js unit :=
  defaults ← get_prop axios "defaults";
  set_prop defaults "timeout" (VNum (1000 * 3));;
  forEach ["post"; "put"; "patch"] (fun m =>
    defaults ← get_prop axios "defaults";
    headers ← get_prop defaults "headers";
    group ← get_prop headers m;
    set_prop group "Content-Type" (VStr "application/json"));;
  interceptors ← get_prop axios "interceptors";
  response ← get_prop interceptors "response";
  Axios.InterceptorManager_use response fulfilled_ref rejected_ref;;
  js_ret tt.

End Legacy.

(** ** Observations on a heap *)

(** [v.k1.k2...] *)
Definition path (h : heap) (v : value) (ks : list string) : value :=
  fold_left (prop_of h) ks v.

(** [v.k()] for one of the four classification predicates: the boolean
    it returns, or nothing when [v.k] is not a function of the module. *)
Definition call_predicate (h : heap) (v : value) (k : string) : option bool :=
  match prop_of h v k with
  | VFun (ConstFn b) => Some b
  | _ => None
  end.

Definition predicates (h : heap) (v : value) : list (option bool) :=
  [call_predicate h v "isFormat"; call_predicate h v "isCancel";
   call_predicate h v "isNetwork"; call_predicate h v "isValidation"].


(** * Vocabulary of the statements *)

(** ** Outcomes of a call *)

(** [after m h Q]: running [m] from [h] ends in a completion and a heap
    that satisfy [Q]. *)
Definition after {A} (m : js A) (h : heap) (Q : completion A -> heap -> Prop) : Prop :=
  Q (m h).1 (m h).2.

Definition nullish (v : value) : bool :=
  match v with VUndefined | VNull => true | _ => false end.


(** The call threw a new TypeError and left the base heap as it was. *)
Definition threw_TypeError (h0 : heap) (c : completion value) (h' : heap) : Prop :=
  h0 ⊆ h' /\
  exists l o, c = Thrown (VObj l) /\ h0 !! l = None /\
              h' !! l = Some o /\ obj_proto o = TypeErrorProto.

(** ** The config composers *)

(** The properties the sources of an [Object.assign] leave on a target
    that had properties [ps]. *)
Definition assign_props (h : heap) (srcs : list value) (ps : gmap string value)
  : gmap string value :=
  foldl (fun ps s => own_props s h ∪ ps) ps srcs.

Definition json_type : value := VStr "application/json".

(** A value a caller can hold in heap [h]: not a reference to an object
    that does not exist. *)
Definition live (h : heap) (v : value) : Prop :=
  match v with
  | VObj l => is_Some (h !! l)
  | _ => True
  end.

(** The token [withCancelToken] settles on for a config with properties
    [ps]: the config's own [cancelToken], else the [token] of its
    [cancelSource], else [undefined]. *)
Definition cancel_token_of (h : heap) (ps : gmap string value) : value :=
  let ct := default VUndefined (ps !! "cancelToken") in
  if truthy ct then ct
  else
    let cs := default VUndefined (ps !! "cancelSource") in
    if truthy cs then prop_of h cs "token" else VUndefined.

(** A caller's config with a few headers and no Accept among them. *)
Definition plain_config_heap : heap :=
  {[ 1%positive := Obj ObjectProto {[ "headers" := VObj 2%positive; "timeout" := VNum 5 ]};
     2%positive := Obj ObjectProto {[ "X-Requested-With" := VStr "XMLHttpRequest" ]} ]}.

(** A caller's config that asks for HTML. *)
Definition html_config_heap : heap :=
  {[ 1%positive := Obj ObjectProto {[ "headers" := VObj 2%positive; "timeout" := VNum 5 ]};
     2%positive := Obj ObjectProto {[ "Accept" := VStr "text/html";
                                      "X-Requested-With" := VStr "XMLHttpRequest" ]} ]}.

(** The Accept header of the config a composer returned. *)
Definition accept_of (res : completion value * heap) : value :=
  match res.1 with
  | Normal cfg => path res.2 cfg ["headers"; "Accept"]
  | Thrown _ => VUndefined
  end.

(** The config a facade hands to the transport when its caller passed
    none: [{}] with the [cancelToken] that [withCancelToken] adds. *)
Definition default_config (h : heap) (cfg : value) : Prop :=
  exists l, cfg = VObj l /\
            h !! l = Some (Obj ObjectProto {[ "cancelToken" := VUndefined ]}).

(** The same for a JSON-suffixed facade: [{}] with the headers of
    [withAcceptJSON] and the [cancelToken] of [withCancelToken]. *)
Definition default_json_config (h : heap) (cfg : value) : Prop :=
  exists l hd, cfg = VObj l /\
    h !! l = Some (Obj ObjectProto {[ "headers" := VObj hd; "cancelToken" := VUndefined ]}) /\
    h !! hd = Some (Obj ObjectProto {[ "Accept" := json_type ]}).

(** A facade called without a config reaches the transport call, with
    its url, at most a data argument, and a config that is [good]. *)
Definition shielded (transport : string -> list value -> js value)
    (verb : string) (url : value) (call : value -> js value)
    (good : heap -> value -> Prop) (h : heap) : Prop :=
  exists (args : list value) (cfg : value) (h' : heap),
    call VUndefined h = transport verb (url :: args ++ [cfg]) h' /\
    (length args <= 1)%nat /\ good h' cfg.

(** ** The rejected-response hook *)

(** The five ways a failure is classified. *)
Inductive kind : Type :=
  | Format
  | Cancelled
  | Network
  | Validation
  | Other.

#[global] Instance kind_eq_dec : EqDecision kind.
Proof. solve_decision. Defined.

(** What the four predicates [isFormat], [isCancel], [isNetwork],
    [isValidation] return, in this order, for each classification. *)
Definition flags (c : kind) : list bool :=
  match c with
  | Format => [true; false; false; false]
  | Cancelled => [false; true; false; false]
  | Network => [false; false; true; false]
  | Validation => [false; false; false; true]
  | Other => [false; false; false; false]
  end.

(** The properties of a failure once the four predicates are installed. *)
Definition classified_props (c : kind) (ps : gmap string value) : gmap string value :=
  match flags c with
  | [fmt; can; net; val] =>
      <["isFormat" := const_fn fmt]> (<["isCancel" := const_fn can]>
        (<["isNetwork" := const_fn net]> (<["isValidation" := const_fn val]> ps)))
  | _ => ps
  end.

Definition predicate_names : list string :=
  ["isFormat"; "isCancel"; "isNetwork"; "isValidation"].

Section Classification.

Variable isCancel : value -> heap -> bool.

(** The classification rules as the specification lists them, in
    priority order; a failure is classified by the first rule that
    matches it and is unclassified when none does. *)
Definition is_parsing_error (h : heap) (ex : value) : bool :=
  instanceof_SyntaxError ex h.

Definition recognised_cancellation (h : heap) (ex : value) : bool :=
  isCancel ex h.

Definition no_response (h : heap) (ex : value) : bool :=
  negb (truthy (prop_of h ex "response")).

Definition response_status_422 (h : heap) (ex : value) : bool :=
  truthy (prop_of h ex "response") &&
  bool_decide (prop_of h (prop_of h ex "response") "status" = VNum 422).

Definition spec_rules : list (kind * (heap -> value -> bool)) :=
  [(Format, is_parsing_error); (Cancelled, recognised_cancellation);
   (Network, no_response); (Validation, response_status_422)].

Definition spec_first_match (h : heap) (ex : value) : kind :=
  match List.find (fun r => r.2 h ex) spec_rules with
  | Some r => r.1
  | None => Other
  end.

(** The cancellation predicate does not look at the four properties the
    hook installs. *)
Definition cancel_ignores_predicates : Prop :=
  forall (e : positive) (o : object) (hb : heap) (k : string) (x : value),
    k ∈ predicate_names ->
    isCancel (VObj e) (<[e := Obj (obj_proto o) (<[k := x]> (obj_props o))]> hb)
    = isCancel (VObj e) (<[e := o]> hb).

(** The classification the hook's branches arrive at for the failure
    object [oe] at [e]: the cancellation predicate is asked once the four
    predicates have been installed as [false]. *)
Definition branch_taken (hb : heap) (e : positive) (oe : object) : kind :=
  let h := <[e := oe]> hb in
  if bool_decide (obj_proto oe = SyntaxErrorProto) then Format
  else if isCancel (VObj e)
            (<[e := Obj (obj_proto oe) (classified_props Other (obj_props oe))]> hb)
       then Cancelled
  else if negb (truthy (prop_of h (VObj e) "response")) then Network
  else if bool_decide (prop_of h (prop_of h (VObj e) "response") "status" = VNum 422)
       then Validation
  else Other.

End Classification.

(** How many of the predicates return [true]. *)
Definition count_true (bs : list (option bool)) : nat :=
  length (filter (fun b => b = Some true) bs).

(** A transport error for a reply with status 500. *)
Definition server_error_heap : heap :=
  {[ 1%positive := Obj ErrorProto {[ "message" := VStr "Request failed with status code 500";
                                     "response" := VObj 2%positive ]};
     2%positive := Obj ObjectProto {[ "status" := VNum 500; "data" := VStr "oops" ]} ]}.

(** A transport error for a reply with status 422 and a body. *)
Definition validation_error_heap : heap :=
  {[ 1%positive := Obj ErrorProto {[ "message" := VStr "Request failed with status code 422";
                                     "response" := VObj 2%positive ]};
     2%positive := Obj ObjectProto {[ "status" := VNum 422; "data" := VObj 3%positive ]};
     3%positive := Obj ObjectProto {[ "name" := VStr "is required" ]} ]}.

(** A parsing error that carries a reply with status 422 (a reply the
    transport was configured to accept, whose body is not JSON). *)
Definition unparsable_422_heap : heap :=
  {[ 1%positive := Obj SyntaxErrorProto {[ "message" := VStr "Unexpected token < in JSON";
                                           "response" := VObj 2%positive ]};
     2%positive := Obj ObjectProto {[ "status" := VNum 422; "data" := VStr "<html></html>" ]} ]}.

(** A cancellation that carries a reply with status 422. *)
Definition cancelled_422_heap : heap :=
  {[ 1%positive := Obj ObjectProto {[ "message" := VStr "Operation canceled by the user.";
                                      "__CANCEL__" := VBool true;
                                      "response" := VObj 2%positive ]};
     2%positive := Obj ObjectProto {[ "status" := VNum 422; "data" := VStr "late reply" ]} ]}.

(** ** The fulfilled-response hook *)

(** The parsing error the hook raises for a response, once it has
    attached the response and its config. *)
Definition parse_failure (msg : string) (response config : value) : object :=
  Obj SyntaxErrorProto
      (<["config" := config]> (<["response" := response]> {[ "message" := VStr msg ]})).

(** The hook's test for a response that needs no second look. *)
Definition response_is_fine (accept : string) (data : value) : bool :=
  (string_indexOf accept "application/json" <? 0)
  || (0 <? string_indexOf accept ",")
  || typeof_object data.

(** A 200 reply with an HTML body to a request that accepted only JSON. *)
Definition html_reply_heap : heap :=
  {[ 1%positive := Obj ObjectProto {[ "status" := VNum 200; "config" := VObj 2%positive;
                                      "data" := VStr "<html></html>" ]};
     2%positive := Obj ObjectProto {[ "headers" := VObj 3%positive ]};
     3%positive := Obj ObjectProto {[ "Accept" := VStr "application/json" ]} ]}.

(** A 200 reply whose JSON body the transport left as a string. *)
Definition json_text_reply_heap : heap :=
  {[ 1%positive := Obj ObjectProto {[ "status" := VNum 200; "config" := VObj 2%positive;
                                      "data" := VStr "[1, 2.5e3, {}, null]" ]};
     2%positive := Obj ObjectProto {[ "headers" := VObj 3%positive ]};
     3%positive := Obj ObjectProto {[ "Accept" := VStr "application/json" ]} ]}.

(** A 200 reply to a request sent with no Accept header at all. *)
Definition no_accept_reply_heap : heap :=
  {[ 1%positive := Obj ObjectProto {[ "status" := VNum 200; "config" := VObj 2%positive;
                                      "data" := VStr "plain text" ]};
     2%positive := Obj ObjectProto {[ "headers" := VObj 3%positive ]};
     3%positive := Obj ObjectProto {[ "Content-Type" := VStr "application/json" ]} ]}.

(** ** Initialisation *)

(** [axios] is a client instance as the Axios package builds them: its
    [defaults.headers] has an object for each header group. *)
Definition is_client (h : heap) (axios : value) : Prop :=
  forall m, m ∈ Axios.header_groups ->
    exists g og, path h axios ["defaults"; "headers"; m] = VObj g /\ h !! g = Some og.

(** The settings of the module are in place on the instance [caxios]. *)
Definition installed (h : heap) (caxios : value) : Prop :=
  path h caxios ["defaults"; "timeout"] = VNum 3000 /\
  path h caxios ["defaults"; "headers"; "post"; "Content-Type"] = VStr "application/json" /\
  path h caxios ["defaults"; "headers"; "put"; "Content-Type"] = VStr "application/json" /\
  path h caxios ["defaults"; "headers"; "patch"; "Content-Type"] = VStr "application/json" /\
  path h caxios ["interceptors"; "response"; "handlers"; "length"] = VNum 1 /\
  path h caxios ["interceptors"; "response"; "handlers"; "0"; "fulfilled"] = fulfilled_ref /\
  path h caxios ["interceptors"; "response"; "handlers"; "0"; "rejected"] = rejected_ref.

(** The outcome of loading the module from heap [h0]: a new instance with
    the settings installed, over an unchanged [h0]. *)
Definition initialised (h0 : heap) (c : completion value) (h' : heap) : Prop :=
  h0 ⊆ h' /\
  exists cx, c = Normal (VObj cx) /\ h0 !! cx = None /\ installed h' (VObj cx).

(** The heap right after the Axios package is loaded, and its shared
    instance. *)
Definition loaded_axios_heap : heap := (Axios.load ∅).2.

Definition loaded_axios : value :=
  match (Axios.load ∅).1 with
  | Normal ax => ax
  | Thrown e => e
  end.

(** ** Further examples *)

(** A transport error with no response: the server could not be reached. *)
Definition network_error_heap : heap :=
  {[ 1%positive := Obj ErrorProto {[ "message" := VStr "Network Error";
                                     "config" := VObj 2%positive ]};
     2%positive := Obj ObjectProto {[ "url" := VStr "/some/data" ]} ]}.

(** A 200 reply to a request sent with Axios's stock Accept header. *)
Definition stock_accept_reply_heap : heap :=
  {[ 1%positive := Obj ObjectProto {[ "status" := VNum 200; "config" := VObj 2%positive;
                                      "data" := VStr "plain text" ]};
     2%positive := Obj ObjectProto {[ "headers" := VObj 3%positive ]};
     3%positive := Obj ObjectProto
                     {[ "Accept" := VStr "application/json, text/plain, */*" ]} ]}.

(** A 200 reply with no data at all, to a request whose Accept names the
    JSON type with a parameter. *)
Definition charset_accept_reply_heap : heap :=
  {[ 1%positive := Obj ObjectProto {[ "status" := VNum 200; "config" := VObj 2%positive ]};
     2%positive := Obj ObjectProto {[ "headers" := VObj 3%positive ]};
     3%positive := Obj ObjectProto
                     {[ "Accept" := VStr "application/json; charset=utf-8" ]} ]}.

(** A 200 reply whose body the transport parsed to the number 42. *)
Definition number_reply_heap : heap :=
  {[ 1%positive := Obj ObjectProto {[ "status" := VNum 200; "config" := VObj 2%positive;
                                      "data" := VNum 42 ]};
     2%positive := Obj ObjectProto {[ "headers" := VObj 3%positive ]};
     3%positive := Obj ObjectProto {[ "Accept" := VStr "application/json" ]} ]}.

(** A caller's config with a cancellation source and a header. *)
Definition cancellable_config_heap : heap :=
  {[ 1%positive := Obj ObjectProto {[ "cancelSource" := VObj 2%positive;
                                      "headers" := VObj 3%positive ]};
     2%positive := Obj ObjectProto {[ "token" := VObj 4%positive ]};
     3%positive := Obj ObjectProto {[ "X-Requested-With" := VStr "XMLHttpRequest" ]};
     4%positive := Obj ObjectProto ∅ ]}.

(** A transport that resolves at once with the last argument it was
    given, the config. *)
Definition echo_transport (verb : string) (args : list value) : js value :=
  js_ret (default VUndefined (last args)).

(** The config a facade hands to the transport for a caller's config
    with properties [ps]: a new object with the caller's properties and
    the [cancelToken] that [withCancelToken] settles on. *)
Definition composed_config (h : heap) (ps : gmap string value) (h' : heap) (cfg : value)
  : Prop :=
  exists r, cfg = VObj r /\ h !! r = None /\
    h' !! r = Some (Obj ObjectProto (<["cancelToken" := cancel_token_of h ps]> ps)).

(** The same for a JSON-suffixed facade: the [headers] are a new mapping,
    the caller's headers [hs] over the JSON default. *)
Definition composed_json_config (h : heap) (ps hs : gmap string value) (h' : heap)
    (cfg : value) : Prop :=
  exists r hd, cfg = VObj r /\ h !! r = None /\ h !! hd = None /\
    h' !! r = Some (Obj ObjectProto
                      (<["cancelToken" := cancel_token_of h ps]>
                         (<["headers" := VObj hd]> ps))) /\
    h' !! hd = Some (Obj ObjectProto (hs ∪ {[ "Accept" := json_type ]})).

(** The data argument a facade hands on: the caller's, or a new empty
    object when the caller gave none. *)
Definition passed_data (h : heap) (data : value) (h' : heap) (data' : value) : Prop :=
  if bool_decide (data = VUndefined)
  then exists l, data' = VObj l /\ h !! l = None /\ h' !! l = Some (Obj ObjectProto ∅)
  else data' = data.

(** ** The earlier revision's hooks *)

(** The cancellation predicate looks at the failure's [__CANCEL__] mark
    and at nothing else. *)
Definition cancel_reads_mark (isCancel : value -> heap -> bool) : Prop :=
  forall v h1 h2,
    prop_of h1 v "__CANCEL__" = prop_of h2 v "__CANCEL__" -> isCancel v h1 = isCancel v h2.

(** [v] is an empty object created since heap [h]. *)
Definition new_empty (h h' : heap) (v : value) : Prop :=
  exists l, v = VObj l /\ h !! l = None /\ h' !! l = Some (Obj ObjectProto ∅).

(** The fields of a response, which the earlier revision gives every
    rejected failure, and the fields its hook settles itself. *)
Definition response_fields : list string :=
  ["status"; "statusText"; "config"; "headers"; "request"; "data"].

Definition settled_fields : list string := ["response"; "cancelled"; "invalid"].

(** A value [==] compares without converting it to a primitive first. *)
Definition primitive (v : value) : Prop :=
  match v with
  | VObj _ | VFun _ => False
  | _ => True
  end.

(** The conversions of the examples: an object converts to its default
    text, and a string of decimal digits to the number it writes. *)
Definition default_ToPrimitive (v : value) : js value := js_ret (VStr (to_string v)).

Definition decimal_StringToNumber (s : string) : option Z :=
  option_map Z.of_uint (NilEmpty.uint_of_string s).

(** The response the earlier revision's hook makes up for a failure that
    has none. *)
Definition unavailable (config headers request : value) (cancelled : bool)
  : gmap string value :=
  list_to_map
    [("status", VNum 503);
     ("statusText", VStr "Service Unavailable");
     ("config", config);
     ("headers", headers);
     ("request", request);
     ("data", VStr (if cancelled then "Request cancelled"
                    else "Request timeout or server unavailable"))].

(** The heap after the assignment [l.k = x]. *)
Definition write (h : heap) (l : positive) (k : string) (x : value) : heap :=
  alter (fun o => Obj (obj_proto o) (<[k := x]> (obj_props o))) l h.

(** The pair of hooks as the module registers it. *)
Definition hook_pair : object :=
  Obj ObjectProto {[ "fulfilled" := fulfilled_ref; "rejected" := rejected_ref ]}.

(** What the earlier revision's rejected-response hook leaves of a failure
    object [oe] at [e] that has no response: the failure is thrown back
    with the fields of a 503 reply, its own config when it has one, the
    two flags, and nothing else changed. *)
Definition no_response_outcome (isCancel : value -> heap -> bool)
    (h : heap) (e : positive) (oe : object) (c : completion value) (h' : heap) : Prop :=
  c = Thrown (VObj e) /\
  (exists o', h' !! e = Some o' /\ obj_proto o' = obj_proto oe /\
              obj_props o' !! "response" = None) /\
  prop_of h' (VObj e) "status" = VNum 503 /\
  prop_of h' (VObj e) "statusText" = VStr "Service Unavailable" /\
  prop_of h' (VObj e) "data"
    = VStr (if isCancel (VObj e) h then "Request cancelled"
            else "Request timeout or server unavailable") /\
  new_empty h h' (prop_of h' (VObj e) "headers") /\
  new_empty h h' (prop_of h' (VObj e) "request") /\
  (if truthy (prop_of h (VObj e) "config")
   then prop_of h' (VObj e) "config" = prop_of h (VObj e) "config"
   else new_empty h h' (prop_of h' (VObj e) "config")) /\
  prop_of h' (VObj e) "cancelled" = VBool (isCancel (VObj e) h) /\
  prop_of h' (VObj e) "invalid" = VBool false /\
  (forall k, k ∉ (response_fields ++ settled_fields)%list ->
             prop_of h' (VObj e) k = prop_of h (VObj e) k) /\
  (forall l o, l ≠ e -> h !! l = Some o -> h' !! l = Some o).

(** What it leaves of a failure object [oe] at [e] whose response is the
    object [ore], with status [st]: the response's properties are merged
    into the failure and the [response] property is removed. *)
Definition merged_outcome (isCancel : value -> heap -> bool)
    (StringToNumber : string -> option Z)
    (h : heap) (e : positive) (oe ore : object) (st : value) (h' : heap) : Prop :=
  (exists o', h' !! e = Some o' /\ obj_proto o' = obj_proto oe /\
              obj_props o' !! "response" = None) /\
  (forall k v, obj_props ore !! k = Some v -> k ∉ settled_fields ->
               prop_of h' (VObj e) k = v) /\
  (forall k, obj_props ore !! k = None -> k ∉ "message" :: settled_fields ->
             prop_of h' (VObj e) k = prop_of h (VObj e) k) /\
  (obj_props ore !! "message" = None ->
   prop_of h' (VObj e) "message"
   = if strict_eq st (VNum 422) then VStr "Validation errors"
     else prop_of h (VObj e) "message") /\
  prop_of h' (VObj e) "cancelled" = VBool (isCancel (VObj e) h') /\
  (obj_props ore !! "__CANCEL__" = None -> isCancel (VObj e) h' = isCancel (VObj e) h) /\
  prop_of h' (VObj e) "invalid" = VBool (loose_eq_primitive StringToNumber st 422) /\
  (forall l o, l ≠ e -> h !! l = Some o -> h' !! l = Some o).

(** A transport error for a reply whose status a proxy rewrote to the
    string '422'. *)
Definition string_status_error_heap : heap :=
  {[ 1%positive := Obj ErrorProto {[ "message" := VStr "Request failed with status code 422";
                                     "response" := VObj 2%positive ]};
     2%positive := Obj ObjectProto {[ "status" := VStr "422"; "data" := VStr "late reply" ]} ]}.

(** * Reasoning about completions *)

Lemma after_ret {A} (a : A) h (Q : completion A -> heap -> Prop) :
  Q (Normal a) h -> after (js_ret a) h Q.
Proof. done. Qed.

Lemma after_throw {A} e h (Q : completion A -> heap -> Prop) :
  Q (Thrown e) h -> after (throw e) h Q.
Proof. done. Qed.

Lemma after_bind {A B} (m : js A) (k : A -> js B) h (Q : completion B -> heap -> Prop) :
  after m h (fun c h' => match c with
                         | Normal a => after (k a) h' Q
                         | Thrown e => Q (Thrown e) h'
                         end) ->
  after (m ≫= k) h Q.
Proof.
  unfold after, mbind, js_mbind, js_bind.
  by destruct (m h) as [[a|e] h'].
Qed.

Lemma fresh_heap (h : heap) : h !! fresh (dom h) = None.
Proof. apply not_elem_of_dom, is_fresh. Qed.

Lemma after_alloc o h (Q : completion positive -> heap -> Prop) :
  (forall l, h !! l = None -> Q (Normal l) (<[l := o]> h)) ->
  after (alloc o) h Q.
Proof. intros HQ. apply HQ, fresh_heap. Qed.

Lemma after_object_literal ps h (Q : completion value -> heap -> Prop) :
  (forall l, h !! l = None ->
             Q (Normal (VObj l)) (<[l := Obj ObjectProto (list_to_map ps)]> h)) ->
  after (object_literal ps) h Q.
Proof. intros HQ. apply HQ, fresh_heap. Qed.

Lemma after_throw_TypeError {A} msg h (Q : completion A -> heap -> Prop) :
  (forall l, h !! l = None ->
             Q (Thrown (VObj l)) (<[l := Obj TypeErrorProto {[ "message" := VStr msg ]}]> h)) ->
  after (throw_TypeError msg) h Q.
Proof. intros HQ. apply HQ, fresh_heap. Qed.

Lemma after_get_prop v k h (Q : completion value -> heap -> Prop) :
  (if nullish v
   then forall l o, h !! l = None -> obj_proto o = TypeErrorProto ->
                    Q (Thrown (VObj l)) (<[l := o]> h)
   else Q (Normal (prop_of h v k)) h) ->
  after (get_prop v k) h Q.
Proof.
  destruct v; simpl; intros HQ; try exact HQ;
    apply after_throw_TypeError; intros; by apply HQ.
Qed.

Lemma after_set_prop v k x h (Q : completion unit -> heap -> Prop) :
  (match v with
   | VUndefined | VNull =>
       forall l o, h !! l = None -> obj_proto o = TypeErrorProto ->
                   Q (Thrown (VObj l)) (<[l := o]> h)
   | VObj l => Q (Normal tt)
                 (alter (fun o => Obj (obj_proto o) (<[k := x]> (obj_props o))) l h)
   | _ => Q (Normal tt) h
   end) ->
  after (set_prop v k x) h Q.
Proof.
  destruct v; simpl; intros HQ; try exact HQ;
    apply after_throw_TypeError; intros; by apply HQ.
Qed.

(** *** Heaps that only grow over a base heap *)

Lemma grow_insert (h0 h : heap) l o :
  h0 ⊆ h -> h !! l = None -> h0 ⊆ <[l := o]> h.
Proof.
  intros Hsub Hl. apply insert_subseteq_r; [|done].
  by eapply lookup_weaken_None.
Qed.

Lemma grow_alter (h0 h : heap) l f :
  h0 ⊆ h -> h0 !! l = None -> h0 ⊆ alter f l h.
Proof.
  intros Hsub Hl. apply map_subseteq_spec. intros i o Hi.
  destruct (decide (l = i)) as [->|Hne]; [congruence|].
  rewrite lookup_alter_ne by done. by eapply lookup_weaken.
Qed.

Lemma grow_fresh (h0 h : heap) l : h0 ⊆ h -> h !! l = None -> h0 !! l = None.
Proof. intros. by eapply lookup_weaken_None. Qed.



Lemma after_mono {A} (m : js A) h (Q Q' : completion A -> heap -> Prop) :
  after m h Q -> (forall c h', Q c h' -> Q' c h') -> after m h Q'.
Proof. unfold after. auto. Qed.

Lemma after_elim {A} (m : js A) h (Q : completion A -> heap -> Prop) :
  after m h Q -> exists c h', m h = (c, h') /\ Q c h'.
Proof. unfold after. destruct (m h) as [c h']. eauto. Qed.

Lemma own_props_alter_ne s t f (h : heap) :
  s ≠ VObj t -> own_props s (alter f t h) = own_props s h.
Proof.
  intros Hne. destruct s; try done. simpl.
  rewrite lookup_alter_ne; [done|congruence].
Qed.

Lemma Object_assign_run t srcs h :
  VObj t ∉ srcs ->
  Object_assign t srcs h =
    (Normal (VObj t),
     alter (fun o => Obj (obj_proto o) (assign_props h srcs (obj_props o))) t h).
Proof.
  revert h. induction srcs as [|s rest IH]; intros h Hnot; simpl.
  - unfold js_ret. f_equal. symmetry. apply map_eq. intros i.
    rewrite lookup_alter. case_decide; subst; [|done].
    by destruct (h !! i) as [[]|].
  - apply not_elem_of_cons in Hnot as [Hs Hrest].
    unfold mbind, js_mbind, js_bind. rewrite IH by done.
    f_equal. rewrite alter_alter_eq. apply alter_ext. intros o _. simpl. f_equal.
    unfold assign_props. simpl. generalize (own_props s h ∪ obj_props o).
    clear IH. induction rest as [|s' rest IH]; intros ps; [done|]. simpl.
    apply not_elem_of_cons in Hrest as [Hs' Hrest].
    rewrite own_props_alter_ne by congruence. by apply IH.
Qed.

(** * The config composers *)

Lemma after_Object_assign_run t srcs h (Q : completion value -> heap -> Prop) :
  VObj t ∉ srcs ->
  Q (Normal (VObj t))
    (alter (fun o => Obj (obj_proto o) (assign_props h srcs (obj_props o))) t h) ->
  after (Object_assign t srcs) h Q.
Proof. intros Hnot HQ. unfold after. by rewrite Object_assign_run. Qed.

Lemma live_fresh (h : heap) v l : live h v -> h !! l = None -> v ≠ VObj l.
Proof. intros Hlive Hl ->. simpl in Hlive. rewrite Hl in Hlive. by destruct Hlive. Qed.

Lemma own_props_insert_ne v l o (h : heap) :
  v ≠ VObj l -> own_props v (<[l := o]> h) = own_props v h.
Proof.
  intros Hne. destruct v; try done. simpl.
  rewrite lookup_insert_ne; [done|congruence].
Qed.

Lemma prop_of_insert_ne v l o k (h : heap) :
  v ≠ VObj l -> prop_of (<[l := o]> h) v k = prop_of h v k.
Proof.
  intros Hne. destruct v; try done. simpl.
  rewrite lookup_insert_ne; [done|congruence].
Qed.

(** What a location being unused in a heap built by insertions and
    in-place updates says about the heap underneath. *)
Ltac split_fresh H :=
  repeat first
    [ rewrite lookup_alter_None in H
    | let Hne := fresh "Hne" in
      apply lookup_insert_None in H as [H Hne] ].

(** Lookups through insertions and in-place updates at known-distinct
    locations. *)
Ltac heap_lookup :=
  repeat first
    [ rewrite lookup_insert_eq
    | rewrite lookup_alter_eq
    | rewrite lookup_insert_ne by congruence
    | rewrite lookup_alter_ne by congruence ].

Lemma withAcceptJSON_run (h : heap) (c : positive) (oc : object) :
  h !! c = Some oc ->
  let hv := default VUndefined (obj_props oc !! "headers") in
  live h hv ->
  exists (r hd : positive) (h' : heap),
    withAcceptJSON (VObj c) h = (Normal (VObj r), h') /\
    h !! r = None /\ h !! hd = None /\ h ⊆ h' /\
    h' !! r = Some (Obj ObjectProto (<["headers" := VObj hd]> (obj_props oc))) /\
    h' !! hd = Some (Obj ObjectProto (own_props hv h ∪ {[ "Accept" := json_type ]})).
Proof.
  intros Hc hv Hlive.
  cut (after (withAcceptJSON (VObj c)) h (fun c' h' =>
         exists r hd, c' = Normal (VObj r) /\ h !! r = None /\ h !! hd = None /\ h ⊆ h' /\
           h' !! r = Some (Obj ObjectProto (<["headers" := VObj hd]> (obj_props oc))) /\
           h' !! hd = Some (Obj ObjectProto (own_props hv h ∪ {[ "Accept" := json_type ]})))).
  { intros (c' & h' & Hrun & r & hd & -> & ?)%after_elim. by exists r, hd, h'. }
  unfold withAcceptJSON.
  apply after_bind, after_ret.
  apply after_bind, after_alloc. intros t1 Ht1.
  apply after_bind, after_object_literal. intros l2 Hl2.
  apply lookup_insert_None in Hl2 as [Hl2 Hne21].
  assert (Hct1 : c ≠ t1) by congruence.
  assert (Hcl2 : c ≠ l2) by congruence.
  apply after_bind, after_get_prop. simpl nullish. cbv iota.
  rewrite !prop_of_insert_ne by congruence.
  replace (prop_of h (VObj c) "headers") with hv by (simpl; by rewrite Hc).
  apply after_bind, after_Object_assign_run.
  { rewrite !not_elem_of_cons. split_and!; [congruence| |apply not_elem_of_nil].
    intros E. by apply (live_fresh h hv t1). }
  apply after_bind, after_alloc. intros t2 Ht2. split_fresh Ht2.
  apply after_bind, after_object_literal. intros l4 Hl4. split_fresh Hl4.
  assert (Hct2 : c ≠ t2) by congruence.
  assert (Hcl4 : c ≠ l4) by congruence.
  apply after_Object_assign_run.
  { rewrite !not_elem_of_cons. split_and!; [congruence|congruence|apply not_elem_of_nil]. }
  exists t2, t1. split_and!; try done.
  - repeat first [apply grow_insert | apply grow_alter]; try done.
    all: repeat first [rewrite lookup_insert_ne by done | rewrite lookup_alter_ne by done]; done.
  - heap_lookup. simpl. f_equal. f_equal. unfold assign_props. simpl.
    heap_lookup. rewrite Hc. simpl.
    rewrite (right_id_L ∅ (∪)). by rewrite insert_empty, <- insert_union_singleton_l.
  - heap_lookup. simpl. f_equal. f_equal. unfold assign_props. simpl.
    heap_lookup. simpl. rewrite (right_id_L ∅ (∪)).
    rewrite !own_props_insert_ne by eauto using live_fresh.
    by rewrite insert_empty.
Qed.

(** *** Calls that leave every object of a base heap as it was *)

Section Frame.

Variable h0 : heap.

Lemma frame_alloc o h (Q : completion positive -> heap -> Prop) :
  h0 ⊆ h ->
  (forall l h', h0 ⊆ h' -> h0 !! l = None -> Q (Normal l) h') ->
  after (alloc o) h Q.
Proof.
  intros Hsub HQ. apply after_alloc. intros l Hl.
  apply HQ; [by apply grow_insert | by eapply grow_fresh].
Qed.

Lemma frame_object_literal ps h (Q : completion value -> heap -> Prop) :
  h0 ⊆ h ->
  (forall l h', h0 ⊆ h' -> h0 !! l = None -> Q (Normal (VObj l)) h') ->
  after (object_literal ps) h Q.
Proof.
  intros Hsub HQ. apply after_object_literal. intros l Hl.
  apply HQ; [by apply grow_insert | by eapply grow_fresh].
Qed.



Lemma frame_get_prop_nullish v k h :
  h0 ⊆ h -> nullish v = true -> after (get_prop v k) h (threw_TypeError h0).
Proof.
  intros Hsub Hv. apply after_get_prop. rewrite Hv. intros l o Hl Ho. split.
  - by apply grow_insert.
  - exists l, o. split_and!; [done|by eapply grow_fresh|by rewrite lookup_insert_eq|done].
Qed.



Lemma withCancelToken_throws baseConfig h :
  h0 ⊆ h -> nullish baseConfig = true ->
  after (withCancelToken baseConfig) h (threw_TypeError h0).
Proof.
  intros Hsub Hb. unfold withCancelToken.
  apply after_bind.
  eapply (after_mono _ _ _ _ (frame_get_prop_nullish _ _ _ Hsub Hb)).
  intros [v|e] h' Hthrew; [|done].
  destruct Hthrew as (_ & l & o & [=] & _).
Qed.

End Frame.

Lemma bind_run {A B} (m : js A) (k : A -> js B) h a h' :
  m h = (Normal a, h') -> (m ≫= k) h = k a h'.
Proof. intros E. unfold mbind, js_mbind, js_bind. by rewrite E. Qed.

Lemma withCancelToken_run (h : heap) (c : positive) (oc : object) :
  h !! c = Some oc ->
  exists (r : positive) (h' : heap),
    withCancelToken (VObj c) h = (Normal (VObj r), h') /\
    h !! r = None /\ h ⊆ h' /\
    h' !! r = Some (Obj ObjectProto
                      (<["cancelToken" := cancel_token_of h (obj_props oc)]> (obj_props oc))).
Proof.
  intros Hc.
  cut (after (withCancelToken (VObj c)) h (fun c' h' =>
         exists r, c' = Normal (VObj r) /\ h !! r = None /\ h ⊆ h' /\
           h' !! r = Some (Obj ObjectProto
             (<["cancelToken" := cancel_token_of h (obj_props oc)]> (obj_props oc))))).
  { intros (c' & h' & Hrun & r & -> & ?)%after_elim. by exists r, h'. }
  unfold withCancelToken.
  apply after_bind, after_get_prop. simpl nullish. cbv iota.
  apply after_bind.
  assert (Hrest : forall h1, h ⊆ h1 ->
    after (object_literal [("cancelToken", cancel_token_of h (obj_props oc))] ≫=
           fun cancelToken => alloc (Obj ObjectProto ∅) ≫= fun t =>
           Object_assign t [VObj c; cancelToken]) h1
      (fun c' h' => exists r, c' = Normal (VObj r) /\ h !! r = None /\ h ⊆ h' /\
           h' !! r = Some (Obj ObjectProto
             (<["cancelToken" := cancel_token_of h (obj_props oc)]> (obj_props oc))))).
  { intros h1 H1.
    assert (Hc1 : h1 !! c = Some oc) by (by eapply lookup_weaken).
    apply after_bind, after_object_literal. intros l Hl.
    apply after_bind, after_alloc. intros t Ht. split_fresh Ht.
    assert (c ≠ l) by congruence. assert (c ≠ t) by congruence.
    apply after_Object_assign_run.
    { rewrite !not_elem_of_cons. split_and!; [congruence|congruence|apply not_elem_of_nil]. }
    exists t. split_and!; [done|by eapply grow_fresh| |].
    - apply grow_alter; [|by eapply grow_fresh].
      apply grow_insert; [by apply grow_insert|]. by rewrite lookup_insert_ne.
    - heap_lookup. simpl. do 2 f_equal. unfold assign_props. simpl.
      heap_lookup. rewrite Hc1. simpl.
      rewrite (right_id_L ∅ (∪)). by rewrite insert_empty, <- insert_union_singleton_l. }
  unfold cancel_token_of in *. simpl prop_of. rewrite Hc.
  destruct (truthy (default VUndefined (obj_props oc !! "cancelToken"))).
  - apply after_ret. by apply Hrest.
  - apply after_bind, after_get_prop. simpl nullish. cbv iota. simpl prop_of. rewrite Hc.
    destruct (truthy (default VUndefined (obj_props oc !! "cancelSource"))) eqn:Hcs.
    + apply after_bind, after_ret. apply after_get_prop.
      destruct (default VUndefined (obj_props oc !! "cancelSource")); try done;
        simpl; by apply Hrest.
    + apply after_bind, after_object_literal. intros l Hl.
      apply after_get_prop. simpl. heap_lookup. simpl.
      apply Hrest. by apply grow_insert.
Qed.

(** ** [withAcceptJSON]: which Accept header the composed config carries *)

(** C1 fails on the code for a caller-supplied Accept header: for the
    config [{headers: {Accept: 'text/html', ...}}] the config
    [withAcceptJSON] returns still has Accept 'text/html', not
    'application/json'.  The function's own description says the result
    config contains [headers.Accept = 'application/json']; the caller's
    headers are assigned after the JSON default, so the caller's Accept
    is the one that stays. *)
Theorem withAcceptJSON_caller_Accept_wins :
  accept_of (withAcceptJSON (VObj 1%positive) html_config_heap) = VStr "text/html" /\
  accept_of (withAcceptJSON (VObj 1%positive) html_config_heap) ≠ json_type.
Proof. split; [by vm_compute|]. vm_compute. discriminate. Qed.

(** X25: what [withAcceptJSON] does return for a caller-supplied config
    object: a new config object whose fields other than [headers] are the
    caller's, and whose [headers] is a new mapping that holds every
    caller-supplied header with the caller's value and, when the caller
    supplied no Accept, Accept 'application/json'.  Every header other
    than Accept is exactly the caller's. *)
Theorem withAcceptJSON_default_Accept (h : heap) (c : positive) (oc : object) :
  h !! c = Some oc ->
  live h (prop_of h (VObj c) "headers") ->
  exists (r hd : positive) (h' : heap) (ohd : object),
    withAcceptJSON (VObj c) h = (Normal (VObj r), h') /\
    h !! r = None /\ h !! hd = None /\
    h' !! r = Some (Obj ObjectProto (<["headers" := VObj hd]> (obj_props oc))) /\
    h' !! hd = Some ohd /\
    let caller := own_props (prop_of h (VObj c) "headers") h in
    obj_props ohd = caller ∪ {[ "Accept" := json_type ]} /\
    (forall k v, caller !! k = Some v -> obj_props ohd !! k = Some v) /\
    (caller !! "Accept" = None -> obj_props ohd !! "Accept" = Some json_type) /\
    (forall k, k ≠ "Accept" -> obj_props ohd !! k = caller !! k).
Proof.
  intros Hc Hlive. simpl in Hlive |- *. rewrite Hc in Hlive |- *.
  destruct (withAcceptJSON_run h c oc Hc Hlive)
    as (r & hd & h' & Hrun & Hr & Hhd & _ & Hr' & Hhd').
  exists r, hd, h', (Obj ObjectProto
    (own_props (default VUndefined (obj_props oc !! "headers")) h ∪ {[ "Accept" := json_type ]})).
  split_and!; try done; simpl.
  - intros k v Hk. by apply lookup_union_Some_l.
  - intros Hnone. rewrite lookup_union_r by done. by rewrite lookup_singleton_eq.
  - intros k Hk. destruct (own_props _ h !! k) as [v|] eqn:E.
    + by apply lookup_union_Some_l.
    + rewrite lookup_union_r by done. by rewrite lookup_singleton_ne.
Qed.

Lemma withAcceptJSON_default_Accept_witness :
  exists (r hd : positive) (h' : heap) (ohd : object),
    withAcceptJSON (VObj 1%positive) plain_config_heap = (Normal (VObj r), h') /\
    h' !! hd = Some ohd /\
    obj_props ohd !! "Accept" = Some json_type /\
    obj_props ohd !! "X-Requested-With" = Some (VStr "XMLHttpRequest").
Proof.
  destruct (withAcceptJSON_default_Accept plain_config_heap 1%positive
              (Obj ObjectProto {[ "headers" := VObj 2%positive; "timeout" := VNum 5 ]}))
    as (r & hd & h' & ohd & Hrun & _ & _ & _ & Hhd & _ & Hkeep & Hdef & _).
  - reflexivity.
  - vm_compute. eauto.
  - exists r, hd, h', ohd. split_and!; [done|done| |].
    + apply Hdef. by vm_compute.
    + apply Hkeep. by vm_compute.
Defined.

(** ** The composers do not write to the caller's config *)



(** ** [withCancelToken] needs its argument; the facades supply it *)

Lemma default_empty_run (v : value) (h : heap) :
  exists v' h', default_empty v h = (Normal v', h') /\ h ⊆ h' /\ v' ≠ VUndefined.
Proof.
  destruct v; try (eexists _, h; split_and!; [reflexivity|done|done]).
  exists (VObj (fresh (dom h))), (<[fresh (dom h) := Obj ObjectProto ∅]> h).
  split_and!; [done| |done]. apply grow_insert; [done|apply fresh_heap].
Qed.

Lemma default_empty_defined (v : value) (h : heap) :
  v ≠ VUndefined -> default_empty v h = (Normal v, h).
Proof. by destruct v. Qed.

Lemma default_config_run (h : heap) :
  exists (cfg : value) (h' : heap),
    withCancelToken (VObj (fresh (dom h))) (<[fresh (dom h) := Obj ObjectProto ∅]> h)
      = (Normal cfg, h') /\
    default_config h' cfg.
Proof.
  set (l := fresh (dom h)). set (h1 := <[l := Obj ObjectProto ∅]> h).
  destruct (withCancelToken_run h1 l (Obj ObjectProto ∅)) as (r & h' & Hrun & Hr & _ & Hr').
  { apply lookup_insert_eq. }
  exists (VObj r), h'. split; [done|]. exists r. split; [done|].
  rewrite Hr'. simpl. unfold cancel_token_of. rewrite !lookup_empty. simpl.
  by rewrite insert_empty.
Qed.

Lemma default_json_config_run (h : heap) :
  exists (c : positive) (h1 : heap) (cfg : value) (h' : heap),
    withAcceptJSON (VObj (fresh (dom h))) (<[fresh (dom h) := Obj ObjectProto ∅]> h)
      = (Normal (VObj c), h1) /\
    withCancelToken (VObj c) h1 = (Normal cfg, h') /\
    default_json_config h' cfg.
Proof.
  set (l := fresh (dom h)). set (h1 := <[l := Obj ObjectProto ∅]> h).
  pose proof (withAcceptJSON_run h1 l (Obj ObjectProto ∅) (lookup_insert_eq _ _ _)) as Hrun.
  destruct Hrun as (r & hd & h2 & Hrun & Hr & Hhd & Hsub & Hr2 & Hhd2); [done|].
  destruct (withCancelToken_run h2 r _ Hr2) as (r' & h3 & Hrun' & Hr' & Hsub' & Hr3).
  exists r, h2, (VObj r'), h3. split_and!; [done|done|].
  exists r', hd. split_and!; [done| |].
  - rewrite Hr3. simpl. by do 2 f_equal.
  - eapply lookup_weaken; [|exact Hsub']. rewrite Hhd2. simpl.
    rewrite lookup_empty. simpl. by rewrite (left_id_L ∅ (∪)).
Qed.

Lemma withAcceptJSON_undefined (h : heap) :
  withAcceptJSON VUndefined h =
  withAcceptJSON (VObj (fresh (dom h))) (<[fresh (dom h) := Obj ObjectProto ∅]> h).
Proof. reflexivity. Qed.

Section FacadeShield.

Variable transport : string -> list value -> js value.

Ltac run_with E := erewrite bind_run by exact E.

Lemma get_shielded url h : shielded transport "get" url (get transport url) default_config h.
Proof.
  destruct (default_config_run h) as (cfg & h' & E & Hcfg).
  exists [], cfg, h'. split_and!; [|simpl; lia|done].
  unfold get. erewrite bind_run by reflexivity. by run_with E.
Qed.

Lemma getJSON_shielded url h :
  shielded transport "get" url (getJSON transport url) default_json_config h.
Proof.
  destruct (default_json_config_run h) as (c & h1 & cfg & h' & E1 & E2 & Hcfg).
  exists [], cfg, h'. split_and!; [|simpl; lia|done].
  unfold getJSON. erewrite bind_run by reflexivity. run_with E1.
  unfold get. erewrite bind_run by reflexivity. by run_with E2.
Qed.

Lemma data_verb_shielded verb url data h :
  shielded transport verb url
    (fun config =>
       data ← default_empty data;
       config ← default_empty config;
       cfg ← withCancelToken config;
       transport verb [url; data; cfg]) default_config h.
Proof.
  destruct (default_empty_run data h) as (data' & h1 & E1 & _ & Hd).
  destruct (default_config_run h1) as (cfg & h' & E & Hcfg).
  exists [data'], cfg, h'. split_and!; [|simpl; lia|done].
  run_with E1. erewrite bind_run by reflexivity. by run_with E.
Qed.

Lemma json_data_verb_shielded verb url data h :
  shielded transport verb url
    (fun config =>
       data ← default_empty data;
       config ← default_empty config;
       cfg ← withAcceptJSON config;
       (fun config =>
          data ← default_empty data;
          config ← default_empty config;
          cfg ← withCancelToken config;
          transport verb [url; data; cfg]) cfg) default_json_config h.
Proof.
  destruct (default_empty_run data h) as (data' & h1 & E1 & _ & Hd).
  destruct (default_json_config_run h1) as (c & h2 & cfg & h' & E2 & E3 & Hcfg).
  exists [data'], cfg, h'. split_and!; [|simpl; lia|done].
  run_with E1. erewrite bind_run by reflexivity. run_with E2.
  erewrite bind_run by (by apply default_empty_defined).
  erewrite bind_run by reflexivity. by run_with E3.
Qed.

End FacadeShield.

(** C10: [withCancelToken] has no default for its parameter: called with
    no argument (or with [undefined]) it throws a TypeError on reading
    [baseConfig.cancelToken] and returns no config, while
    [withAcceptJSON] called the same way takes [{}] and returns a new
    config with Accept 'application/json'.  Every verb facade called
    without a config reaches its transport call: the facade's own default
    [{}] is what [withCancelToken] receives. *)
Theorem withCancelToken_requires_argument
    (transport : string -> list value -> js value) (url data : value) (h : heap) :
  after (withCancelToken VUndefined) h (threw_TypeError h) /\
  after (withAcceptJSON VUndefined) h
    (fun c h' => exists cfg, c = Normal cfg /\ path h' cfg ["headers"; "Accept"] = json_type) /\
  shielded transport "get" url (get transport url) default_config h /\
  shielded transport "post" url (post transport url data) default_config h /\
  shielded transport "put" url (put transport url data) default_config h /\
  shielded transport "patch" url (patch transport url data) default_config h /\
  shielded transport "delete" url (del transport url data) default_config h /\
  shielded transport "get" url (getJSON transport url) default_json_config h /\
  shielded transport "post" url (postJSON transport url data) default_json_config h /\
  shielded transport "put" url (putJSON transport url data) default_json_config h /\
  shielded transport "patch" url (patchJSON transport url data) default_json_config h /\
  shielded transport "delete" url (delJSON transport url data) default_json_config h.
Proof.
  split_and!.
  - by apply withCancelToken_throws.
  - unfold after.
    pose proof (withAcceptJSON_run (<[fresh (dom h) := Obj ObjectProto ∅]> h)
                  (fresh (dom h)) (Obj ObjectProto ∅) (lookup_insert_eq _ _ _)) as Hrun.
    destruct Hrun as (r & hd & h' & Hrun & _ & _ & _ & Hr & Hhd); [done|].
    rewrite withAcceptJSON_undefined, Hrun. exists (VObj r). split; [done|]. simpl.
    rewrite Hr. simpl. rewrite lookup_insert_eq. simpl. rewrite Hhd. simpl.
    rewrite lookup_empty. simpl.
    by rewrite (left_id_L ∅ (∪)), lookup_singleton_eq.
  - apply get_shielded.
  - apply data_verb_shielded.
  - apply data_verb_shielded.
  - apply data_verb_shielded.
  - apply data_verb_shielded.
  - apply getJSON_shielded.
  - apply json_data_verb_shielded.
  - apply json_data_verb_shielded.
  - apply json_data_verb_shielded.
  - apply json_data_verb_shielded.
Qed.

(** * The rejected-response hook *)

Lemma after_read {A} (f : heap -> A) h (Q : completion A -> heap -> Prop) :
  Q (Normal (f h)) h -> after (js_read f) h Q.
Proof. done. Qed.

Lemma after_set_prop_at e o k x (hb : heap) (Q : completion unit -> heap -> Prop) :
  Q (Normal tt) (<[e := Obj (obj_proto o) (<[k := x]> (obj_props o))]> hb) ->
  after (set_prop (VObj e) k x) (<[e := o]> hb) Q.
Proof. intros HQ. apply after_set_prop. by rewrite alter_insert_eq. Qed.

Lemma axios_isCancel_ignores_predicates : cancel_ignores_predicates axios_isCancel.
Proof.
  intros e o hb k x Hk. unfold axios_isCancel. simpl.
  rewrite !lookup_insert_eq. simpl.
  rewrite lookup_insert_ne; [done|].
  intros ->. by repeat (apply elem_of_cons in Hk as [Hk|Hk]; [done|]; try by inversion Hk).
Qed.

Lemma lookup_classified_ne c ps k :
  k ∉ predicate_names -> classified_props c ps !! k = ps !! k.
Proof.
  intros Hk. unfold predicate_names in Hk. rewrite !not_elem_of_cons in Hk.
  destruct Hk as (? & ? & ? & ? & _).
  destruct c; unfold classified_props; simpl; by rewrite !lookup_insert_ne.
Qed.

Lemma classified_mark c k ps :
  (c, k) ∈ [(Format, "isFormat"); (Cancelled, "isCancel");
            (Network, "isNetwork"); (Validation, "isValidation")] ->
  <[k := const_fn true]> (classified_props Other ps) = classified_props c ps.
Proof.
  intros Hck. apply map_eq. intros i.
  repeat (apply elem_of_cons in Hck as [[= -> ->]|Hck];
          [unfold classified_props; simpl; rewrite !lookup_insert;
           repeat case_decide; congruence|]).
  by apply elem_of_nil in Hck.
Qed.

Lemma prop_of_classified c e p ps (hb : heap) v k :
  k ∉ predicate_names ->
  prop_of (<[e := Obj p (classified_props c ps)]> hb) v k
  = prop_of (<[e := Obj p ps]> hb) v k.
Proof.
  intros Hk. destruct v; try done. simpl.
  destruct (decide (e = l)) as [->|Hne].
  - rewrite !lookup_insert_eq. simpl. by rewrite lookup_classified_ne.
  - by rewrite !lookup_insert_ne.
Qed.

(** A given property name is none of the four predicate names. *)
Ltac not_predicate := apply (bool_decide_unpack _); by vm_compute.

Section RejectedHook.

Variable isCancel : value -> heap -> bool.

Lemma first_match_eq (h : heap) (ex : value) :
  spec_first_match isCancel h ex =
    if instanceof_SyntaxError ex h then Format
    else if isCancel ex h then Cancelled
    else if negb (truthy (prop_of h ex "response")) then Network
    else if bool_decide (prop_of h (prop_of h ex "response") "status" = VNum 422)
         then Validation
    else Other.
Proof.
  unfold spec_first_match, spec_rules, is_parsing_error, recognised_cancellation,
    no_response, response_status_422. cbn [List.find snd fst].
  destruct (instanceof_SyntaxError ex h); [done|].
  destruct (isCancel ex h); [done|].
  destruct (truthy (prop_of h ex "response")); [|done]. cbn [negb andb].
  by destruct (bool_decide _).
Qed.

Lemma instanceof_insert e o (hb : heap) :
  instanceof_SyntaxError (VObj e) (<[e := o]> hb)
  = bool_decide (obj_proto o = SyntaxErrorProto).
Proof. simpl. by rewrite lookup_insert_eq. Qed.

(** What the hook does to a failure object: it installs the four
    predicates according to the branch taken and throws the same object. *)
Lemma rejected_run_branch (hb : heap) (e : positive) (oe : object) :
  rejectedResponseInterceptor isCancel (VObj e) (<[e := oe]> hb) =
    (Thrown (VObj e),
     <[e := Obj (obj_proto oe) (classified_props (branch_taken isCancel hb e oe) (obj_props oe))]> hb).
Proof.
  unfold branch_taken.
  set (h := <[e := oe]> hb).
  set (syn := bool_decide (obj_proto oe = SyntaxErrorProto)).
  set (can := isCancel (VObj e) _).
  set (r := prop_of h (VObj e) "response").
  set (st := prop_of h r "status").
  cut (after (rejectedResponseInterceptor isCancel (VObj e)) h (fun c h' =>
         c = Thrown (VObj e) /\
         h' = <[e := Obj (obj_proto oe)
                  (classified_props
                     (if syn then Format else if can then Cancelled
                      else if negb (truthy r) then Network
                      else if bool_decide (st = VNum 422) then Validation else Other)
                     (obj_props oe))]> hb)).
  { intros (c & h' & Hrun & -> & ->)%after_elim. exact Hrun. }
  assert (Hoe : Obj (obj_proto oe) (obj_props oe) = oe) by (by destruct oe).
  unfold rejectedResponseInterceptor, h.
  do 4 (apply after_bind, after_set_prop_at; cbn [obj_proto obj_props]).
  change (<["isFormat":=const_fn false]> _) with (classified_props Other (obj_props oe)).
  apply after_bind, after_read. apply after_bind.
  rewrite instanceof_insert. cbn [obj_proto]. fold syn.
  destruct syn.
  { apply after_set_prop_at. cbn [obj_proto obj_props]. apply after_throw. split; [done|].
    by rewrite (classified_mark Format) by (rewrite !elem_of_cons; tauto). }
  apply after_bind, after_read. fold can.
  destruct can.
  { apply after_set_prop_at. cbn [obj_proto obj_props]. apply after_throw. split; [done|].
    by rewrite (classified_mark Cancelled) by (rewrite !elem_of_cons; tauto). }
  apply after_bind, after_get_prop. cbn [nullish].
  rewrite prop_of_classified by not_predicate. rewrite Hoe. fold h r.
  destruct (truthy r) eqn:Hr; cbn [negb].
  2:{ apply after_set_prop_at. cbn [obj_proto obj_props]. apply after_throw.
      split; [done|].
      by rewrite (classified_mark Network) by (rewrite !elem_of_cons; tauto). }
  apply after_bind, after_get_prop.
  assert (Hnn : nullish r = false) by (by destruct r).
  rewrite Hnn.
  rewrite prop_of_classified by not_predicate. rewrite Hoe. fold h st.
  unfold strict_eq.
  destruct (bool_decide (st = VNum 422)).
  { apply after_set_prop_at. cbn [obj_proto obj_props]. apply after_throw.
    split; [done|].
    by rewrite (classified_mark Validation) by (rewrite !elem_of_cons; tauto). }
  apply after_ret. apply after_throw. done.
Qed.

(** With a cancellation predicate that does not look at the four
    predicates, the branch taken is the first matching rule. *)
Lemma branch_taken_first_match (hb : heap) (e : positive) (oe : object) :
  cancel_ignores_predicates isCancel ->
  branch_taken isCancel hb e oe = spec_first_match isCancel (<[e := oe]> hb) (VObj e).
Proof.
  intros Hloc. unfold branch_taken.
  rewrite first_match_eq, instanceof_insert.
  destruct (bool_decide _); [done|].
  assert (Hstep : forall k x p ps,
    k ∈ predicate_names ->
    isCancel (VObj e) (<[e := Obj p (<[k := x]> ps)]> hb)
    = isCancel (VObj e) (<[e := Obj p ps]> hb)).
  { intros k x p ps Hk. apply (Hloc e (Obj p ps) hb k x Hk). }
  unfold classified_props. cbn [flags].
  rewrite !Hstep by (apply (bool_decide_unpack _); by vm_compute).
  by destruct oe.
Qed.

Lemma rejected_run (h : heap) (e : positive) (oe : object) :
  cancel_ignores_predicates isCancel ->
  h !! e = Some oe ->
  rejectedResponseInterceptor isCancel (VObj e) h =
    (Thrown (VObj e),
     <[e := Obj (obj_proto oe)
              (classified_props (spec_first_match isCancel h (VObj e)) (obj_props oe))]> h).
Proof.
  intros Hloc He. pose proof (rejected_run_branch h e oe) as Hrun.
  rewrite branch_taken_first_match in Hrun by done.
  by rewrite (insert_id h e oe He) in Hrun.
Qed.

End RejectedHook.

Lemma predicates_classified c e p ps (hb : heap) :
  predicates (<[e := Obj p (classified_props c ps)]> hb) (VObj e) = map Some (flags c).
Proof.
  unfold predicates, call_predicate. simpl. rewrite lookup_insert_eq. simpl.
  destruct c; unfold classified_props; simpl;
    by repeat first [rewrite lookup_insert_eq | rewrite lookup_insert_ne by done].
Qed.

Lemma prop_of_after_classified c e oe (h : heap) v k :
  h !! e = Some oe -> k ∉ predicate_names ->
  prop_of (<[e := Obj (obj_proto oe) (classified_props c (obj_props oe))]> h) v k
  = prop_of h v k.
Proof.
  intros He Hk. rewrite prop_of_classified by done.
  rewrite insert_id; [done|]. rewrite He. by destruct oe.
Qed.

(** ** Example failures *)

(** ** Classification by the first matching rule *)

(** C3: the rejected-response hook classifies a failure object by the
    first matching rule of the fixed priority list -- parsing error, then
    recognised cancellation, then no response, then response with status
    422 -- and leaves it unclassified when no rule matches: after the
    hook has thrown the failure back, its four predicates [isFormat],
    [isCancel], [isNetwork], [isValidation] return the flags of the first
    rule that matched the failure. *)
Theorem classification_is_first_match
    (isCancel : value -> heap -> bool) (h : heap) (e : positive) (oe : object) :
  cancel_ignores_predicates isCancel ->
  h !! e = Some oe ->
  exists h',
    rejectedResponseInterceptor isCancel (VObj e) h = (Thrown (VObj e), h') /\
    predicates h' (VObj e) = map Some (flags (spec_first_match isCancel h (VObj e))).
Proof.
  intros Hloc He. eexists. split; [by apply rejected_run|].
  apply predicates_classified.
Qed.

Lemma classification_is_first_match_witness :
  exists h',
    rejectedResponseInterceptor axios_isCancel (VObj 1%positive) validation_error_heap
      = (Thrown (VObj 1%positive), h') /\
    predicates h' (VObj 1%positive) = [Some false; Some false; Some false; Some true].
Proof.
  destruct (classification_is_first_match axios_isCancel validation_error_heap 1%positive
              (Obj ErrorProto {[ "message" := VStr "Request failed with status code 422";
                                 "response" := VObj 2%positive ]})
              axios_isCancel_ignores_predicates eq_refl) as (h' & Hrun & Hp).
  exists h'. split; [done|]. rewrite Hp. by vm_compute.
Defined.

(** ** Mutual exclusivity of the predicates *)

(** C2, as stated, fails: for a transport error whose reply has status
    500 the hook leaves all four predicates returning false -- zero of
    them is true, not exactly one. *)
Lemma rejected_server_error_has_no_true_predicate :
  (rejectedResponseInterceptor axios_isCancel (VObj 1%positive) server_error_heap).1
    = Thrown (VObj 1%positive) /\
  predicates (rejectedResponseInterceptor axios_isCancel (VObj 1%positive)
                server_error_heap).2 (VObj 1%positive)
    = [Some false; Some false; Some false; Some false] /\
  count_true (predicates (rejectedResponseInterceptor axios_isCancel (VObj 1%positive)
                            server_error_heap).2 (VObj 1%positive)) ≠ 1%nat.
Proof. split_and!; [by vm_compute|by vm_compute|]. vm_compute. discriminate. Qed.

(** C2 (amended): for every failure object the rejected-response hook
    rethrows, each of the four predicates returns a boolean and at most
    one of them returns true; exactly one returns true when the failure
    matches one of the four rules (parsing error, recognised cancellation,
    no response, response with status 422), and none does when it matches
    no rule, which is the unclassified fifth state. *)
Theorem at_most_one_predicate_true
    (isCancel : value -> heap -> bool) (h : heap) (e : positive) (oe : object) :
  cancel_ignores_predicates isCancel ->
  h !! e = Some oe ->
  exists h' bs,
    rejectedResponseInterceptor isCancel (VObj e) h = (Thrown (VObj e), h') /\
    predicates h' (VObj e) = map Some bs /\
    (count_true (predicates h' (VObj e)) <= 1)%nat /\
    (count_true (predicates h' (VObj e)) = 1%nat <->
     spec_first_match isCancel h (VObj e) ≠ Other).
Proof.
  intros Hloc He.
  exists (<[e := Obj (obj_proto oe)
              (classified_props (spec_first_match isCancel h (VObj e)) (obj_props oe))]> h),
         (flags (spec_first_match isCancel h (VObj e))).
  split; [by apply rejected_run|].
  rewrite predicates_classified. split; [done|].
  destruct (spec_first_match isCancel h (VObj e)); vm_compute; split; try lia;
    split; congruence.
Qed.

Lemma at_most_one_predicate_true_witness :
  exists h' bs,
    rejectedResponseInterceptor axios_isCancel (VObj 1%positive) server_error_heap
      = (Thrown (VObj 1%positive), h') /\
    predicates h' (VObj 1%positive) = map Some bs /\
    (count_true (predicates h' (VObj 1%positive)) <= 1)%nat.
Proof.
  destruct (at_most_one_predicate_true axios_isCancel server_error_heap 1%positive
              (Obj ErrorProto {[ "message" := VStr "Request failed with status code 500";
                                 "response" := VObj 2%positive ]})
              axios_isCancel_ignores_predicates eq_refl) as (h' & bs & Hrun & Hp & Hle & _).
  by exists h', bs.
Defined.

(** ** Validation errors *)

(** C7, as stated, fails: a parsing error that carries a response with
    status 422 is classified as a format error -- [isValidation()] returns
    false and [isFormat()] returns true -- because the parsing-error rule
    comes first; and a failure the cancellation predicate recognises is
    classified as cancelled, whatever response it carries. *)
Lemma status_422_not_always_validation :
  (prop_of unparsable_422_heap (prop_of unparsable_422_heap (VObj 1%positive) "response")
     "status" = VNum 422 /\
   (rejectedResponseInterceptor axios_isCancel (VObj 1%positive) unparsable_422_heap).1
     = Thrown (VObj 1%positive) /\
   predicates (rejectedResponseInterceptor axios_isCancel (VObj 1%positive)
                 unparsable_422_heap).2 (VObj 1%positive)
     = [Some true; Some false; Some false; Some false]) /\
  (prop_of cancelled_422_heap (prop_of cancelled_422_heap (VObj 1%positive) "response")
     "status" = VNum 422 /\
   (rejectedResponseInterceptor axios_isCancel (VObj 1%positive) cancelled_422_heap).1
     = Thrown (VObj 1%positive) /\
   predicates (rejectedResponseInterceptor axios_isCancel (VObj 1%positive)
                 cancelled_422_heap).2 (VObj 1%positive)
     = [Some false; Some true; Some false; Some false]).
Proof. split; split_and!; by vm_compute. Qed.

(** C7 (amended): for every failure object that is not a parsing error
    and that the transport's cancellation predicate does not recognise,
    carrying a response whose status is 422, the hook rethrows the same
    object with [isValidation()] returning true and the other three
    predicates returning false; the rethrown error still carries the
    response, and the response's data is what it was. *)
Theorem status_422_is_validation
    (isCancel : value -> heap -> bool) (h : heap) (e : positive) (oe : object) :
  cancel_ignores_predicates isCancel ->
  h !! e = Some oe ->
  obj_proto oe ≠ SyntaxErrorProto ->
  isCancel (VObj e) h = false ->
  prop_of h (prop_of h (VObj e) "response") "status" = VNum 422 ->
  exists h',
    rejectedResponseInterceptor isCancel (VObj e) h = (Thrown (VObj e), h') /\
    predicates h' (VObj e) = [Some false; Some false; Some false; Some true] /\
    prop_of h' (VObj e) "response" = prop_of h (VObj e) "response" /\
    prop_of h' (prop_of h' (VObj e) "response") "data"
      = prop_of h (prop_of h (VObj e) "response") "data".
Proof.
  intros Hloc He Hproto Hcan Hst.
  eexists. split; [by apply rejected_run|].
  assert (Hkind : spec_first_match isCancel h (VObj e) = Validation).
  { rewrite first_match_eq. simpl instanceof_SyntaxError. rewrite He.
    rewrite bool_decide_eq_false_2 by done. rewrite Hcan.
    destruct (prop_of h (VObj e) "response") eqn:Hr; try discriminate Hst.
    cbn [truthy negb]. by rewrite bool_decide_eq_true_2. }
  rewrite Hkind, predicates_classified.
  split; [done|].
  rewrite !prop_of_after_classified by (done || not_predicate). done.
Qed.

Lemma status_422_is_validation_witness :
  exists h',
    rejectedResponseInterceptor axios_isCancel (VObj 1%positive) validation_error_heap
      = (Thrown (VObj 1%positive), h') /\
    predicates h' (VObj 1%positive) = [Some false; Some false; Some false; Some true] /\
    prop_of h' (prop_of h' (VObj 1%positive) "response") "data" = VObj 3%positive.
Proof.
  destruct (status_422_is_validation axios_isCancel validation_error_heap 1%positive
              (Obj ErrorProto {[ "message" := VStr "Request failed with status code 422";
                                 "response" := VObj 2%positive ]})
              axios_isCancel_ignores_predicates eq_refl)
    as (h' & Hrun & Hp & _ & Hdata).
  - discriminate.
  - by vm_compute.
  - by vm_compute.
  - exists h'. split_and!; [done|done|]. rewrite Hdata. by vm_compute.
Defined.

(** * The fulfilled-response hook *)

Lemma prop_of_nullish h v k : nullish v = true -> prop_of h v k = VUndefined.
Proof. by destruct v. Qed.

Lemma get_prop_run v k h :
  nullish v = false -> get_prop v k h = (Normal (prop_of h v k), h).
Proof. by destruct v. Qed.

Lemma set_prop_run_at e o k x (hb : heap) :
  set_prop (VObj e) k x (<[e := o]> hb)
  = (Normal tt, <[e := Obj (obj_proto o) (<[k := x]> (obj_props o))]> hb).
Proof. unfold set_prop. by rewrite alter_insert_eq. Qed.

Section FulfilledHook.

Variable JSON_parse : string -> parse_result.
Variable isCancel : value -> heap -> bool.

(** The hook on a response whose config has a string for Accept. *)
Lemma fulfilled_run (h : heap) (response : value) (accept : string) :
  path h response ["config"; "headers"; "Accept"] = VStr accept ->
  fulfilledResponseInterceptor JSON_parse isCancel response h =
    if response_is_fine accept (prop_of h response "data") then (Normal response, h)
    else match JSON_parse (to_string (prop_of h response "data")) with
         | Parsed => (Normal response, h)
         | SyntaxError msg =>
             let ex := fresh (dom h) in
             (Thrown (VObj ex),
              <[ex := Obj SyntaxErrorProto
                        (classified_props Format
                           (obj_props (parse_failure msg response
                                         (prop_of h response "config"))))]> h)
         end.
Proof.
  intros Hpath. cbn [path fold_left] in Hpath.
  set (cfg := prop_of h response "config") in *.
  set (hdrs := prop_of h cfg "headers") in *.
  assert (Hn3 : nullish hdrs = false).
  { destruct (nullish hdrs) eqn:E; [|done]. by rewrite prop_of_nullish in Hpath. }
  assert (Hn2 : nullish cfg = false).
  { destruct (nullish cfg) eqn:E; [|done]. unfold hdrs in Hn3.
    by rewrite (prop_of_nullish h cfg) in Hn3. }
  assert (Hn1 : nullish response = false).
  { destruct (nullish response) eqn:E; [|done]. unfold cfg in Hn2.
    by rewrite (prop_of_nullish h response) in Hn2. }
  unfold fulfilledResponseInterceptor.
  rewrite (bind_run _ _ _ _ _ (get_prop_run response "config" h Hn1)). fold cfg.
  rewrite (bind_run _ _ _ _ _ (get_prop_run cfg "headers" h Hn2)). fold hdrs.
  rewrite (bind_run _ _ _ _ _ (get_prop_run hdrs "Accept" h Hn3)). rewrite Hpath.
  erewrite bind_run by reflexivity.
  unfold response_is_fine.
  set (d := prop_of h response "data").
  assert (Hfine : forall k : bool -> js value,
    ((if string_indexOf accept "application/json" <? 0 then js_ret true
      else j ← indexOf (VStr accept) ",";
           if 0 <? j then js_ret true
           else d ← get_prop response "data"; js_ret (typeof_object d)) ≫= k) h
    = k ((string_indexOf accept "application/json" <? 0)
         || (0 <? string_indexOf accept ",") || typeof_object d) h).
  { intros k. destruct (_ <? 0); [done|]. cbn [orb].
    erewrite bind_run; [reflexivity|].
    erewrite bind_run by reflexivity.
    destruct (0 <? _); [done|]. cbn [orb].
    by rewrite (bind_run _ _ _ _ _ (get_prop_run response "data" h Hn1)). }
  rewrite Hfine. clear Hfine.
  destruct (_ || _ || _); [done|].
  rewrite (bind_run _ _ _ _ _ (get_prop_run response "data" h Hn1)). fold d.
  destruct (JSON_parse (to_string d)) as [|msg]; [done|].
  erewrite bind_run by reflexivity.
  set (ex := fresh (dom h)).
  assert (Hex : h !! ex = None) by apply fresh_heap.
  assert (Hresp : response ≠ VObj ex).
  { intros ->. unfold cfg in Hn2. simpl in Hn2. by rewrite Hex in Hn2. }
  rewrite (bind_run _ _ _ _ _ (set_prop_run_at ex _ "response" response h)).
  erewrite bind_run; [|by apply get_prop_run].
  rewrite prop_of_insert_ne by done. fold cfg.
  rewrite (bind_run _ _ _ _ _ (set_prop_run_at ex _ "config" cfg h)).
  cbn [obj_proto obj_props].
  rewrite rejected_run_branch. unfold branch_taken. cbn [obj_proto].
  by rewrite bool_decide_eq_true_2.
Qed.

End FulfilledHook.

(** ** Example responses *)

(** ** Malformed JSON is a format failure *)

(** C5: for every response whose Accept is exactly 'application/json'
    and whose data is a string that [JSON.parse] rejects, the hook does
    not return: it throws a new parsing error that carries the response,
    and on that error [isFormat()] returns true while [isCancel()],
    [isNetwork()] and [isValidation()] return false. *)
Theorem malformed_json_rejects_as_format
    (JSON_parse : string -> parse_result) (isCancel : value -> heap -> bool)
    (h : heap) (response : value) (s msg : string) :
  path h response ["config"; "headers"; "Accept"] = VStr "application/json" ->
  prop_of h response "data" = VStr s ->
  JSON_parse s = SyntaxError msg ->
  exists ex h',
    fulfilledResponseInterceptor JSON_parse isCancel response h = (Thrown (VObj ex), h') /\
    h !! ex = None /\
    instanceof_SyntaxError (VObj ex) h' = true /\
    prop_of h' (VObj ex) "response" = response /\
    predicates h' (VObj ex) = [Some true; Some false; Some false; Some false].
Proof.
  intros Hpath Hdata Hparse.
  rewrite (fulfilled_run _ _ _ _ _ Hpath), Hdata. cbn [to_string].
  rewrite Hparse.
  replace (response_is_fine "application/json" (VStr s)) with false by (by vm_compute).
  eexists _, _. split; [reflexivity|]. split_and!.
  - apply fresh_heap.
  - by rewrite instanceof_insert.
  - rewrite prop_of_classified by not_predicate. simpl. rewrite lookup_insert_eq. simpl.
    by rewrite lookup_insert_ne, lookup_insert_eq.
  - by rewrite predicates_classified.
Qed.

Lemma malformed_json_rejects_as_format_witness :
  exists ex h',
    fulfilledResponseInterceptor Json.parse axios_isCancel (VObj 1%positive) html_reply_heap
      = (Thrown (VObj ex), h') /\
    predicates h' (VObj ex) = [Some true; Some false; Some false; Some false].
Proof.
  destruct (malformed_json_rejects_as_format Json.parse axios_isCancel html_reply_heap
              (VObj 1%positive) "<html></html>" "Unexpected token in JSON")
    as (ex & h' & Hrun & _ & _ & _ & Hp); [by vm_compute..|].
  by exists ex, h'.
Defined.

(** ** JSON that is fine passes through *)

(** C6: for every response whose Accept is exactly 'application/json'
    and whose data either is already structured ([typeof data] is
    'object') or is a string that [JSON.parse] accepts, the hook returns
    that same response and changes nothing in the heap. *)
Theorem json_response_passes_through
    (JSON_parse : string -> parse_result) (isCancel : value -> heap -> bool)
    (h : heap) (response : value) :
  path h response ["config"; "headers"; "Accept"] = VStr "application/json" ->
  typeof_object (prop_of h response "data") = true \/
  (exists s, prop_of h response "data" = VStr s /\ JSON_parse s = Parsed) ->
  fulfilledResponseInterceptor JSON_parse isCancel response h = (Normal response, h).
Proof.
  intros Hpath Hdata. rewrite (fulfilled_run _ _ _ _ _ Hpath).
  destruct Hdata as [Hobj|(s & Hs & Hparse)].
  - unfold response_is_fine. rewrite Hobj. by rewrite orb_true_r.
  - rewrite Hs. cbn [to_string]. rewrite Hparse. by destruct (response_is_fine _ _).
Qed.

Lemma json_response_passes_through_witness :
  fulfilledResponseInterceptor Json.parse axios_isCancel (VObj 1%positive)
    json_text_reply_heap = (Normal (VObj 1%positive), json_text_reply_heap).
Proof.
  apply json_response_passes_through; [by vm_compute|].
  right. exists "[1, 2.5e3, {}, null]". split; by vm_compute.
Defined.

(** ** A response without an Accept header *)

(** X9: where the Accept header is a string that does not contain
    'application/json', or that has a comma past its first character, the
    hook returns the response and changes nothing. *)
Lemma other_accept_passes_through
    (JSON_parse : string -> parse_result) (isCancel : value -> heap -> bool)
    (h : heap) (response : value) (accept : string) :
  path h response ["config"; "headers"; "Accept"] = VStr accept ->
  string_indexOf accept "application/json" < 0 \/ 0 < string_indexOf accept "," ->
  fulfilledResponseInterceptor JSON_parse isCancel response h = (Normal response, h).
Proof.
  intros Hpath Hacc. rewrite (fulfilled_run _ _ _ _ _ Hpath). unfold response_is_fine.
  destruct Hacc as [Hlt|Hlt]; apply Z.ltb_lt in Hlt; rewrite Hlt; [done|].
  by rewrite orb_true_r.
Qed.

(** X10: where the headers have no Accept at all, the hook throws a
    TypeError (from [accept.indexOf]) and returns nothing. *)
Lemma missing_accept_throws
    (JSON_parse : string -> parse_result) (isCancel : value -> heap -> bool)
    (h : heap) (response : value) :
  nullish (path h response ["config"; "headers"]) = false ->
  nullish (path h response ["config"; "headers"; "Accept"]) = true ->
  after (fulfilledResponseInterceptor JSON_parse isCancel response) h (threw_TypeError h).
Proof.
  cbn [path fold_left]. intros Hhd Hacc.
  set (cfg := prop_of h response "config") in *.
  set (hdrs := prop_of h cfg "headers") in *.
  assert (Hn2 : nullish cfg = false).
  { destruct (nullish cfg) eqn:E; [|done]. unfold hdrs in Hhd.
    by rewrite (prop_of_nullish h cfg) in Hhd. }
  assert (Hn1 : nullish response = false).
  { destruct (nullish response) eqn:E; [|done]. unfold cfg in Hn2.
    by rewrite (prop_of_nullish h response) in Hn2. }
  unfold fulfilledResponseInterceptor.
  apply after_bind, after_get_prop. rewrite Hn1. fold cfg.
  apply after_bind, after_get_prop. rewrite Hn2. fold hdrs.
  apply after_bind, after_get_prop. rewrite Hhd.
  apply after_bind.
  destruct (prop_of h hdrs "Accept"); try discriminate Hacc;
    apply after_throw_TypeError; intros l Hl; (split; [by apply grow_insert|]);
    eexists l, _; split_and!; [done|done|by rewrite lookup_insert_eq|done
                              |done|done|by rewrite lookup_insert_eq|done].
Qed.

(** C4 fails on the code for a missing Accept header: for the 200 reply
    to a request sent with no Accept header, the hook does not return the
    response; it throws a new TypeError, which carries none of the four
    predicates. *)
Theorem fulfilled_hook_fails_without_accept :
  path no_accept_reply_heap (VObj 1%positive) ["config"; "headers"; "Accept"] = VUndefined /\
  exists l h' o,
    fulfilledResponseInterceptor Json.parse axios_isCancel (VObj 1%positive)
      no_accept_reply_heap = (Thrown (VObj l), h') /\
    no_accept_reply_heap !! l = None /\
    h' !! l = Some o /\ obj_proto o = TypeErrorProto /\
    predicates h' (VObj l) = [None; None; None; None].
Proof.
  split; [by vm_compute|].
  eexists _, _, _. split_and!; [by vm_compute|by vm_compute|by vm_compute|done|by vm_compute].
Qed.

(** The earlier revision of the hook compares the header with
    'application/json' and returns the same reply untouched. *)
Lemma legacy_hook_passes_without_accept :
  Legacy.fulfilledResponseInterceptor Json.parse (VObj 1%positive) no_accept_reply_heap
  = (Normal (VObj 1%positive), no_accept_reply_heap).
Proof. by vm_compute. Qed.

(** * Initialisation *)

Ltac push_alter :=
  repeat rewrite alter_insert_ne by congruence; rewrite alter_insert_eq.

Lemma after_copy_object v h (Q : completion value -> heap -> Prop) :
  (forall l, h !! l = None ->
             Q (Normal (VObj l)) (<[l := Obj ObjectProto (own_props v h)]> h)) ->
  after (Axios.copy_object v) h Q.
Proof. intros HQ. apply HQ, fresh_heap. Qed.

(** One round of [create]'s loop over the header groups, for a group
    that is an object. *)
Lemma after_copy_group (headers headers' : value) m g og (h : heap)
    (Q : completion unit -> heap -> Prop) :
  nullish headers = false ->
  prop_of h headers m = VObj g ->
  h !! g = Some og ->
  (forall g', h !! g' = None ->
     after (set_prop headers' m (VObj g')) (<[g' := Obj ObjectProto (obj_props og)]> h) Q) ->
  after (g ← get_prop headers m;
         if typeof_object g && truthy g
         then g' ← Axios.copy_object g; set_prop headers' m g'
         else js_ret tt) h Q.
Proof.
  intros Hn Hg Hog HQ.
  apply after_bind, after_get_prop. rewrite Hn, Hg. cbn [typeof_object truthy andb].
  apply after_bind, after_copy_object. intros g' Hg'. cbn [own_props]. rewrite Hog.
  by apply HQ.
Qed.

Ltac copy_round Hg Hog g' :=
  apply after_bind; eapply after_copy_group;
  [ done
  | rewrite !prop_of_insert_ne by congruence; exact Hg
  | heap_lookup; exact Hog
  | let Hf := fresh "Hf" in
    intros g' Hf; split_fresh Hf;
    apply after_set_prop; push_alter; cbn [obj_proto obj_props] ].

(** The property [k] of the object at [l], read through the insertions
    that built the heap. *)
Ltac read_prop :=
  cbn [prop_of]; heap_lookup; unfold list_to_map;
  cbn [obj_props fold_right fst snd];
  repeat first [ rewrite lookup_insert_eq | rewrite lookup_insert_ne by done ];
  cbn [default from_option id].

Lemma module_init_run (h : heap) (ax : value) :
  is_client h ax -> after (module_init ax) h (initialised h).
Proof.
  intros Hclient.
  assert (Hg : forall m, m ∈ Axios.header_groups ->
    exists g og, path h ax ["defaults"; "headers"; m] = VObj g /\ h !! g = Some og)
    by exact Hclient.
  cbn [path fold_left] in Hg.
  set (dv := prop_of h ax "defaults") in *.
  set (hv := prop_of h dv "headers") in *.
  assert (Hin : forall m, bool_decide (m ∈ Axios.header_groups) = true ->
                          m ∈ Axios.header_groups)
    by (intros m; apply bool_decide_eq_true_1).
  destruct (Hg "common" (Hin "common" eq_refl)) as (g1 & og1 & Hg1 & Hog1).
  destruct (Hg "delete" (Hin "delete" eq_refl)) as (g2 & og2 & Hg2 & Hog2).
  destruct (Hg "get" (Hin "get" eq_refl)) as (g3 & og3 & Hg3 & Hog3).
  destruct (Hg "head" (Hin "head" eq_refl)) as (g4 & og4 & Hg4 & Hog4).
  destruct (Hg "post" (Hin "post" eq_refl)) as (g5 & og5 & Hg5 & Hog5).
  destruct (Hg "put" (Hin "put" eq_refl)) as (g6 & og6 & Hg6 & Hog6).
  destruct (Hg "patch" (Hin "patch" eq_refl)) as (g7 & og7 & Hg7 & Hog7).
  clear Hg Hin Hclient.
  assert (Hhv : exists lh oh, hv = VObj lh /\ h !! lh = Some oh).
  { destruct hv as [| | | | | |lh]; try discriminate Hg1. simpl in Hg1.
    destruct (h !! lh) as [oh|] eqn:E; [by exists lh, oh|discriminate]. }
  destruct Hhv as (lh & oh & Ehv & Hoh).
  assert (Hdv : exists ld od, dv = VObj ld /\ h !! ld = Some od).
  { unfold hv in Ehv. destruct dv as [| | | | | |ld]; try discriminate Ehv. simpl in Ehv.
    destruct (h !! ld) as [od|] eqn:E; [by exists ld, od|discriminate]. }
  destruct Hdv as (ld & od & Edv & Hod).
  unfold module_init, Axios.create.
  apply after_bind, after_bind, after_get_prop.
  assert (Hax : nullish ax = false).
  { destruct ax; try done; unfold dv in Edv; discriminate. }
  rewrite Hax. fold dv. rewrite Edv.
  apply after_bind, after_get_prop. cbn [nullish].
  replace (prop_of h (VObj ld) "headers") with (VObj lh)
    by (rewrite <- Edv; symmetry; exact Ehv).
  apply after_bind, after_copy_object. intros hs' Hhs'.
  cbn [own_props]. rewrite Hoh.
  rewrite Ehv in Hg1, Hg2, Hg3, Hg4, Hg5, Hg6, Hg7.
  apply after_bind. cbn [Axios.header_groups forEach].
  copy_round Hg1 Hog1 g1'.
  copy_round Hg2 Hog2 g2'.
  copy_round Hg3 Hog3 g3'.
  copy_round Hg4 Hog4 g4'.
  copy_round Hg5 Hog5 g5'.
  copy_round Hg6 Hog6 g6'.
  copy_round Hg7 Hog7 g7'.
  apply after_ret.
  apply after_bind, after_copy_object. intros d' Hd'. split_fresh Hd'.
  cbn [own_props]. heap_lookup. rewrite Hod.
  apply after_bind, after_set_prop. push_alter. cbn [obj_proto obj_props].
  unfold Axios.new_InterceptorManager.
  apply after_bind, after_bind, after_object_literal. intros areq Hareq. split_fresh Hareq.
  apply after_object_literal. intros mreq Hmreq. split_fresh Hmreq.
  apply after_bind, after_bind, after_object_literal. intros ares Hares. split_fresh Hares.
  apply after_object_literal. intros mres Hmres. split_fresh Hmres.
  apply after_bind, after_object_literal. intros ic Hic. split_fresh Hic.
  apply after_object_literal. intros cx Hcx. split_fresh Hcx.
  unfold setCaxiosDefaults.
  apply after_bind, after_bind, after_get_prop. cbn [nullish]. read_prop.
  apply after_bind, after_set_prop. push_alter. cbn [obj_proto obj_props].
  apply after_bind. cbn [forEach].
  do 3 (apply after_bind, after_bind, after_get_prop; cbn [nullish]; read_prop;
        apply after_bind, after_get_prop; cbn [nullish]; read_prop;
        apply after_bind, after_get_prop; cbn [nullish]; read_prop;
        apply after_set_prop; push_alter; cbn [obj_proto obj_props]).
  apply after_ret.
  apply after_bind, after_get_prop. cbn [nullish]. read_prop.
  apply after_bind, after_get_prop. cbn [nullish]. read_prop.
  apply after_bind. unfold Axios.InterceptorManager_use.
  apply after_bind, after_get_prop. cbn [nullish]. read_prop.
  apply after_bind, after_object_literal. intros pr Hpr. split_fresh Hpr.
  apply after_bind. unfold Axios.array_push.
  apply after_bind, after_get_prop. cbn [nullish]. read_prop.
  apply after_bind, after_set_prop. push_alter. cbn [obj_proto obj_props].
  apply after_bind, after_set_prop. push_alter. cbn [obj_proto obj_props].
  do 4 apply after_ret.
  replace (pretty 0) with "0" by (by vm_compute).
  split.
  { repeat (apply insert_subseteq_r; [done|]). done. }
  exists cx. split_and!; [done|done|].
  unfold installed. cbn [path fold_left].
  split_and!; by repeat read_prop.
Qed.

Lemma loaded_axios_is_client : is_client loaded_axios_heap loaded_axios.
Proof.
  intros m Hm. unfold Axios.header_groups in Hm.
  repeat (apply elem_of_cons in Hm as [->|Hm];
          [eexists _, _; split; vm_compute; reflexivity|]).
  by apply elem_of_nil in Hm.
Qed.

(** On the loaded package, the shared instance reads the same after the
    module is initialised: no timeout, form-encoded posts, no handler. *)
Lemma shared_instance_after_init :
  let h' := (module_init loaded_axios loaded_axios_heap).2 in
  path h' loaded_axios ["defaults"; "timeout"] = VNum 0 /\
  path h' loaded_axios ["defaults"; "headers"; "post"; "Content-Type"]
    = VStr "application/x-www-form-urlencoded" /\
  path h' loaded_axios ["interceptors"; "response"; "handlers"; "length"] = VNum 0.
Proof. vm_compute. by repeat split. Qed.

(** C9: loading the module creates the library's own client instance and
    installs the 3000 ms timeout, the 'Content-Type: application/json'
    default of post, put and patch, and the pair of response interceptors
    (as the only handlers) on that new instance; every object that existed
    before loading -- the Axios package's shared instance with its
    defaults, header groups and interceptor managers among them -- is
    unchanged afterwards. *)
Theorem defaults_installed_on_own_instance (h : heap) (axios : value) :
  is_client h axios ->
  exists (caxios : positive) (h' : heap),
    module_init axios h = (Normal (VObj caxios), h') /\
    h !! caxios = None /\
    installed h' (VObj caxios) /\
    h ⊆ h'.
Proof.
  intros Hclient.
  destruct (after_elim _ _ _ (module_init_run h axios Hclient))
    as (c & h' & Hrun & Hsub & cx & -> & Hcx & Hinst).
  exists cx, h'. split_and!; assumption.
Qed.

Lemma defaults_installed_on_own_instance_witness :
  exists (caxios : positive) (h' : heap),
    module_init loaded_axios loaded_axios_heap = (Normal (VObj caxios), h') /\
    installed h' (VObj caxios) /\
    loaded_axios_heap ⊆ h'.
Proof.
  destruct (defaults_installed_on_own_instance loaded_axios_heap loaded_axios
              loaded_axios_is_client) as (cx & h' & Hrun & _ & Hinst & Hsub).
  exists cx, h'. split_and!; assumption.
Defined.

(** The earlier revision writes the same settings to the shared instance
    itself. *)
Lemma legacy_init_writes_shared_instance :
  let h' := (Legacy.setGlobalDefaults loaded_axios loaded_axios_heap).2 in
  path h' loaded_axios ["defaults"; "timeout"] = VNum 3000 /\
  path h' loaded_axios ["defaults"; "headers"; "post"; "Content-Type"]
    = VStr "application/json" /\
  path h' loaded_axios ["interceptors"; "response"; "handlers"; "length"] = VNum 1.
Proof. vm_compute. by repeat split. Qed.

(** * Further properties of the rejected-response hook *)

Lemma after_set_prop_any v k x h (Q : completion unit -> heap -> Prop) :
  nullish v = false ->
  (forall h', Q (Normal tt) h') ->
  after (set_prop v k x) h Q.
Proof. intros Hv HQ. apply after_set_prop. destruct v; try done; apply HQ. Qed.

Lemma truthy_not_nullish v : truthy v = true -> nullish v = false.
Proof. by destruct v. Qed.

(** X1: the rejected-response hook never returns.  Whatever it is given,
    it ends by throwing: the failure itself when the failure is anything
    but [undefined] or [null], and a new TypeError (from the first
    property assignment) when it is one of these two. *)
Theorem rejected_hook_always_throws
    (isCancel : value -> heap -> bool) (ex : value) (h : heap) :
  exists e h',
    rejectedResponseInterceptor isCancel ex h = (Thrown e, h') /\
    if nullish ex
    then exists l o, e = VObj l /\ h !! l = None /\ h' !! l = Some o /\
                     obj_proto o = TypeErrorProto
    else e = ex.
Proof.
  destruct (nullish ex) eqn:Hn.
  - destruct ex; try discriminate Hn;
      (eexists _, _; split; [reflexivity|]);
      (eexists _, _; split_and!;
         [reflexivity|apply fresh_heap|apply lookup_insert_eq|reflexivity]).
  - cut (after (rejectedResponseInterceptor isCancel ex) h (fun c _ => c = Thrown ex)).
    { intros (c & h' & Hrun & ->)%after_elim. by exists ex, h'. }
    unfold rejectedResponseInterceptor.
    do 4 (apply after_bind, after_set_prop_any; [done|]; intros ?).
    apply after_bind, after_read. apply after_bind.
    assert (Hend : forall k b h1,
      after (set_prop ex k (const_fn b)) h1
        (fun c h' => match c with
                     | Normal _ =>
                         after (throw ex) h' (fun (c : completion value) _ => c = Thrown ex)
                     | Thrown e => @Thrown value e = Thrown ex
                     end)).
    { intros k b h1. by apply after_set_prop_any. }
    destruct (instanceof_SyntaxError ex _); [apply Hend|].
    apply after_bind, after_read.
    destruct (isCancel ex _); [apply Hend|].
    apply after_bind, after_get_prop. rewrite Hn.
    destruct (truthy (prop_of _ ex "response")) eqn:Hr; cbn [negb]; [|apply Hend].
    apply after_bind, after_get_prop. rewrite (truthy_not_nullish _ Hr).
    destruct (strict_eq _ _); [apply Hend|]. by apply after_ret.
Qed.

(** X2: on a failure object the hook writes the four predicates and
    nothing else: the object keeps its prototype and every other property
    (message, response, config, ...), and every other object of the heap
    is as it was. *)
Theorem rejected_hook_writes_only_predicates
    (isCancel : value -> heap -> bool) (h : heap) (e : positive) (oe : object) :
  h !! e = Some oe ->
  exists h' oe',
    rejectedResponseInterceptor isCancel (VObj e) h = (Thrown (VObj e), h') /\
    h' !! e = Some oe' /\
    obj_proto oe' = obj_proto oe /\
    (forall k, k ∉ predicate_names -> obj_props oe' !! k = obj_props oe !! k) /\
    (forall l, l ≠ e -> h' !! l = h !! l).
Proof.
  intros He. pose proof (rejected_run_branch isCancel h e oe) as Hrun.
  rewrite (insert_id h e oe He) in Hrun.
  eexists _, _. split; [exact Hrun|]. split_and!.
  - apply lookup_insert_eq.
  - done.
  - intros k Hk. by apply lookup_classified_ne.
  - intros l Hl. by rewrite lookup_insert_ne.
Qed.

Lemma rejected_hook_writes_only_predicates_witness :
  exists h' oe',
    rejectedResponseInterceptor axios_isCancel (VObj 1%positive) validation_error_heap
      = (Thrown (VObj 1%positive), h') /\
    h' !! 1%positive = Some oe' /\
    obj_props oe' !! "response" = Some (VObj 2%positive) /\
    h' !! 2%positive = validation_error_heap !! 2%positive.
Proof.
  destruct (rejected_hook_writes_only_predicates axios_isCancel validation_error_heap
              1%positive
              (Obj ErrorProto {[ "message" := VStr "Request failed with status code 422";
                                 "response" := VObj 2%positive ]}) eq_refl)
    as (h' & oe' & Hrun & He & _ & Hkeep & Hother).
  exists h', oe'. split_and!; [exact Hrun|exact He| |].
  - rewrite Hkeep; [reflexivity|]. apply (bool_decide_unpack _). vm_compute. reflexivity.
  - apply Hother. discriminate.
Defined.

Lemma classified_props_idem c ps :
  classified_props c (classified_props c ps) = classified_props c ps.
Proof.
  apply map_eq. intros k.
  destruct c; unfold classified_props; cbn [flags];
    rewrite !lookup_insert; by repeat case_decide.
Qed.

Lemma spec_first_match_classified
    (isCancel : value -> heap -> bool) c (h : heap) (e : positive) (oe : object) :
  cancel_ignores_predicates isCancel ->
  h !! e = Some oe ->
  spec_first_match isCancel
    (<[e := Obj (obj_proto oe) (classified_props c (obj_props oe))]> h) (VObj e)
  = spec_first_match isCancel h (VObj e).
Proof.
  intros Hloc He.
  rewrite !first_match_eq, instanceof_insert. cbn [obj_proto].
  rewrite !prop_of_after_classified by (done || not_predicate).
  assert (Hcan : isCancel (VObj e)
                   (<[e := Obj (obj_proto oe) (classified_props c (obj_props oe))]> h)
                 = isCancel (VObj e) h).
  { assert (Hstep : forall k x p ps,
      k ∈ predicate_names ->
      isCancel (VObj e) (<[e := Obj p (<[k := x]> ps)]> h)
      = isCancel (VObj e) (<[e := Obj p ps]> h)).
    { intros k x p ps Hk. apply (Hloc e (Obj p ps) h k x Hk). }
    destruct c; unfold classified_props; cbn [flags];
      rewrite !Hstep by (apply (bool_decide_unpack _); by vm_compute);
      (rewrite insert_id; [done|]; rewrite He; by destruct oe). }
  rewrite Hcan. simpl instanceof_SyntaxError. by rewrite He.
Qed.

(** X3: classifying twice changes nothing.  When the failure the hook
    has rethrown is handed to the hook again, it is rethrown with the heap
    exactly as the first pass left it (for a cancellation predicate that
    does not look at the four predicates). *)
Theorem rejected_hook_idempotent
    (isCancel : value -> heap -> bool) (h : heap) (e : positive) (oe : object) :
  cancel_ignores_predicates isCancel ->
  h !! e = Some oe ->
  exists h',
    rejectedResponseInterceptor isCancel (VObj e) h = (Thrown (VObj e), h') /\
    rejectedResponseInterceptor isCancel (VObj e) h' = (Thrown (VObj e), h').
Proof.
  intros Hloc He. eexists. split; [by apply rejected_run|].
  erewrite rejected_run; [|done|apply lookup_insert_eq].
  cbn [obj_proto obj_props].
  rewrite spec_first_match_classified by done.
  by rewrite classified_props_idem, insert_insert_eq.
Qed.

Lemma rejected_hook_idempotent_witness :
  exists h',
    rejectedResponseInterceptor axios_isCancel (VObj 1%positive) server_error_heap
      = (Thrown (VObj 1%positive), h') /\
    rejectedResponseInterceptor axios_isCancel (VObj 1%positive) h'
      = (Thrown (VObj 1%positive), h').
Proof.
  exact (rejected_hook_idempotent axios_isCancel server_error_heap 1%positive
           (Obj ErrorProto {[ "message" := VStr "Request failed with status code 500";
                              "response" := VObj 2%positive ]})
           axios_isCancel_ignores_predicates eq_refl).
Defined.

(** X4: a parsing error is always a format failure, whatever else is
    true of it: for every failure object that is a SyntaxError -- with or
    without a response, recognised as a cancellation or not -- the hook
    makes [isFormat()] return true and the other three return false. *)
Theorem parsing_error_is_format
    (isCancel : value -> heap -> bool) (h : heap) (e : positive) (oe : object) :
  h !! e = Some oe ->
  obj_proto oe = SyntaxErrorProto ->
  exists h',
    rejectedResponseInterceptor isCancel (VObj e) h = (Thrown (VObj e), h') /\
    predicates h' (VObj e) = [Some true; Some false; Some false; Some false].
Proof.
  intros He Hproto. pose proof (rejected_run_branch isCancel h e oe) as Hrun.
  rewrite (insert_id h e oe He) in Hrun.
  unfold branch_taken in Hrun. rewrite bool_decide_eq_true_2 in Hrun by done.
  eexists. split; [exact Hrun|]. by rewrite predicates_classified.
Qed.

Lemma parsing_error_is_format_witness :
  exists h',
    rejectedResponseInterceptor axios_isCancel (VObj 1%positive) unparsable_422_heap
      = (Thrown (VObj 1%positive), h') /\
    predicates h' (VObj 1%positive) = [Some true; Some false; Some false; Some false].
Proof.
  exact (parsing_error_is_format axios_isCancel unparsable_422_heap 1%positive
           (Obj SyntaxErrorProto {[ "message" := VStr "Unexpected token < in JSON";
                                    "response" := VObj 2%positive ]})
           eq_refl eq_refl).
Defined.

(** X5: a failure the transport's cancellation predicate recognises, and
    that is not a parsing error, is a cancellation: [isCancel()] returns
    true and the other three predicates return false, with or without a
    response attached. *)
Theorem cancellation_is_cancel
    (isCancel : value -> heap -> bool) (h : heap) (e : positive) (oe : object) :
  cancel_ignores_predicates isCancel ->
  h !! e = Some oe ->
  obj_proto oe ≠ SyntaxErrorProto ->
  isCancel (VObj e) h = true ->
  exists h',
    rejectedResponseInterceptor isCancel (VObj e) h = (Thrown (VObj e), h') /\
    predicates h' (VObj e) = [Some false; Some true; Some false; Some false].
Proof.
  intros Hloc He Hproto Hcan. eexists. split; [by apply rejected_run|].
  rewrite predicates_classified, first_match_eq. simpl instanceof_SyntaxError.
  rewrite He, bool_decide_eq_false_2 by done. by rewrite Hcan.
Qed.

Lemma cancellation_is_cancel_witness :
  exists h',
    rejectedResponseInterceptor axios_isCancel (VObj 1%positive) cancelled_422_heap
      = (Thrown (VObj 1%positive), h') /\
    predicates h' (VObj 1%positive) = [Some false; Some true; Some false; Some false].
Proof.
  apply (cancellation_is_cancel axios_isCancel cancelled_422_heap 1%positive
           (Obj ObjectProto {[ "message" := VStr "Operation canceled by the user.";
                               "__CANCEL__" := VBool true;
                               "response" := VObj 2%positive ]})
           axios_isCancel_ignores_predicates eq_refl).
  - discriminate.
  - vm_compute. reflexivity.
Defined.

(** X6: a failure with no response attached -- the property is missing,
    or holds a falsy value -- that is neither a parsing error nor a
    recognised cancellation is a network failure: [isNetwork()] returns
    true and the other three predicates return false. *)
Theorem no_response_is_network
    (isCancel : value -> heap -> bool) (h : heap) (e : positive) (oe : object) :
  cancel_ignores_predicates isCancel ->
  h !! e = Some oe ->
  obj_proto oe ≠ SyntaxErrorProto ->
  isCancel (VObj e) h = false ->
  truthy (prop_of h (VObj e) "response") = false ->
  exists h',
    rejectedResponseInterceptor isCancel (VObj e) h = (Thrown (VObj e), h') /\
    predicates h' (VObj e) = [Some false; Some false; Some true; Some false].
Proof.
  intros Hloc He Hproto Hcan Hr. eexists. split; [by apply rejected_run|].
  rewrite predicates_classified, first_match_eq. simpl instanceof_SyntaxError.
  rewrite He, bool_decide_eq_false_2 by done. by rewrite Hcan, Hr.
Qed.

(** X7: a failure that carries a response whose status is not the number
    422 (another number, or a value that is not a number, such as the
    string '422'), and that is neither a parsing error nor a recognised
    cancellation, is left unclassified: all four predicates return
    false. *)
Theorem other_status_is_unclassified
    (isCancel : value -> heap -> bool) (h : heap) (e : positive) (oe : object) :
  cancel_ignores_predicates isCancel ->
  h !! e = Some oe ->
  obj_proto oe ≠ SyntaxErrorProto ->
  isCancel (VObj e) h = false ->
  truthy (prop_of h (VObj e) "response") = true ->
  prop_of h (prop_of h (VObj e) "response") "status" ≠ VNum 422 ->
  exists h',
    rejectedResponseInterceptor isCancel (VObj e) h = (Thrown (VObj e), h') /\
    predicates h' (VObj e) = [Some false; Some false; Some false; Some false].
Proof.
  intros Hloc He Hproto Hcan Hr Hst. eexists. split; [by apply rejected_run|].
  rewrite predicates_classified, first_match_eq. simpl instanceof_SyntaxError.
  rewrite He, bool_decide_eq_false_2 by done. rewrite Hcan, Hr. cbn [negb].
  by rewrite bool_decide_eq_false_2.
Qed.

(** * Further properties of the fulfilled-response hook *)

Lemma rejected_hook_frame
    (isCancel : value -> heap -> bool) (h0 h : heap) (e : positive) :
  h0 ⊆ h -> h0 !! e = None ->
  after (rejectedResponseInterceptor isCancel (VObj e)) h
    (fun c h' => c = Thrown (VObj e) /\ h0 ⊆ h').
Proof.
  intros Hsub He. unfold rejectedResponseInterceptor.
  assert (Hend : forall k b h1, h0 ⊆ h1 ->
    after (set_prop (VObj e) k (const_fn b)) h1
      (fun c h' => match c with
                   | Normal _ =>
                       after (throw (VObj e)) h'
                         (fun (c : completion value) h' => c = Thrown (VObj e) /\ h0 ⊆ h')
                   | Thrown e' => @Thrown value e' = Thrown (VObj e) /\ h0 ⊆ h'
                   end)).
  { intros k b h1 H1. apply after_set_prop. apply after_throw. split; [done|].
    by apply grow_alter. }
  apply after_bind, after_set_prop. apply after_bind, after_set_prop.
  apply after_bind, after_set_prop. apply after_bind, after_set_prop.
  match goal with
  | |- after _ ?hc _ =>
      assert (H4 : h0 ⊆ hc) by (repeat (apply grow_alter; [|exact He]); exact Hsub)
  end.
  apply after_bind, after_read. apply after_bind.
  destruct (instanceof_SyntaxError _ _); [by apply Hend|].
  apply after_bind, after_read.
  destruct (isCancel _ _); [by apply Hend|].
  apply after_bind, after_get_prop. cbn [nullish].
  destruct (truthy (prop_of _ (VObj e) "response")) eqn:Hr; cbn [negb]; [|by apply Hend].
  apply after_bind, after_get_prop. rewrite (truthy_not_nullish _ Hr).
  destruct (strict_eq _ _); [by apply Hend|]. apply after_ret, after_throw. by split.
Qed.

(** X8: the fulfilled-response hook changes no object that exists when
    it is called, for any response and any heap.  When it returns, it
    returns the very response it was given and the heap is exactly as
    before; when it throws, what it throws is an object created by the
    call (a parsing error, or a TypeError for a response without config,
    headers or Accept). *)
Theorem fulfilled_hook_leaves_heap
    (JSON_parse : string -> parse_result) (isCancel : value -> heap -> bool)
    (response : value) (h : heap) :
  after (fulfilledResponseInterceptor JSON_parse isCancel response) h
    (fun c h' =>
       match c with
       | Normal v => v = response /\ h' = h
       | Thrown e => h ⊆ h' /\ exists l, e = VObj l /\ h !! l = None
       end).
Proof.
  set (Q := fun (c : completion value) (h' : heap) =>
       match c with
       | Normal v => v = response /\ h' = h
       | Thrown e => h ⊆ h' /\ exists l, e = VObj l /\ h !! l = None
       end).
  assert (Hthrow : forall l o, h !! l = None -> Q (Thrown (VObj l)) (<[l := o]> h)).
  { intros l o Hl. split; [by apply grow_insert|by exists l]. }
  assert (Hget : forall v k (Q' : completion value -> heap -> Prop),
    (forall l o, h !! l = None -> Q' (Thrown (VObj l)) (<[l := o]> h)) ->
    Q' (Normal (prop_of h v k)) h ->
    after (get_prop v k) h Q').
  { intros v k Q' HT HN. apply after_get_prop. destruct (nullish v); [|done].
    intros l o Hl _. by apply HT. }
  unfold fulfilledResponseInterceptor.
  apply after_bind, Hget; [exact Hthrow|].
  apply after_bind, Hget; [exact Hthrow|].
  apply after_bind, Hget; [exact Hthrow|].
  assert (Hidx : forall v needle (Q' : completion Z -> heap -> Prop),
    (forall l o, h !! l = None -> Q' (Thrown (VObj l)) (<[l := o]> h)) ->
    (forall z, Q' (Normal z) h) ->
    after (indexOf v needle) h Q').
  { intros v needle Q' HT HN.
    destruct v; try (apply after_throw_TypeError; intros ? ?; by apply HT).
    apply after_ret, HN. }
  apply after_bind, Hidx; [exact Hthrow|]. intros i.
  apply after_bind.
  assert (Hrest : forall fine : bool,
    after (if fine then js_ret response
           else d ← get_prop response "data";
                match JSON_parse (to_string d) with
                | Parsed => js_ret response
                | SyntaxError msg =>
                    ex ← alloc (Obj SyntaxErrorProto {[ "message" := VStr msg ]});
                    set_prop (VObj ex) "response" response;;
                    c ← get_prop response "config";
                    set_prop (VObj ex) "config" c;;
                    rejectedResponseInterceptor isCancel (VObj ex)
                end) h Q).
  { intros [|]; [by apply after_ret|].
    apply after_bind, Hget; [exact Hthrow|].
    destruct (JSON_parse _) as [|msg]; [by apply after_ret|].
    apply after_bind, after_alloc. intros ex Hex.
    apply after_bind, after_set_prop.
    rewrite alter_insert_eq. cbn [obj_proto obj_props].
    apply after_bind, after_get_prop.
    destruct (nullish response) eqn:Hn.
    { intros l o Hl _. split.
      - apply grow_insert; [by apply grow_insert|done].
      - exists l. split; [done|]. by apply lookup_insert_None in Hl as [Hl _]. }
    apply after_bind, after_set_prop.
    rewrite alter_insert_eq. cbn [obj_proto obj_props].
    eapply after_mono.
    { apply (rejected_hook_frame isCancel h); [by apply grow_insert|done]. }
    intros c h' [-> Hsub]. split; [done|by exists ex]. }
  destruct (i <? 0); [apply after_ret; exact (Hrest true)|].
  apply after_bind, Hidx; [intros; by apply Hthrow|]. intros j.
  destruct (0 <? j); [apply after_ret; exact (Hrest true)|].
  apply after_bind, Hget; [intros; by apply Hthrow|]. apply after_ret. exact (Hrest _).
Qed.

Lemma other_accept_passes_through_witness :
  fulfilledResponseInterceptor Json.parse axios_isCancel (VObj 1%positive)
    stock_accept_reply_heap = (Normal (VObj 1%positive), stock_accept_reply_heap).
Proof.
  apply (other_accept_passes_through Json.parse axios_isCancel stock_accept_reply_heap
           (VObj 1%positive) "application/json, text/plain, */*").
  - vm_compute. reflexivity.
  - right. vm_compute. reflexivity.
Defined.

Lemma missing_accept_throws_witness :
  after (fulfilledResponseInterceptor Json.parse axios_isCancel (VObj 1%positive))
    no_accept_reply_heap (threw_TypeError no_accept_reply_heap).
Proof.
  apply (missing_accept_throws Json.parse axios_isCancel no_accept_reply_heap
           (VObj 1%positive)); vm_compute; reflexivity.
Defined.

(** X11: the hook takes a request for JSON only from any Accept string
    that contains 'application/json' and has no comma past its first
    character (so also 'application/json; charset=utf-8').  For such a
    response whose data is not an object and whose text [JSON.parse]
    rejects -- a string body, or no data at all, read as 'undefined' --
    the hook throws a new parsing error that has the parser's message,
    the response and the response's config, and is classified as a format
    failure. *)
Theorem json_only_accept_parse_failure_rejects
    (JSON_parse : string -> parse_result) (isCancel : value -> heap -> bool)
    (h : heap) (response : value) (accept msg : string) :
  path h response ["config"; "headers"; "Accept"] = VStr accept ->
  0 <= string_indexOf accept "application/json" ->
  string_indexOf accept "," <= 0 ->
  typeof_object (prop_of h response "data") = false ->
  JSON_parse (to_string (prop_of h response "data")) = SyntaxError msg ->
  exists ex h',
    fulfilledResponseInterceptor JSON_parse isCancel response h = (Thrown (VObj ex), h') /\
    h !! ex = None /\
    instanceof_SyntaxError (VObj ex) h' = true /\
    prop_of h' (VObj ex) "message" = VStr msg /\
    prop_of h' (VObj ex) "response" = response /\
    prop_of h' (VObj ex) "config" = prop_of h response "config" /\
    predicates h' (VObj ex) = [Some true; Some false; Some false; Some false].
Proof.
  intros Hpath Hjson Hcomma Hdata Hparse.
  rewrite (fulfilled_run _ _ _ _ _ Hpath). unfold response_is_fine.
  rewrite (proj2 (Z.ltb_ge _ _) Hjson), (proj2 (Z.ltb_ge _ _) Hcomma), Hdata, Hparse.
  cbn [orb].
  eexists _, _. split; [reflexivity|]. split_and!.
  - apply fresh_heap.
  - by rewrite instanceof_insert.
  - rewrite prop_of_classified by not_predicate. simpl. rewrite lookup_insert_eq. simpl.
    by rewrite !lookup_insert_ne, lookup_singleton_eq.
  - rewrite prop_of_classified by not_predicate. simpl. rewrite lookup_insert_eq. simpl.
    by rewrite lookup_insert_ne, lookup_insert_eq.
  - rewrite prop_of_classified by not_predicate. simpl. rewrite lookup_insert_eq. simpl.
    by rewrite lookup_insert_eq.
  - by rewrite predicates_classified.
Qed.

Lemma json_only_accept_parse_failure_rejects_witness :
  exists ex h',
    fulfilledResponseInterceptor Json.parse axios_isCancel (VObj 1%positive)
      charset_accept_reply_heap = (Thrown (VObj ex), h') /\
    prop_of h' (VObj ex) "response" = VObj 1%positive /\
    predicates h' (VObj ex) = [Some true; Some false; Some false; Some false].
Proof.
  destruct (json_only_accept_parse_failure_rejects Json.parse axios_isCancel
              charset_accept_reply_heap (VObj 1%positive)
              "application/json; charset=utf-8" "Unexpected token in JSON")
    as (ex & h' & Hrun & _ & _ & _ & Hresp & _ & Hp);
    [vm_compute; reflexivity|vm_compute; discriminate|vm_compute; discriminate
    |vm_compute; reflexivity|vm_compute; reflexivity|].
  exists ex, h'. split_and!; assumption.
Defined.

(** X12: whatever string the Accept header is, a response whose data,
    converted to a string, is a text [JSON.parse] accepts -- a JSON string
    body, or a number or boolean the transport has already parsed -- is
    returned as it is, with the heap unchanged. *)
Theorem parsable_data_passes_through
    (JSON_parse : string -> parse_result) (isCancel : value -> heap -> bool)
    (h : heap) (response : value) (accept : string) :
  path h response ["config"; "headers"; "Accept"] = VStr accept ->
  JSON_parse (to_string (prop_of h response "data")) = Parsed ->
  fulfilledResponseInterceptor JSON_parse isCancel response h = (Normal response, h).
Proof.
  intros Hpath Hparse.
  rewrite (fulfilled_run _ _ _ _ _ Hpath), Hparse. by destruct (response_is_fine _ _).
Qed.

Lemma parsable_data_passes_through_witness :
  fulfilledResponseInterceptor Json.parse axios_isCancel (VObj 1%positive)
    number_reply_heap = (Normal (VObj 1%positive), number_reply_heap).
Proof.
  apply (parsable_data_passes_through Json.parse axios_isCancel number_reply_heap
           (VObj 1%positive) "application/json"); vm_compute; reflexivity.
Defined.

Lemma no_response_is_network_witness :
  exists h',
    rejectedResponseInterceptor axios_isCancel (VObj 1%positive) network_error_heap
      = (Thrown (VObj 1%positive), h') /\
    predicates h' (VObj 1%positive) = [Some false; Some false; Some true; Some false].
Proof.
  apply (no_response_is_network axios_isCancel network_error_heap 1%positive
           (Obj ErrorProto {[ "message" := VStr "Network Error";
                              "config" := VObj 2%positive ]})
           axios_isCancel_ignores_predicates eq_refl).
  - discriminate.
  - vm_compute. reflexivity.
  - vm_compute. reflexivity.
Defined.

Lemma other_status_is_unclassified_witness :
  exists h',
    rejectedResponseInterceptor axios_isCancel (VObj 1%positive) server_error_heap
      = (Thrown (VObj 1%positive), h') /\
    predicates h' (VObj 1%positive) = [Some false; Some false; Some false; Some false].
Proof.
  apply (other_status_is_unclassified axios_isCancel server_error_heap 1%positive
           (Obj ErrorProto {[ "message" := VStr "Request failed with status code 500";
                              "response" := VObj 2%positive ]})
           axios_isCancel_ignores_predicates eq_refl).
  - discriminate.
  - vm_compute. reflexivity.
  - vm_compute. reflexivity.
  - vm_compute. discriminate.
Defined.

(** * Further properties of the config composers *)

Lemma prop_of_weaken (h h' : heap) v k :
  h ⊆ h' -> live h v -> prop_of h' v k = prop_of h v k.
Proof.
  intros Hsub Hlive. destruct v; try done. simpl in *.
  destruct Hlive as [o Ho]. by rewrite Ho, (lookup_weaken _ _ _ _ Ho Hsub).
Qed.

Lemma cancel_token_of_weaken (h h' : heap) (ps ps' : gmap string value) :
  h ⊆ h' ->
  live h (default VUndefined (ps !! "cancelSource")) ->
  ps' !! "cancelToken" = ps !! "cancelToken" ->
  ps' !! "cancelSource" = ps !! "cancelSource" ->
  cancel_token_of h' ps' = cancel_token_of h ps.
Proof.
  intros Hsub Hlive Hct Hcs. unfold cancel_token_of. rewrite Hct, Hcs.
  destruct (truthy (default VUndefined (ps !! "cancelToken"))); [done|].
  destruct (truthy (default VUndefined (ps !! "cancelSource"))); [|done].
  by apply prop_of_weaken.
Qed.

(** X13: for every caller-supplied config object, [withCancelToken]
    returns a new config that has every property of the caller's config
    but [cancelToken] unchanged, and whose [cancelToken] is the config's
    own [cancelToken] when that is truthy, else the [token] of the
    config's [cancelSource] when there is one, else [undefined]: an own
    token wins over a cancellation source, and a falsy own token is
    dropped. *)
Theorem withCancelToken_picks_token (h : heap) (c : positive) (oc : object) :
  h !! c = Some oc ->
  exists (r : positive) (h' : heap) (o' : object),
    withCancelToken (VObj c) h = (Normal (VObj r), h') /\
    h !! r = None /\
    h' !! r = Some o' /\
    (forall k, k ≠ "cancelToken" -> obj_props o' !! k = obj_props oc !! k) /\
    obj_props o' !! "cancelToken" =
      Some (let ct := prop_of h (VObj c) "cancelToken" in
            let cs := prop_of h (VObj c) "cancelSource" in
            if truthy ct then ct
            else if truthy cs then prop_of h cs "token" else VUndefined).
Proof.
  intros Hc. destruct (withCancelToken_run h c oc Hc) as (r & h' & Hrun & Hr & _ & Hr').
  eexists r, h', _. split_and!; [exact Hrun|exact Hr|exact Hr'| |].
  - intros k Hk. cbn [obj_props]. by rewrite lookup_insert_ne.
  - cbn [obj_props prop_of]. rewrite lookup_insert_eq, Hc. reflexivity.
Qed.

Lemma withCancelToken_picks_token_witness :
  exists (r : positive) (h' : heap) (o' : object),
    withCancelToken (VObj 1%positive) cancellable_config_heap = (Normal (VObj r), h') /\
    h' !! r = Some o' /\
    obj_props o' !! "cancelSource" = Some (VObj 2%positive) /\
    obj_props o' !! "cancelToken" = Some (VObj 4%positive).
Proof.
  destruct (withCancelToken_picks_token cancellable_config_heap 1%positive
              (Obj ObjectProto {[ "cancelSource" := VObj 2%positive;
                                  "headers" := VObj 3%positive ]}) eq_refl)
    as (r & h' & o' & Hrun & _ & Hr' & Hkeep & Htok).
  exists r, h', o'. split_and!; [exact Hrun|exact Hr'| |].
  - rewrite Hkeep by discriminate. vm_compute. reflexivity.
  - rewrite Htok. vm_compute. reflexivity.
Defined.

(** X14: [withCancelToken] applied to its own result gives an equal
    config: the second copy has exactly the properties of the first (for
    a config whose [cancelSource], if it is an object, exists). *)
Theorem withCancelToken_idempotent (h : heap) (c : positive) (oc : object) :
  h !! c = Some oc ->
  live h (prop_of h (VObj c) "cancelSource") ->
  exists (r1 r2 : positive) (h1 h2 : heap) (o : object),
    withCancelToken (VObj c) h = (Normal (VObj r1), h1) /\
    withCancelToken (VObj r1) h1 = (Normal (VObj r2), h2) /\
    h1 !! r1 = Some o /\ h2 !! r2 = Some o.
Proof.
  intros Hc Hlive. cbn [prop_of] in Hlive. rewrite Hc in Hlive.
  destruct (withCancelToken_run h c oc Hc) as (r1 & h1 & Hrun1 & Hr1 & Hsub1 & Hr1').
  destruct (withCancelToken_run h1 r1 _ Hr1') as (r2 & h2 & Hrun2 & Hr2 & Hsub2 & Hr2').
  eexists r1, r2, h1, h2, _. split_and!; [exact Hrun1|exact Hrun2|exact Hr1'|].
  rewrite Hr2'. cbn [obj_props]. do 2 f_equal.
  set (t := cancel_token_of h (obj_props oc)).
  assert (Ht : cancel_token_of h1 (<["cancelToken" := t]> (obj_props oc)) = t).
  { unfold cancel_token_of at 1. rewrite lookup_insert_eq. cbn [default from_option id].
    destruct (truthy t) eqn:Htruthy; [done|].
    rewrite lookup_insert_ne by done.
    unfold t, cancel_token_of in *.
    destruct (truthy (default VUndefined (obj_props oc !! "cancelToken"))) eqn:Hct;
      [congruence|].
    destruct (truthy (default VUndefined (obj_props oc !! "cancelSource"))); [|done].
    by apply prop_of_weaken. }
  by rewrite Ht, insert_insert_eq.
Qed.

Lemma withCancelToken_idempotent_witness :
  exists (r1 r2 : positive) (h1 h2 : heap) (o : object),
    withCancelToken (VObj 1%positive) cancellable_config_heap = (Normal (VObj r1), h1) /\
    withCancelToken (VObj r1) h1 = (Normal (VObj r2), h2) /\
    h1 !! r1 = Some o /\ h2 !! r2 = Some o.
Proof.
  apply (withCancelToken_idempotent cancellable_config_heap 1%positive
           (Obj ObjectProto {[ "cancelSource" := VObj 2%positive;
                               "headers" := VObj 3%positive ]}) eq_refl).
  vm_compute. eexists. reflexivity.
Defined.

(** X15: [withAcceptJSON] applied to its own result gives an equal
    config: the second headers mapping has exactly the entries of the
    first, and the second config has the caller's properties with that
    mapping as [headers]. *)
Theorem withAcceptJSON_idempotent (h : heap) (c : positive) (oc : object) :
  h !! c = Some oc ->
  live h (prop_of h (VObj c) "headers") ->
  exists (r1 hd1 r2 hd2 : positive) (h1 h2 : heap) (ohd : object),
    withAcceptJSON (VObj c) h = (Normal (VObj r1), h1) /\
    withAcceptJSON (VObj r1) h1 = (Normal (VObj r2), h2) /\
    h1 !! r1 = Some (Obj ObjectProto (<["headers" := VObj hd1]> (obj_props oc))) /\
    h2 !! r2 = Some (Obj ObjectProto (<["headers" := VObj hd2]> (obj_props oc))) /\
    h1 !! hd1 = Some ohd /\ h2 !! hd2 = Some ohd.
Proof.
  intros Hc Hlive. cbn [prop_of] in Hlive. rewrite Hc in Hlive.
  destruct (withAcceptJSON_run h c oc Hc Hlive)
    as (r1 & hd1 & h1 & Hrun1 & _ & _ & _ & Hr1 & Hhd1).
  pose proof (withAcceptJSON_run h1 r1 _ Hr1) as Hrun2. cbn [obj_props] in Hrun2.
  rewrite lookup_insert_eq in Hrun2. cbn [default from_option id live] in Hrun2.
  rewrite Hhd1 in Hrun2.
  destruct (Hrun2 (mk_is_Some _ _ eq_refl))
    as (r2 & hd2 & h2 & Hrun2' & _ & _ & _ & Hr2 & Hhd2).
  eexists r1, hd1, r2, hd2, h1, h2, _.
  split_and!; [exact Hrun1|exact Hrun2'|exact Hr1| |exact Hhd1|].
  - rewrite Hr2. by rewrite insert_insert_eq.
  - rewrite Hhd2. cbn [own_props]. rewrite Hhd1. cbn [obj_props].
    do 2 f_equal. rewrite <- (assoc_L (∪)). by rewrite (idemp_L (∪)).
Qed.

Lemma withAcceptJSON_idempotent_witness :
  exists (r1 hd1 r2 hd2 : positive) (h1 h2 : heap) (ohd : object),
    withAcceptJSON (VObj 1%positive) html_config_heap = (Normal (VObj r1), h1) /\
    withAcceptJSON (VObj r1) h1 = (Normal (VObj r2), h2) /\
    h1 !! r1 = Some (Obj ObjectProto
                       (<["headers" := VObj hd1]>
                          {[ "headers" := VObj 2%positive; "timeout" := VNum 5 ]})) /\
    h2 !! r2 = Some (Obj ObjectProto
                       (<["headers" := VObj hd2]>
                          {[ "headers" := VObj 2%positive; "timeout" := VNum 5 ]})) /\
    h1 !! hd1 = Some ohd /\ h2 !! hd2 = Some ohd.
Proof.
  apply (withAcceptJSON_idempotent html_config_heap 1%positive
           (Obj ObjectProto {[ "headers" := VObj 2%positive; "timeout" := VNum 5 ]})
           eq_refl).
  vm_compute. eexists. reflexivity.
Defined.

(** * Further properties of the verb facades *)

Lemma after_bind_threw {A} (h0 : heap) (m : js A) (k : A -> js value) h
    (P : completion A -> heap -> Prop) :
  after m h P ->
  (forall c h', P c h' ->
     match c with
     | Normal a => after (k a) h' (threw_TypeError h0)
     | Thrown e => threw_TypeError h0 (Thrown e) h'
     end) ->
  after (m ≫= k) h (threw_TypeError h0).
Proof.
  intros Hm Hk. apply after_bind. eapply after_mono; [exact Hm|]. exact Hk.
Qed.

Lemma after_default_empty_grows (h0 : heap) v h :
  h0 ⊆ h ->
  after (default_empty v) h
    (fun c h' => h0 ⊆ h' /\ exists v', c = Normal v' /\ (v = VNull -> v' = VNull)).
Proof.
  intros Hsub. destruct v; try (apply after_ret; split; [done|]; by eexists).
  apply after_object_literal. intros l Hl. split; [by apply grow_insert|by eexists].
Qed.

Lemma withAcceptJSON_throws_null (h0 h : heap) :
  h0 ⊆ h -> after (withAcceptJSON VNull) h (threw_TypeError h0).
Proof.
  intros Hsub. unfold withAcceptJSON.
  apply after_bind, after_ret.
  apply after_bind, (frame_alloc h0); [done|]. intros t1 h1 H1 _.
  apply after_bind, (frame_object_literal h0); [done|]. intros l2 h2 H2 _.
  apply after_bind.
  eapply after_mono; [by apply (frame_get_prop_nullish h0)|].
  intros [v|e] h' Hth; [by destruct Hth as (_ & l & o & [=] & _)|exact Hth].
Qed.

Section NullConfig.

Variable transport : string -> list value -> js value.

Lemma plain_verb_null verb (args : value -> list value) (h0 h : heap) :
  h0 ⊆ h ->
  after (config ← default_empty VNull;
         cfg ← withCancelToken config;
         transport verb (args cfg)) h (threw_TypeError h0).
Proof.
  intros Hsub. apply after_bind, after_ret.
  eapply after_bind_threw; [by apply (withCancelToken_throws h0)|].
  intros [v|e] h' Hth; [by destruct Hth as (_ & l & o & [=] & _)|exact Hth].
Qed.

Lemma data_verb_null verb url data (h : heap) :
  after (data ← default_empty data;
         config ← default_empty VNull;
         cfg ← withCancelToken config;
         transport verb [url; data; cfg]) h (threw_TypeError h).
Proof.
  eapply after_bind_threw; [by apply (after_default_empty_grows h)|].
  intros c h' (Hsub & v' & -> & _).
  by apply (plain_verb_null verb (fun cfg => [url; v'; cfg])).
Qed.

Lemma json_verb_null (k : value -> js value) (h0 h : heap) :
  h0 ⊆ h ->
  after (config ← default_empty VNull;
         cfg ← withAcceptJSON config;
         k cfg) h (threw_TypeError h0).
Proof.
  intros Hsub. apply after_bind, after_ret.
  eapply after_bind_threw; [by apply withAcceptJSON_throws_null|].
  intros [v|e] h' Hth; [by destruct Hth as (_ & l & o & [=] & _)|exact Hth].
Qed.

Lemma json_data_verb_null (k : value -> value -> js value) data (h : heap) :
  after (data ← default_empty data;
         config ← default_empty VNull;
         cfg ← withAcceptJSON config;
         k data cfg) h (threw_TypeError h).
Proof.
  eapply after_bind_threw; [by apply (after_default_empty_grows h)|].
  intros c h' (Hsub & v' & -> & _).
  by apply (json_verb_null (k v')).
Qed.

End NullConfig.

(** X16: the default [{}] of a config parameter is taken for a missing
    or [undefined] argument only.  With [null] for the config,
    [withAcceptJSON], [withCancelToken] and each of the ten verb facades
    throw a new TypeError; the facades do so before the transport is
    called, and nothing that existed before the call is changed. *)
Theorem null_config_is_not_defaulted
    (transport : string -> list value -> js value) (url data : value) (h : heap) :
  after (withAcceptJSON VNull) h (threw_TypeError h) /\
  after (withCancelToken VNull) h (threw_TypeError h) /\
  after (get transport url VNull) h (threw_TypeError h) /\
  after (post transport url data VNull) h (threw_TypeError h) /\
  after (put transport url data VNull) h (threw_TypeError h) /\
  after (patch transport url data VNull) h (threw_TypeError h) /\
  after (del transport url data VNull) h (threw_TypeError h) /\
  after (getJSON transport url VNull) h (threw_TypeError h) /\
  after (postJSON transport url data VNull) h (threw_TypeError h) /\
  after (putJSON transport url data VNull) h (threw_TypeError h) /\
  after (patchJSON transport url data VNull) h (threw_TypeError h) /\
  after (delJSON transport url data VNull) h (threw_TypeError h).
Proof.
  split_and!.
  - by apply withAcceptJSON_throws_null.
  - by apply withCancelToken_throws.
  - by apply (plain_verb_null transport "get" (fun cfg => [url; cfg])).
  - apply data_verb_null.
  - apply data_verb_null.
  - apply data_verb_null.
  - apply data_verb_null.
  - by apply (json_verb_null (get transport url)).
  - apply (json_data_verb_null (post transport url)).
  - apply (json_data_verb_null (put transport url)).
  - apply (json_data_verb_null (patch transport url)).
  - apply (json_data_verb_null (del transport url)).
Qed.

Lemma live_weaken (h h' : heap) v : h ⊆ h' -> live h v -> live h' v.
Proof.
  intros Hsub Hlive. destruct v; try done. simpl in *.
  destruct Hlive as [o Ho]. exists o. by eapply lookup_weaken.
Qed.

Lemma own_props_weaken (h h' : heap) v :
  h ⊆ h' -> live h v -> own_props v h' = own_props v h.
Proof.
  intros Hsub Hlive. destruct v; try done. simpl in *.
  destruct Hlive as [o Ho]. by rewrite Ho, (lookup_weaken _ _ _ _ Ho Hsub).
Qed.

Lemma default_empty_passes (h0 h : heap) data :
  h0 ⊆ h ->
  exists data' h1,
    default_empty data h = (Normal data', h1) /\ h ⊆ h1 /\ data' ≠ VUndefined /\
    forall h', h1 ⊆ h' ->
      if bool_decide (data = VUndefined)
      then exists l, data' = VObj l /\ h0 !! l = None /\ h' !! l = Some (Obj ObjectProto ∅)
      else data' = data.
Proof.
  intros Hsub. destruct data;
    try (eexists _, h; split_and!; [reflexivity|done|done|]; intros h' _;
         by rewrite bool_decide_eq_false_2).
  exists (VObj (fresh (dom h))), (<[fresh (dom h) := Obj ObjectProto ∅]> h).
  split_and!; [done|apply grow_insert; [done|apply fresh_heap]|done|].
  intros h' Hsub'. rewrite bool_decide_eq_true_2 by done.
  exists (fresh (dom h)). split_and!; [done| |].
  - eapply grow_fresh; [exact Hsub|apply fresh_heap].
  - eapply lookup_weaken; [|exact Hsub']. apply lookup_insert_eq.
Qed.

Lemma composed_from (h0 h1 : heap) (c : positive) (oc : object) :
  h0 ⊆ h1 ->
  h0 !! c = Some oc ->
  live h0 (default VUndefined (obj_props oc !! "cancelSource")) ->
  exists cfg h',
    withCancelToken (VObj c) h1 = (Normal cfg, h') /\
    composed_config h0 (obj_props oc) h' cfg /\ h1 ⊆ h'.
Proof.
  intros Hsub Hc Hlive.
  destruct (withCancelToken_run h1 c oc (lookup_weaken _ _ _ _ Hc Hsub))
    as (r & h' & Hrun & Hr & Hsub' & Hr').
  exists (VObj r), h'. split_and!; [exact Hrun| |exact Hsub'].
  exists r. split_and!; [done|by eapply grow_fresh|].
  rewrite Hr'. do 3 f_equal. by apply cancel_token_of_weaken.
Qed.

Lemma composed_json_from (h0 h1 : heap) (c : positive) (oc : object) :
  h0 ⊆ h1 ->
  h0 !! c = Some oc ->
  live h0 (default VUndefined (obj_props oc !! "headers")) ->
  live h0 (default VUndefined (obj_props oc !! "cancelSource")) ->
  exists r1 h2 cfg h',
    withAcceptJSON (VObj c) h1 = (Normal (VObj r1), h2) /\
    withCancelToken (VObj r1) h2 = (Normal cfg, h') /\
    composed_json_config h0 (obj_props oc)
      (own_props (default VUndefined (obj_props oc !! "headers")) h0) h' cfg /\
    h1 ⊆ h'.
Proof.
  intros Hsub Hc Hhv Hcs.
  destruct (withAcceptJSON_run h1 c oc (lookup_weaken _ _ _ _ Hc Hsub)
              (live_weaken _ _ _ Hsub Hhv))
    as (r1 & hd & h2 & Hrun1 & Hr1 & Hhd & Hsub2 & Hr1' & Hhd').
  destruct (withCancelToken_run h2 r1 _ Hr1') as (r2 & h' & Hrun2 & Hr2 & Hsub' & Hr2').
  exists r1, h2, (VObj r2), h'. split_and!; [exact Hrun1|exact Hrun2| |by etrans].
  exists r2, hd. split_and!; [done| |by eapply grow_fresh| |].
  - eapply grow_fresh; [|exact Hr2]. by etrans.
  - rewrite Hr2'. cbn [obj_props]. do 3 f_equal.
    apply cancel_token_of_weaken; [by etrans|done|by rewrite lookup_insert_ne..].
  - eapply lookup_weaken; [|exact Hsub']. rewrite Hhd'. do 3 f_equal.
    by apply own_props_weaken.
Qed.

Section FacadeRun.

Variable transport : string -> list value -> js value.

Ltac run_with E := erewrite bind_run by exact E.

Lemma data_verb_run verb url data (h : heap) (c : positive) (oc : object) :
  h !! c = Some oc ->
  live h (default VUndefined (obj_props oc !! "cancelSource")) ->
  exists data' cfg h',
    (data ← default_empty data;
     config ← default_empty (VObj c);
     cfg ← withCancelToken config;
     transport verb [url; data; cfg]) h = transport verb [url; data'; cfg] h' /\
    passed_data h data h' data' /\
    composed_config h (obj_props oc) h' cfg /\
    h' !! c = Some oc.
Proof.
  intros Hc Hlive.
  destruct (default_empty_passes h h data (reflexivity h))
    as (data' & h1 & E1 & Hsub1 & Hd & Hdata).
  destruct (composed_from h h1 c oc Hsub1 Hc Hlive) as (cfg & h' & E2 & Hcfg & Hsub').
  exists data', cfg, h'. split_and!; [|by apply Hdata|done|].
  - run_with E1. erewrite bind_run by reflexivity. by run_with E2.
  - eapply lookup_weaken; [exact Hc|by etrans].
Qed.

Lemma json_data_verb_run verb url data (h : heap) (c : positive) (oc : object) :
  h !! c = Some oc ->
  live h (default VUndefined (obj_props oc !! "headers")) ->
  live h (default VUndefined (obj_props oc !! "cancelSource")) ->
  exists data' cfg h',
    (data ← default_empty data;
     config ← default_empty (VObj c);
     cfg ← withAcceptJSON config;
     (fun config =>
        data ← default_empty data;
        config ← default_empty config;
        cfg ← withCancelToken config;
        transport verb [url; data; cfg]) cfg) h
    = transport verb [url; data'; cfg] h' /\
    passed_data h data h' data' /\
    composed_json_config h (obj_props oc)
      (own_props (default VUndefined (obj_props oc !! "headers")) h) h' cfg /\
    h' !! c = Some oc.
Proof.
  intros Hc Hhv Hcs.
  destruct (default_empty_passes h h data (reflexivity h))
    as (data' & h1 & E1 & Hsub1 & Hd & Hdata).
  destruct (composed_json_from h h1 c oc Hsub1 Hc Hhv Hcs)
    as (r1 & h2 & cfg & h' & E2 & E3 & Hcfg & Hsub').
  exists data', cfg, h'. split_and!; [|by apply Hdata|done|].
  - run_with E1. erewrite bind_run by reflexivity. run_with E2.
    erewrite bind_run by (by apply default_empty_defined).
    erewrite bind_run by reflexivity. by run_with E3.
  - eapply lookup_weaken; [exact Hc|by etrans].
Qed.

End FacadeRun.

(** X17: called with a config object, each plain verb facade calls the
    transport verb of its name once, with the url, the data (for a verb
    that takes data: the caller's, or a new empty object when the caller
    gave none) and a new config that has the caller's properties and the
    [cancelToken] that [withCancelToken] settles on; the caller's config
    object is unchanged when the transport is called. *)
Theorem plain_facades_delegate
    (transport : string -> list value -> js value) (url data : value)
    (h : heap) (c : positive) (oc : object) :
  h !! c = Some oc ->
  live h (prop_of h (VObj c) "cancelSource") ->
  (exists cfg h',
      get transport url (VObj c) h = transport "get" [url; cfg] h' /\
      composed_config h (obj_props oc) h' cfg /\ h' !! c = Some oc) /\
  (exists data' cfg h',
      post transport url data (VObj c) h = transport "post" [url; data'; cfg] h' /\
      passed_data h data h' data' /\
      composed_config h (obj_props oc) h' cfg /\ h' !! c = Some oc) /\
  (exists data' cfg h',
      put transport url data (VObj c) h = transport "put" [url; data'; cfg] h' /\
      passed_data h data h' data' /\
      composed_config h (obj_props oc) h' cfg /\ h' !! c = Some oc) /\
  (exists data' cfg h',
      patch transport url data (VObj c) h = transport "patch" [url; data'; cfg] h' /\
      passed_data h data h' data' /\
      composed_config h (obj_props oc) h' cfg /\ h' !! c = Some oc) /\
  (exists data' cfg h',
      del transport url data (VObj c) h = transport "delete" [url; data'; cfg] h' /\
      passed_data h data h' data' /\
      composed_config h (obj_props oc) h' cfg /\ h' !! c = Some oc).
Proof.
  intros Hc Hlive. cbn [prop_of] in Hlive. rewrite Hc in Hlive.
  split_and!; try by apply data_verb_run.
  destruct (composed_from h h c oc (reflexivity h) Hc Hlive) as (cfg & h' & E & Hcfg & Hsub).
  exists cfg, h'. split_and!; [|done|by eapply lookup_weaken].
  unfold get. erewrite bind_run by reflexivity. by erewrite bind_run by exact E.
Qed.

(** X18: called with a config object, each JSON-suffixed facade calls
    the transport verb of its name once, with a new config that has the
    caller's properties, a new [headers] mapping -- the caller's headers
    over the default Accept 'application/json' -- and the [cancelToken]
    that [withCancelToken] settles on for the caller's config; the
    caller's config object is unchanged when the transport is called. *)
Theorem json_facades_delegate
    (transport : string -> list value -> js value) (url data : value)
    (h : heap) (c : positive) (oc : object) :
  h !! c = Some oc ->
  live h (prop_of h (VObj c) "headers") ->
  live h (prop_of h (VObj c) "cancelSource") ->
  let hs := own_props (prop_of h (VObj c) "headers") h in
  (exists cfg h',
      getJSON transport url (VObj c) h = transport "get" [url; cfg] h' /\
      composed_json_config h (obj_props oc) hs h' cfg /\ h' !! c = Some oc) /\
  (exists data' cfg h',
      postJSON transport url data (VObj c) h = transport "post" [url; data'; cfg] h' /\
      passed_data h data h' data' /\
      composed_json_config h (obj_props oc) hs h' cfg /\ h' !! c = Some oc) /\
  (exists data' cfg h',
      putJSON transport url data (VObj c) h = transport "put" [url; data'; cfg] h' /\
      passed_data h data h' data' /\
      composed_json_config h (obj_props oc) hs h' cfg /\ h' !! c = Some oc) /\
  (exists data' cfg h',
      patchJSON transport url data (VObj c) h = transport "patch" [url; data'; cfg] h' /\
      passed_data h data h' data' /\
      composed_json_config h (obj_props oc) hs h' cfg /\ h' !! c = Some oc) /\
  (exists data' cfg h',
      delJSON transport url data (VObj c) h = transport "delete" [url; data'; cfg] h' /\
      passed_data h data h' data' /\
      composed_json_config h (obj_props oc) hs h' cfg /\ h' !! c = Some oc).
Proof.
  intros Hc Hhv Hcs hs. unfold hs. cbn [prop_of] in *. rewrite Hc in *.
  split_and!; try by apply json_data_verb_run.
  destruct (composed_json_from h h c oc (reflexivity h) Hc Hhv Hcs)
    as (r1 & h2 & cfg & h' & E1 & E2 & Hcfg & Hsub).
  exists cfg, h'. split_and!; [|done|by eapply lookup_weaken].
  unfold getJSON. erewrite bind_run by reflexivity. erewrite bind_run by exact E1.
  unfold get. erewrite bind_run by reflexivity. by erewrite bind_run by exact E2.
Qed.

Lemma plain_facades_delegate_witness :
  exists cfg h',
    get echo_transport (VStr "/some/data") (VObj 1%positive) cancellable_config_heap
      = (Normal cfg, h') /\
    composed_config cancellable_config_heap
      {[ "cancelSource" := VObj 2%positive; "headers" := VObj 3%positive ]} h' cfg.
Proof.
  destruct (plain_facades_delegate echo_transport (VStr "/some/data") VUndefined
              cancellable_config_heap 1%positive
              (Obj ObjectProto {[ "cancelSource" := VObj 2%positive;
                                  "headers" := VObj 3%positive ]}))
    as [(cfg & h' & E & Hcfg & _) _].
  - reflexivity.
  - vm_compute. eexists; reflexivity.
  - exists cfg, h'. split; [exact E|exact Hcfg].
Defined.

Lemma json_facades_delegate_witness :
  exists cfg h',
    getJSON echo_transport (VStr "/some/data") (VObj 1%positive) cancellable_config_heap
      = (Normal cfg, h') /\
    composed_json_config cancellable_config_heap
      {[ "cancelSource" := VObj 2%positive; "headers" := VObj 3%positive ]}
      {[ "X-Requested-With" := VStr "XMLHttpRequest" ]} h' cfg.
Proof.
  destruct (json_facades_delegate echo_transport (VStr "/some/data") VUndefined
              cancellable_config_heap 1%positive
              (Obj ObjectProto {[ "cancelSource" := VObj 2%positive;
                                  "headers" := VObj 3%positive ]}))
    as [(cfg & h' & E & Hcfg & _) _].
  - reflexivity.
  - vm_compute. eexists; reflexivity.
  - vm_compute. eexists; reflexivity.
  - exists cfg, h'. split; [exact E|exact Hcfg].
Defined.

(** * The earlier revision's hooks *)

(** ** The rejected-response hook *)

Lemma after_delete_prop e k (h : heap) (Q : completion unit -> heap -> Prop) :
  Q (Normal tt) (alter (fun o => Obj (obj_proto o) (delete k (obj_props o))) e h) ->
  after (delete_prop (VObj e) k) h Q.
Proof. done. Qed.

Lemma after_assign_one e src (h : heap) (Q : completion value -> heap -> Prop) :
  Q (Normal (VObj e))
    (alter (fun o => Obj (obj_proto o) (own_props src h ∪ obj_props o)) e h) ->
  after (Object_assign_value (VObj e) [src]) h Q.
Proof. done. Qed.

Lemma not_in_fields (k : string) (ks : list string) :
  k ∉ ks -> Forall (fun k' => k' ≠ k) ks.
Proof. intros Hk. apply Forall_forall. intros k' Hin ->. by apply Hk. Qed.

Lemma unavailable_other c hd rq can k :
  k ∉ response_fields -> unavailable c hd rq can !! k = None.
Proof.
  intros Hk%not_in_fields. unfold response_fields in Hk.
  repeat (apply Forall_cons in Hk as [? Hk]).
  unfold unavailable, list_to_map. cbn [fold_right fst snd].
  by rewrite !lookup_insert_ne by done.
Qed.

Lemma unavailable_fields c hd rq can :
  unavailable c hd rq can !! "status" = Some (VNum 503) /\
  unavailable c hd rq can !! "statusText" = Some (VStr "Service Unavailable") /\
  unavailable c hd rq can !! "config" = Some c /\
  unavailable c hd rq can !! "headers" = Some hd /\
  unavailable c hd rq can !! "request" = Some rq /\
  unavailable c hd rq can !! "data"
    = Some (VStr (if can then "Request cancelled"
                  else "Request timeout or server unavailable")).
Proof.
  unfold unavailable, list_to_map. cbn [fold_right fst snd].
  split_and!; by rewrite ?lookup_insert_ne, lookup_insert_eq by done.
Qed.

(** The value of a property of the failure in the heap the hook leaves. *)
Ltac final_field :=
  cbn [prop_of]; heap_lookup; cbn [obj_props];
  repeat first [ rewrite lookup_insert_eq | rewrite lookup_insert_ne by done
               | rewrite lookup_delete_ne by done | rewrite lookup_delete_eq ].

Section LegacyRejected.

Variable isCancel : value -> heap -> bool.
Variable ToPrimitive : value -> js value.
Variable StringToNumber : string -> option Z.


Lemma legacy_no_response_run (hb : heap) (e : positive) (oe : object) :
  cancel_reads_mark isCancel ->
  truthy (default VUndefined (obj_props oe !! "response")) = false ->
  after (Legacy.rejectedResponseInterceptor isCancel ToPrimitive StringToNumber (VObj e))
    (<[e := oe]> hb) (no_response_outcome isCancel (<[e := oe]> hb) e oe).
Proof.
  intros Hmark Hr. unfold Legacy.rejectedResponseInterceptor.
  set (h := <[e := oe]> hb).
  assert (Hcan : forall h1,
            prop_of h1 (VObj e) "__CANCEL__" = prop_of h (VObj e) "__CANCEL__" ->
            isCancel (VObj e) h1 = isCancel (VObj e) h) by (intros; by apply Hmark).
  assert (Hnf : "__CANCEL__" ∉ response_fields) by not_predicate.
  assert (Hold : forall k, prop_of h (VObj e) k = default VUndefined (obj_props oe !! k)).
  { intros k. unfold h. cbn [prop_of]. by rewrite lookup_insert_eq. }
  assert (Hframe : forall l o, l ≠ e -> h !! l = Some o -> hb !! l = Some o).
  { intros l o Hl. unfold h. by rewrite lookup_insert_ne. }
  unfold h at 1.
  apply after_bind, after_get_prop. cbn [nullish prop_of]. rewrite lookup_insert_eq, Hr.
  apply after_bind, after_ret.
  apply after_bind, after_get_prop. cbn [nullish prop_of]. rewrite lookup_insert_eq.
  apply after_bind, after_set_prop_at.
  apply after_bind, after_get_prop. cbn [nullish prop_of]. rewrite lookup_insert_eq.
  cbn [obj_props]. rewrite lookup_insert_ne by done. rewrite Hr.
  apply after_bind, after_bind, after_get_prop. cbn [nullish prop_of]. rewrite lookup_insert_eq.
  cbn [obj_props]. rewrite lookup_insert_ne by done.
  apply after_bind.
  set (cfg0 := default VUndefined (obj_props oe !! "config")).
  assert (Hlit : forall (cv : value) (hn : heap)
                        (Q : completion value -> heap -> Prop),
    hn !! e = Some (Obj (obj_proto oe)
                      (<["message" := default VUndefined (obj_props oe !! "message")]>
                         (obj_props oe))) ->
    (forall lh lq ll, hn !! lh = None -> hn !! lq = None -> hn !! ll = None ->
       lh ≠ lq -> lh ≠ ll -> lq ≠ ll ->
       Q (Normal (VObj ll))
         (<[ll := Obj ObjectProto
                    (unavailable cv (VObj lh) (VObj lq) (isCancel (VObj e) h))]>
            (<[lq := Obj ObjectProto ∅]> (<[lh := Obj ObjectProto ∅]> hn)))) ->
    after (headers ← object_literal [];
           request ← object_literal [];
           cancelled ← Legacy.isCancelled isCancel (VObj e);
           object_literal
             [("status", VNum 503);
              ("statusText", VStr "Service Unavailable");
              ("config", cv);
              ("headers", headers);
              ("request", request);
              ("data", VStr (if cancelled : bool then "Request cancelled"
                             else "Request timeout or server unavailable"))]) hn Q).
  { intros cv hn Q He HQ.
    apply after_bind, after_object_literal. intros lh Hlh.
    apply after_bind, after_object_literal. intros lq Hlq. split_fresh Hlq.
    apply after_bind, after_read.
    rewrite Hcan.
    2:{ rewrite (Hold "__CANCEL__"). cbn [prop_of].
        rewrite !lookup_insert_ne by congruence. rewrite He. cbn [obj_props].
        by rewrite lookup_insert_ne. }
    apply after_object_literal. intros ll Hll. split_fresh Hll.
    by apply HQ. }
  assert (Hrest : forall (cv : value) (lh lq ll : positive) (hn : heap),
    e ≠ ll -> e ≠ lq -> e ≠ lh ->
    after (Object_assign_value (VObj e) [VObj ll];;
           delete_prop (VObj e) "response";;
           cancelled ← Legacy.isCancelled isCancel (VObj e);
           set_prop (VObj e) "cancelled" (VBool cancelled);;
           invalid ← Legacy.isInvalid ToPrimitive StringToNumber (VObj e);
           set_prop (VObj e) "invalid" (VBool invalid);;
           (throw (VObj e) : js value))
      (<[ll := Obj ObjectProto (unavailable cv (VObj lh) (VObj lq) (isCancel (VObj e) h))]>
         (<[lq := Obj ObjectProto ∅]> (<[lh := Obj ObjectProto ∅]>
            (<[e := Obj (obj_proto oe)
                      (<["message" := default VUndefined (obj_props oe !! "message")]>
                         (obj_props oe))]> hn))))
      (fun (c : completion value) h' =>
         c = Thrown (VObj e) /\
         h' = <[ll := Obj ObjectProto
                        (unavailable cv (VObj lh) (VObj lq) (isCancel (VObj e) h))]>
                (<[lq := Obj ObjectProto ∅]> (<[lh := Obj ObjectProto ∅]>
                   (<[e := Obj (obj_proto oe)
                        (<["invalid" := VBool false]>
                           (<["cancelled" := VBool (isCancel (VObj e) h)]>
                              (delete "response"
                                 (unavailable cv (VObj lh) (VObj lq) (isCancel (VObj e) h)
                                  ∪ <["message" := default VUndefined (obj_props oe !! "message")]>
                                      (obj_props oe)))))]> hn))))).
  { intros cv lh lq ll hn ? ? ?.
    apply after_bind, after_assign_one. push_alter. cbn [obj_proto obj_props own_props].
    rewrite lookup_insert_eq. cbn [obj_props].
    apply after_bind, after_delete_prop. push_alter. cbn [obj_proto obj_props].
    apply after_bind, after_read.
    rewrite Hcan.
    2:{ rewrite (Hold "__CANCEL__"). cbn [prop_of]. heap_lookup. cbn [obj_props].
        rewrite lookup_delete_ne by done.
        rewrite lookup_union_r by (by apply unavailable_other).
        by rewrite lookup_insert_ne. }
    apply after_bind, after_set_prop. push_alter. cbn [obj_proto obj_props].
    apply after_bind. unfold Legacy.isInvalid.
    apply after_bind, after_get_prop. cbn [nullish].
    destruct (unavailable_fields cv (VObj lh) (VObj lq) (isCancel (VObj e) h))
      as (Fst & _).
    final_field. rewrite (lookup_union_Some_l _ _ _ _ Fst). cbn [default from_option id].
    apply after_ret. cbn [loose_eq_primitive Z.eqb Pos.eqb].
    apply after_bind, after_set_prop. push_alter. cbn [obj_proto obj_props].
    by apply after_throw. }
  assert (Hfinal : forall (cv : value) (lh lq ll : positive) (hn : heap),
    hb ⊆ hn -> hn !! lh = None -> hn !! lq = None -> hn !! ll = None ->
    e ≠ lh -> e ≠ lq -> e ≠ ll -> lh ≠ lq -> lh ≠ ll -> lq ≠ ll ->
    (if truthy cfg0 then cv = cfg0
     else exists lc, cv = VObj lc /\ lc ≠ e /\ hb !! lc = None /\
                     hn !! lc = Some (Obj ObjectProto ∅)) ->
    no_response_outcome isCancel h e oe (Thrown (VObj e))
      (<[ll := Obj ObjectProto
                 (unavailable cv (VObj lh) (VObj lq) (isCancel (VObj e) h))]>
         (<[lq := Obj ObjectProto ∅]> (<[lh := Obj ObjectProto ∅]>
            (<[e := Obj (obj_proto oe)
                 (<["invalid" := VBool false]>
                    (<["cancelled" := VBool (isCancel (VObj e) h)]>
                       (delete "response"
                          (unavailable cv (VObj lh) (VObj lq) (isCancel (VObj e) h)
                           ∪ <["message" := default VUndefined (obj_props oe !! "message")]>
                               (obj_props oe)))))]> hn))))).
  { intros cv lh lq ll hn Hsub Hlh Hlq Hll ? ? ? ? ? ? Hcv.
    assert (Hnew : forall l, hn !! l = None -> e ≠ l -> h !! l = None).
    { intros l Hl ?. unfold h. rewrite lookup_insert_ne by done.
      by eapply lookup_weaken_None. }
    destruct (unavailable_fields cv (VObj lh) (VObj lq) (isCancel (VObj e) h))
      as (Fst & Ftx & Fcf & Fhd & Frq & Fda).
    unfold no_response_outcome. rewrite !Hold. fold cfg0.
    split_and!.
    + done.
    + eexists. split_and!; [by heap_lookup|done|]. cbn [obj_props].
      by rewrite !lookup_insert_ne, lookup_delete_eq by done.
    + final_field. by rewrite (lookup_union_Some_l _ _ _ _ Fst).
    + final_field. by rewrite (lookup_union_Some_l _ _ _ _ Ftx).
    + final_field. by rewrite (lookup_union_Some_l _ _ _ _ Fda).
    + final_field. rewrite (lookup_union_Some_l _ _ _ _ Fhd). exists lh.
      split_and!; [done|by apply Hnew|by heap_lookup].
    + final_field. rewrite (lookup_union_Some_l _ _ _ _ Frq). exists lq.
      split_and!; [done|by apply Hnew|by heap_lookup].
    + final_field. rewrite (lookup_union_Some_l _ _ _ _ Fcf). cbn [default from_option id].
      destruct (truthy cfg0); [done|].
      destruct Hcv as (lc & -> & ? & Hlc & Hlc'). exists lc.
      assert (lc ≠ ll /\ lc ≠ lq /\ lc ≠ lh) as (? & ? & ?)
        by (split_and!; intros ->; congruence).
      split_and!; [done|unfold h; by rewrite lookup_insert_ne|by heap_lookup].
    + by final_field.
    + by final_field.
    + intros k Hk. apply not_elem_of_app in Hk as [Hk1 Hk2].
      apply not_in_fields in Hk2. unfold settled_fields in Hk2.
      repeat (apply Forall_cons in Hk2 as [? Hk2]).
      rewrite (Hold k). final_field.
      rewrite lookup_union_r by (by apply unavailable_other).
      destruct (decide (k = "message")) as [->|Hm].
      * rewrite lookup_insert_eq. cbn [default from_option id]. reflexivity.
      * by rewrite lookup_insert_ne.
    + intros l o Hl Hlo. apply Hframe in Hlo; [|done].
      apply (lookup_weaken _ _ _ _ Hlo) in Hsub.
      assert (l ≠ ll /\ l ≠ lq /\ l ≠ lh) as (? & ? & ?)
        by (split_and!; intros ->; congruence).
      by heap_lookup. }
  assert (Hgo : forall (cv : value) (hn : heap),
    hb ⊆ hn ->
    (if truthy cfg0 then cv = cfg0
     else exists lc, cv = VObj lc /\ lc ≠ e /\ hb !! lc = None /\
                     hn !! lc = Some (Obj ObjectProto ∅)) ->
    after (headers ← object_literal [];
           request ← object_literal [];
           cancelled ← Legacy.isCancelled isCancel (VObj e);
           object_literal
             [("status", VNum 503);
              ("statusText", VStr "Service Unavailable");
              ("config", cv);
              ("headers", headers);
              ("request", request);
              ("data", VStr (if cancelled : bool then "Request cancelled"
                             else "Request timeout or server unavailable"))])
      (<[e := Obj (obj_proto oe)
                (<["message" := default VUndefined (obj_props oe !! "message")]>
                   (obj_props oe))]> hn)
      (fun c h' =>
         match c with
         | Normal src =>
             after (Object_assign_value (VObj e) [src];;
                    delete_prop (VObj e) "response";;
                    cancelled ← Legacy.isCancelled isCancel (VObj e);
                    set_prop (VObj e) "cancelled" (VBool cancelled);;
                    invalid ← Legacy.isInvalid ToPrimitive StringToNumber (VObj e);
                    set_prop (VObj e) "invalid" (VBool invalid);;
                    throw (VObj e)) h' (no_response_outcome isCancel h e oe)
         | Thrown x => no_response_outcome isCancel h e oe (Thrown x) h'
         end)).
  { intros cv hn Hsub Hcv. apply Hlit; [by rewrite lookup_insert_eq|].
    intros lh lq ll Hlh Hlq Hll ? ? ?.
    apply lookup_insert_None in Hlh as [Hlh ?].
    apply lookup_insert_None in Hlq as [Hlq ?].
    apply lookup_insert_None in Hll as [Hll ?].
    eapply after_mono; [by apply Hrest|].
    intros c h' [-> ->]. by apply Hfinal. }
  destruct (truthy cfg0) eqn:Hc.
  - apply after_ret. by apply Hgo.
  - apply after_object_literal. intros lc Hlc. apply lookup_insert_None in Hlc as [Hlc ?].
    rewrite insert_insert_ne by done. apply Hgo.
    + by apply insert_subseteq.
    + exists lc. split_and!; [done|done|done|by rewrite lookup_insert_eq].
Qed.

(** X19: in the earlier revision, a failure object with no response
    attached is thrown back made up as a 503 reply: status 503, statusText
    'Service Unavailable', new empty [headers] and [request] objects, its
    own config when that is truthy and a new empty object otherwise, data
    'Request cancelled' or 'Request timeout or server unavailable'
    according to the cancellation predicate, [cancelled] as that predicate
    says and [invalid] false.  No [response] property is left, the message
    and every other property are as they were, and no other object is
    changed. *)
Theorem legacy_no_response_is_unavailable (h : heap) (e : positive) (oe : object) :
  cancel_reads_mark isCancel ->
  h !! e = Some oe ->
  truthy (prop_of h (VObj e) "response") = false ->
  exists h',
    Legacy.rejectedResponseInterceptor isCancel ToPrimitive StringToNumber (VObj e) h
      = (Thrown (VObj e), h') /\
    no_response_outcome isCancel h e oe (Thrown (VObj e)) h'.
Proof.
  intros Hmark He Hr. cbn [prop_of] in Hr. rewrite He in Hr.
  pose proof (legacy_no_response_run h e oe Hmark Hr) as Hrun.
  rewrite (insert_id h e oe He) in Hrun.
  apply after_elim in Hrun as (c & h' & Hrun & Hout).
  assert (c = Thrown (VObj e)) as -> by apply Hout.
  by exists h'.
Qed.

End LegacyRejected.

Lemma loose_eq_primitive_run TP SN v n :
  primitive v -> loose_eq_number TP SN v n = js_ret (loose_eq_primitive SN v n).
Proof. by destruct v. Qed.

Section LegacyMerged.

Variable isCancel : value -> heap -> bool.
Variable ToPrimitive : value -> js value.
Variable StringToNumber : string -> option Z.


Lemma legacy_response_run (hb : heap) (e lr : positive) (oe ore : object) (st : value) :
  cancel_reads_mark isCancel ->
  obj_props oe !! "response" = Some (VObj lr) ->
  lr ≠ e ->
  hb !! lr = Some ore ->
  obj_props ore !! "status" = Some st ->
  primitive st ->
  after (Legacy.rejectedResponseInterceptor isCancel ToPrimitive StringToNumber (VObj e))
    (<[e := oe]> hb)
    (fun c h' => c = Thrown (VObj e) /\
                 merged_outcome isCancel StringToNumber (<[e := oe]> hb) e oe ore st h').
Proof.
  intros Hmark Hr Hne Hlr Hst Hprim. unfold Legacy.rejectedResponseInterceptor.
  set (h := <[e := oe]> hb).
  assert (Hold : forall k, prop_of h (VObj e) k = default VUndefined (obj_props oe !! k)).
  { intros k. unfold h. cbn [prop_of]. by rewrite lookup_insert_eq. }
  unfold h at 1.
  apply after_bind, after_get_prop. cbn [nullish prop_of]. rewrite lookup_insert_eq, Hr.
  cbn [default from_option id truthy].
  apply after_bind, after_bind, after_get_prop. cbn [nullish prop_of].
  rewrite lookup_insert_eq, Hr. cbn [default from_option id].
  apply after_bind, after_get_prop. cbn [nullish prop_of].
  rewrite lookup_insert_ne by done. rewrite Hlr, Hst. cbn [default from_option id].
  apply after_ret.
  set (m := if strict_eq st (VNum 422) then VStr "Validation errors"
            else default VUndefined (obj_props oe !! "message")).
  apply after_bind.
  apply (after_mono _ _ (fun c h' => c = Normal m /\ h' = <[e := oe]> hb)).
  { unfold m. destruct (strict_eq st (VNum 422)); [by apply after_ret|].
    apply after_get_prop. cbn [nullish prop_of]. by rewrite lookup_insert_eq. }
  intros c h' [-> ->].
  apply after_bind, after_set_prop_at.
  apply after_bind, after_get_prop. cbn [nullish prop_of]. rewrite lookup_insert_eq.
  cbn [obj_props]. rewrite lookup_insert_ne by done. rewrite Hr.
  cbn [default from_option id truthy].
  apply after_bind, after_ret.
  apply after_bind, after_assign_one. push_alter. cbn [obj_proto obj_props own_props].
  rewrite lookup_insert_ne by done. rewrite Hlr.
  apply after_bind, after_delete_prop. push_alter. cbn [obj_proto obj_props].
  apply after_bind, after_read.
  set (can := isCancel (VObj e) _).
  apply after_bind, after_set_prop. push_alter. cbn [obj_proto obj_props].
  apply after_bind. unfold Legacy.isInvalid.
  apply after_bind, after_get_prop. cbn [nullish].
  final_field. rewrite (lookup_union_Some_l _ _ _ _ Hst). cbn [default from_option id].
  rewrite loose_eq_primitive_run by done. apply after_ret.
  apply after_bind, after_set_prop. push_alter. cbn [obj_proto obj_props].
  apply after_throw. split; [done|].
  assert (Hkeys : forall k, k ∉ settled_fields ->
            "response" ≠ k /\ "cancelled" ≠ k /\ "invalid" ≠ k).
  { intros k Hk%not_in_fields. unfold settled_fields in Hk.
    by repeat (apply Forall_cons in Hk as [? Hk]). }
  unfold merged_outcome. split_and!.
  - eexists. split_and!; [by heap_lookup|done|]. cbn [obj_props].
    by rewrite !lookup_insert_ne, lookup_delete_eq by done.
  - intros k v Hk (? & ? & ?)%Hkeys. final_field.
    by rewrite (lookup_union_Some_l _ _ _ _ Hk).
  - intros k Hk [Hm (? & ? & ?)%Hkeys]%not_elem_of_cons. rewrite (Hold k). final_field.
    rewrite lookup_union_r by done. by rewrite lookup_insert_ne.
  - intros Hm. rewrite (Hold "message"). final_field.
    rewrite lookup_union_r by done. by rewrite lookup_insert_eq.
  - final_field. cbn [default from_option id]. f_equal. apply Hmark.
    unfold can. by final_field.
  - intros Hc. apply Hmark. rewrite (Hold "__CANCEL__"). final_field.
    rewrite lookup_union_r by done. by rewrite lookup_insert_ne.
  - by final_field.
  - intros l o Hl. unfold h. by rewrite !lookup_insert_ne.
Qed.

(** X20: in the earlier revision, a failure object that carries a
    response object with a primitive status is thrown back with every
    property of the response copied onto it (status, statusText, headers,
    config, request, data, ...: the response's value wins over the
    failure's own) and the [response] property removed.  Its message
    becomes 'Validation errors' exactly when the status is the number 422
    (unless the response has a message of its own), [invalid] says whether
    the status [==] 422, [cancelled] is what the cancellation predicate
    says of the failure as thrown, and no other object is changed. *)
Theorem legacy_response_is_merged (h : heap) (e lr : positive) (oe ore : object)
    (st : value) :
  cancel_reads_mark isCancel ->
  h !! e = Some oe ->
  prop_of h (VObj e) "response" = VObj lr ->
  lr ≠ e ->
  h !! lr = Some ore ->
  obj_props ore !! "status" = Some st ->
  primitive st ->
  exists h',
    Legacy.rejectedResponseInterceptor isCancel ToPrimitive StringToNumber (VObj e) h
      = (Thrown (VObj e), h') /\
    merged_outcome isCancel StringToNumber h e oe ore st h'.
Proof.
  intros Hmark He Hr Hne Hlr Hst Hprim. cbn [prop_of] in Hr. rewrite He in Hr.
  destruct (obj_props oe !! "response") as [r|] eqn:Er; [|discriminate Hr].
  cbn [default from_option id] in Hr. subst r.
  assert (Hlr' : delete e h !! lr = Some ore) by (by rewrite lookup_delete_ne).
  pose proof (legacy_response_run (delete e h) e lr oe ore st Hmark Er Hne Hlr' Hst Hprim)
    as Hrun.
  rewrite insert_delete_id in Hrun by done.
  apply after_elim in Hrun as (c & h' & Hrun & -> & Hout).
  by exists h'.
Qed.

(** X21: the two tests of the earlier revision disagree on a status that
    is not the number 422 but converts to it, such as the string '422':
    the failure is flagged [invalid], and keeps its own message instead
    of 'Validation errors'. *)
Theorem legacy_loose_422_is_invalid_only (h : heap) (e lr : positive) (oe ore : object)
    (s : string) :
  cancel_reads_mark isCancel ->
  h !! e = Some oe ->
  prop_of h (VObj e) "response" = VObj lr ->
  lr ≠ e ->
  h !! lr = Some ore ->
  obj_props ore !! "status" = Some (VStr s) ->
  StringToNumber s = Some 422 ->
  obj_props ore !! "message" = None ->
  exists h',
    Legacy.rejectedResponseInterceptor isCancel ToPrimitive StringToNumber (VObj e) h
      = (Thrown (VObj e), h') /\
    prop_of h' (VObj e) "invalid" = VBool true /\
    prop_of h' (VObj e) "message" = prop_of h (VObj e) "message".
Proof.
  intros Hmark He Hr Hne Hlr Hst Hnum Hmsg. cbn [prop_of] in Hr. rewrite He in Hr.
  destruct (obj_props oe !! "response") as [r|] eqn:Er; [|discriminate Hr].
  cbn [default from_option id] in Hr. subst r.
  assert (Hlr' : delete e h !! lr = Some ore) by (by rewrite lookup_delete_ne).
  pose proof (legacy_response_run (delete e h) e lr oe ore (VStr s) Hmark Er Hne Hlr' Hst I)
    as Hrun.
  rewrite insert_delete_id in Hrun by done.
  apply after_elim in Hrun as (c & h' & Hrun & -> & Hout).
  destruct Hout as (_ & _ & _ & Hm & _ & _ & Hinv & _).
  exists h'. split_and!; [exact Hrun| |by apply Hm].
  rewrite Hinv. cbn [loose_eq_primitive]. by rewrite Hnum.
Qed.

End LegacyMerged.

(** ** The fulfilled-response hook *)

Section LegacyFulfilled.

Variable JSON_parse : string -> parse_result.


Lemma legacy_fulfilled_prefix (h : heap) (response : value) (k : value -> js value) :
  nullish (path h response ["config"; "headers"]) = false ->
  (cfg ← get_prop response "config";
   hdrs ← get_prop cfg "headers";
   accept ← get_prop hdrs "Accept";
   k accept) h
  = k (path h response ["config"; "headers"; "Accept"]) h /\ nullish response = false.
Proof.
  cbn [path fold_left]. intros Hn.
  set (cfg := prop_of h response "config") in *.
  assert (Hn2 : nullish cfg = false).
  { destruct (nullish cfg) eqn:E; [|done]. by rewrite (prop_of_nullish h cfg) in Hn. }
  assert (Hn1 : nullish response = false).
  { destruct (nullish response) eqn:E; [|done]. unfold cfg in Hn2.
    by rewrite (prop_of_nullish h response) in Hn2. }
  split; [|done].
  rewrite (bind_run _ _ _ _ _ (get_prop_run response "config" h Hn1)). fold cfg.
  rewrite (bind_run _ _ _ _ _ (get_prop_run cfg "headers" h Hn2)).
  by rewrite (bind_run _ _ _ _ _ (get_prop_run _ "Accept" h Hn)).
Qed.

(** X22: the earlier revision's fulfilled-response hook returns the
    response as it is, with the heap unchanged, whenever the Accept header
    is anything but exactly 'application/json' -- a missing one, or
    'application/json; charset=utf-8' --, or the data is an object, or
    the text of the data is accepted by [JSON.parse]. *)
Theorem legacy_hook_passes (h : heap) (response : value) :
  nullish (path h response ["config"; "headers"]) = false ->
  path h response ["config"; "headers"; "Accept"] ≠ json_type \/
  typeof_object (prop_of h response "data") = true \/
  JSON_parse (to_string (prop_of h response "data")) = Parsed ->
  Legacy.fulfilledResponseInterceptor JSON_parse response h = (Normal response, h).
Proof.
  intros Hn Hcase. unfold Legacy.fulfilledResponseInterceptor.
  destruct (legacy_fulfilled_prefix h response
              (fun accept =>
                 fine ← (if negb (strict_eq accept (VStr "application/json")) then js_ret true
                         else d ← get_prop response "data"; js_ret (typeof_object d));
                 if fine : bool then js_ret response
                 else
                   d ← get_prop response "data";
                   match JSON_parse (to_string d) with
                   | Parsed => js_ret response
                   | SyntaxError msg =>
                       ex ← alloc (Obj SyntaxErrorProto {[ "message" := VStr msg ]});
                       upd ← object_literal [("message", VStr ("Malformed JSON: " ++ msg));
                                             ("status", VNum 415);
                                             ("statusText", VStr "Unsupported Media Type")];
                       e ← Object_assign ex [response; upd];
                       throw e
                   end) Hn) as [-> Hn1].
  set (accept := path h response ["config"; "headers"; "Accept"]) in *.
  unfold strict_eq. fold json_type.
  destruct (decide (accept = json_type)) as [Ea|Ea].
  - rewrite bool_decide_eq_true_2 by done. cbn [negb].
    erewrite bind_run; [|by erewrite bind_run by (by apply get_prop_run)].
    destruct (typeof_object (prop_of h response "data")) eqn:Et; [done|].
    rewrite (bind_run _ _ _ _ _ (get_prop_run response "data" h Hn1)).
    destruct Hcase as [? | [? | ->] ]; done.
  - rewrite bool_decide_eq_false_2 by done. cbn [negb]. by erewrite bind_run by reflexivity.
Qed.

(** X23: for a response to a request with Accept exactly
    'application/json', whose data is not an object and is rejected by
    [JSON.parse], the earlier revision throws a new SyntaxError with the
    message 'Malformed JSON: ' followed by the parser's message, status
    415 and statusText 'Unsupported Media Type', and otherwise exactly the
    properties of the response (data, headers, config, ...); the response
    and every other object are unchanged. *)
Theorem legacy_malformed_json_is_415 (h : heap) (r : positive) (ore : object) (msg : string) :
  h !! r = Some ore ->
  path h (VObj r) ["config"; "headers"; "Accept"] = json_type ->
  typeof_object (prop_of h (VObj r) "data") = false ->
  JSON_parse (to_string (prop_of h (VObj r) "data")) = SyntaxError msg ->
  exists (ex : positive) (h' : heap) (o' : object),
    Legacy.fulfilledResponseInterceptor JSON_parse (VObj r) h = (Thrown (VObj ex), h') /\
    h !! ex = None /\ h ⊆ h' /\
    h' !! ex = Some o' /\
    obj_proto o' = SyntaxErrorProto /\
    obj_props o' !! "message" = Some (VStr ("Malformed JSON: " ++ msg)) /\
    obj_props o' !! "status" = Some (VNum 415) /\
    obj_props o' !! "statusText" = Some (VStr "Unsupported Media Type") /\
    (forall k, k ∉ ["message"; "status"; "statusText"] ->
               obj_props o' !! k = obj_props ore !! k).
Proof.
  intros Hr Ha Ht Hp.
  assert (Hn : nullish (path h (VObj r) ["config"; "headers"]) = false).
  { destruct (nullish (path h (VObj r) ["config"; "headers"])) eqn:E; [|done].
    cbn [path fold_left] in Ha, E. by rewrite (prop_of_nullish _ _ _ E) in Ha. }
  cut (after (Legacy.fulfilledResponseInterceptor JSON_parse (VObj r)) h (fun c h' =>
         exists ex o', c = Thrown (VObj ex) /\ h !! ex = None /\ h ⊆ h' /\
           h' !! ex = Some o' /\
           obj_proto o' = SyntaxErrorProto /\
           obj_props o' !! "message" = Some (VStr ("Malformed JSON: " ++ msg)) /\
           obj_props o' !! "status" = Some (VNum 415) /\
           obj_props o' !! "statusText" = Some (VStr "Unsupported Media Type") /\
           (forall k, k ∉ ["message"; "status"; "statusText"] ->
                      obj_props o' !! k = obj_props ore !! k))).
  { intros (c & h' & Hrun & ex & o' & -> & ?)%after_elim. by exists ex, h', o'. }
  unfold Legacy.fulfilledResponseInterceptor.
  apply after_bind, after_get_prop. cbn [nullish].
  apply after_bind, after_get_prop.
  cbn [path fold_left] in Ha, Hn.
  destruct (nullish (prop_of h (VObj r) "config")) eqn:Hn2.
  { by rewrite (prop_of_nullish _ _ _ Hn2) in Hn. }
  apply after_bind, after_get_prop. rewrite Hn, Ha.
  apply after_bind. unfold strict_eq, json_type. rewrite bool_decide_eq_true_2 by done.
  cbn [negb].
  apply after_bind, after_get_prop. cbn [nullish]. apply after_ret. rewrite Ht.
  apply after_bind, after_get_prop. cbn [nullish]. rewrite Hp.
  apply after_bind, after_alloc. intros ex Hex.
  apply after_bind, after_object_literal. intros lu Hlu. split_fresh Hlu.
  assert (r ≠ ex /\ r ≠ lu) as [? ?] by (split; intros ->; congruence).
  apply after_bind, after_Object_assign_run.
  { rewrite !not_elem_of_cons. split_and!; [congruence|congruence|apply not_elem_of_nil]. }
  push_alter. cbn [obj_proto obj_props]. apply after_throw.
  eexists ex, _.
  split_and!;
    [done|done|apply insert_subseteq_r; [done|]; by apply insert_subseteq
    |by heap_lookup|done|..].
  all: cbn [obj_props]; unfold assign_props; cbn [foldl own_props]; heap_lookup;
    rewrite Hr; unfold list_to_map; cbn [fold_right fst snd obj_props].
  - by rewrite (lookup_union_Some_l _ _ _ (VStr ("Malformed JSON: " ++ msg)))
      by (by rewrite lookup_insert_eq).
  - by rewrite (lookup_union_Some_l _ _ _ (VNum 415))
      by (rewrite lookup_insert_ne by done; by rewrite lookup_insert_eq).
  - by rewrite (lookup_union_Some_l _ _ _ (VStr "Unsupported Media Type"))
      by (rewrite !lookup_insert_ne by done; by rewrite lookup_insert_eq).
  - intros k Hk%not_in_fields. repeat (apply Forall_cons in Hk as [? Hk]).
    rewrite lookup_union_r by (by rewrite !lookup_insert_ne).
    apply lookup_union_l. by rewrite lookup_singleton_ne.
Qed.

End LegacyFulfilled.
(** ** Examples *)

Lemma axios_isCancel_reads_mark : cancel_reads_mark axios_isCancel.
Proof. intros v h1 h2 E. unfold axios_isCancel. by rewrite E. Qed.

Lemma legacy_no_response_is_unavailable_witness :
  exists h',
    Legacy.rejectedResponseInterceptor axios_isCancel default_ToPrimitive
      decimal_StringToNumber (VObj 1%positive) network_error_heap
      = (Thrown (VObj 1%positive), h') /\
    no_response_outcome axios_isCancel network_error_heap 1%positive
      (Obj ErrorProto {[ "message" := VStr "Network Error"; "config" := VObj 2%positive ]})
      (Thrown (VObj 1%positive)) h'.
Proof.
  apply (legacy_no_response_is_unavailable axios_isCancel default_ToPrimitive
           decimal_StringToNumber network_error_heap 1%positive).
  - apply axios_isCancel_reads_mark.
  - reflexivity.
  - reflexivity.
Defined.

Lemma legacy_response_is_merged_witness :
  exists h',
    Legacy.rejectedResponseInterceptor axios_isCancel default_ToPrimitive
      decimal_StringToNumber (VObj 1%positive) validation_error_heap
      = (Thrown (VObj 1%positive), h') /\
    merged_outcome axios_isCancel decimal_StringToNumber validation_error_heap 1%positive
      (Obj ErrorProto {[ "message" := VStr "Request failed with status code 422";
                         "response" := VObj 2%positive ]})
      (Obj ObjectProto {[ "status" := VNum 422; "data" := VObj 3%positive ]})
      (VNum 422) h'.
Proof.
  apply (legacy_response_is_merged axios_isCancel default_ToPrimitive
           decimal_StringToNumber validation_error_heap 1%positive 2%positive).
  - apply axios_isCancel_reads_mark.
  - reflexivity.
  - reflexivity.
  - discriminate.
  - reflexivity.
  - reflexivity.
  - exact I.
Defined.

Lemma legacy_loose_422_is_invalid_only_witness :
  exists h',
    Legacy.rejectedResponseInterceptor axios_isCancel default_ToPrimitive
      decimal_StringToNumber (VObj 1%positive) string_status_error_heap
      = (Thrown (VObj 1%positive), h') /\
    prop_of h' (VObj 1%positive) "invalid" = VBool true /\
    prop_of h' (VObj 1%positive) "message" = VStr "Request failed with status code 422".
Proof.
  apply (legacy_loose_422_is_invalid_only axios_isCancel default_ToPrimitive
           decimal_StringToNumber string_status_error_heap 1%positive 2%positive
           (Obj ErrorProto {[ "message" := VStr "Request failed with status code 422";
                              "response" := VObj 2%positive ]})
           (Obj ObjectProto {[ "status" := VStr "422"; "data" := VStr "late reply" ]})
           "422").
  - apply axios_isCancel_reads_mark.
  - reflexivity.
  - reflexivity.
  - discriminate.
  - reflexivity.
  - reflexivity.
  - reflexivity.
  - reflexivity.
Defined.

Lemma legacy_hook_passes_witness :
  Legacy.fulfilledResponseInterceptor Json.parse (VObj 1%positive) charset_accept_reply_heap
  = (Normal (VObj 1%positive), charset_accept_reply_heap).
Proof.
  apply (legacy_hook_passes Json.parse charset_accept_reply_heap (VObj 1%positive)).
  - reflexivity.
  - left. vm_compute. discriminate.
Defined.

Lemma legacy_malformed_json_is_415_witness :
  exists (ex : positive) (h' : heap) (o' : object),
    Legacy.fulfilledResponseInterceptor Json.parse (VObj 1%positive) html_reply_heap
      = (Thrown (VObj ex), h') /\
    h' !! ex = Some o' /\
    obj_props o' !! "status" = Some (VNum 415) /\
    obj_props o' !! "data" = Some (VStr "<html></html>").
Proof.
  destruct (legacy_malformed_json_is_415 Json.parse html_reply_heap 1%positive
              (Obj ObjectProto {[ "status" := VNum 200; "config" := VObj 2%positive;
                                  "data" := VStr "<html></html>" ]})
              "Unexpected token in JSON")
    as (ex & h' & o' & Hrun & _ & _ & Ho' & _ & _ & Hst & _ & Hother);
    [by vm_compute..|].
  exists ex, h', o'. split_and!; [exact Hrun|exact Ho'|exact Hst|].
  rewrite Hother by (apply (bool_decide_unpack _); by vm_compute).
  vm_compute. reflexivity.
Defined.

(** * The initialisation block, on any client instance *)

Lemma prop_of_write_ne (h : heap) l k x v k' :
  k ≠ k' -> prop_of (write h l k x) v k' = prop_of h v k'.
Proof.
  intros Hk. destruct v as [| | | | | |l']; try done. unfold write. cbn [prop_of].
  destruct (decide (l = l')) as [->|Hl].
  - rewrite lookup_alter_eq. destruct (h !! l') as [o|]; [|done]. cbn.
    by rewrite lookup_insert_ne.
  - by rewrite lookup_alter_ne.
Qed.

Lemma prop_of_object_not_nullish (h : heap) v k l : prop_of h v k = VObj l -> nullish v = false.
Proof. by destruct v. Qed.

Lemma prop_of_number_live (h : heap) l k n : prop_of h (VObj l) k = VNum n -> is_Some (h !! l).
Proof. cbn [prop_of]. by destruct (h !! l). Qed.

Lemma write_None (h : heap) l k x l' : write h l k x !! l' = None <-> h !! l' = None.
Proof. unfold write. by rewrite lookup_alter_None. Qed.

Lemma after_write l k x (h : heap) (Q : completion unit -> heap -> Prop) :
  Q (Normal tt) (write h l k x) -> after (set_prop (VObj l) k x) h Q.
Proof. done. Qed.

(** One round of the loop over post, put and patch: three reads through
    the writes made so far, and a write to the group. *)
Ltac loop_round Hax Hd Hhd Hg :=
  apply after_bind, after_bind, after_get_prop; rewrite Hax;
  rewrite !prop_of_write_ne by done; rewrite Hd;
  apply after_bind, after_get_prop; cbn [nullish];
  rewrite !prop_of_write_ne by done;
  apply after_bind, after_get_prop; rewrite Hhd;
  rewrite !prop_of_write_ne by done; rewrite Hg;
  apply after_write.

(** X24: on any client instance whose [defaults], post, put and patch
    header groups and response handlers resolve to objects, the
    initialisation block of either revision returns normally and does
    exactly this: it sets [defaults.timeout] to 3000, sets Content-Type
    'application/json' in the three groups, and appends one new handler
    object holding the two hooks at index [length] of the handlers,
    raising [length] by one.  Handlers registered before, and every other
    property of the instance, stay as they were. *)
Theorem settings_are_six_writes (h : heap) (axios : value) (d gp gu ga ha : positive)
    (n : Z) :
  path h axios ["defaults"] = VObj d ->
  path h axios ["defaults"; "headers"; "post"] = VObj gp ->
  path h axios ["defaults"; "headers"; "put"] = VObj gu ->
  path h axios ["defaults"; "headers"; "patch"] = VObj ga ->
  path h axios ["interceptors"; "response"; "handlers"] = VObj ha ->
  prop_of h (VObj ha) "length" = VNum n ->
  exists (pair : positive) (h' : heap),
    h !! pair = None /\
    h' = write
           (write
              (<[pair := hook_pair]>
                 (write
                    (write
                       (write (write h d "timeout" (VNum 3000))
                              gp "Content-Type" json_type)
                       gu "Content-Type" json_type)
                    ga "Content-Type" json_type))
              ha (pretty n) (VObj pair))
           ha "length" (VNum (n + 1)) /\
    setCaxiosDefaults axios h = (Normal tt, h') /\
    Legacy.setGlobalDefaults axios h = (Normal tt, h').
Proof.
  intros Hd Hgp Hgu Hga Hha Hn. cbn [path fold_left] in *.
  assert (Hax : nullish axios = false).
  { eapply prop_of_object_not_nullish, Hd. }
  rewrite Hd in Hgp, Hgu, Hga.
  assert (Hhd : nullish (prop_of h (VObj d) "headers") = false)
    by (eapply prop_of_object_not_nullish, Hgp).
  assert (Hrv : nullish (prop_of h (prop_of h axios "interceptors") "response") = false)
    by (eapply prop_of_object_not_nullish, Hha).
  assert (Hiv : nullish (prop_of h axios "interceptors") = false).
  { destruct (nullish (prop_of h axios "interceptors")) eqn:E; [|done].
    by rewrite (prop_of_nullish h _ _ E) in Hrv. }
  cut (after (setCaxiosDefaults axios) h (fun c h' =>
         c = Normal tt /\ exists pair, h !! pair = None /\
         h' = write
           (write
              (<[pair := hook_pair]>
                 (write
                    (write
                       (write (write h d "timeout" (VNum 3000))
                              gp "Content-Type" json_type)
                       gu "Content-Type" json_type)
                    ga "Content-Type" json_type))
              ha (pretty n) (VObj pair))
           ha "length" (VNum (n + 1)))).
  { intros (c & h' & Hrun & -> & pair & Hpair & ->)%after_elim.
    eexists pair, _. split_and!; [done|reflexivity|exact Hrun|exact Hrun]. }
  unfold setCaxiosDefaults.
  apply after_bind, after_get_prop. rewrite Hax, Hd.
  apply after_bind, after_write. change (VNum (1000 * 3)) with (VNum 3000).
  apply after_bind. cbn [forEach].
  loop_round Hax Hd Hhd Hgp.
  loop_round Hax Hd Hhd Hgu.
  loop_round Hax Hd Hhd Hga.
  apply after_ret.
  apply after_bind, after_get_prop. rewrite Hax. rewrite !prop_of_write_ne by done.
  apply after_bind, after_get_prop. rewrite Hiv. rewrite !prop_of_write_ne by done.
  apply after_bind. unfold Axios.InterceptorManager_use.
  apply after_bind, after_get_prop. rewrite Hrv. rewrite !prop_of_write_ne by done. rewrite Hha.
  apply after_bind, after_object_literal. intros pair Hpair.
  rewrite !write_None in Hpair.
  apply after_bind. unfold Axios.array_push.
  apply after_bind, after_get_prop. cbn [nullish].
  rewrite prop_of_insert_ne.
  2:{ intros [= ->]. apply prop_of_number_live in Hn as [o Ho]. congruence. }
  rewrite !prop_of_write_ne by done. rewrite Hn.
  apply after_bind, after_write. apply after_bind, after_write.
  do 3 apply after_ret.
  split; [done|]. exists pair. split; [done|].
  unfold hook_pair, list_to_map. cbn [fold_right fst snd]. by rewrite insert_empty.
Qed.

Lemma settings_are_six_writes_witness :
  exists (pair : positive) (h' : heap),
    loaded_axios_heap !! pair = None /\
    h' = write
           (write
              (<[pair := hook_pair]>
                 (write
                    (write
                       (write (write loaded_axios_heap 9%positive "timeout" (VNum 3000))
                              5%positive "Content-Type" json_type)
                       6%positive "Content-Type" json_type)
                    7%positive "Content-Type" json_type))
              12%positive (pretty 0) (VObj pair))
           12%positive "length" (VNum (0 + 1)) /\
    setCaxiosDefaults loaded_axios loaded_axios_heap = (Normal tt, h') /\
    Legacy.setGlobalDefaults loaded_axios loaded_axios_heap = (Normal tt, h').
Proof.
  apply (settings_are_six_writes loaded_axios_heap loaded_axios
           9%positive 5%positive 6%positive 7%positive 12%positive 0);
    vm_compute; reflexivity.
Defined.
